(** * TypescriptToLua: the AST-to-Lua lowering engine of [src/Transpiler.ts]

    A shallow embedding of the class [LuaTranspiler]: every method is a
    function in a state-and-exception monad over the mutable fields
    [indent], [genVarCounter] and [transpilingSwitch].  The TypeScript
    compiler API ([ts.Node], [ts.SyntaxKind], [ts.TypeFlags], the type
    checker) is the external front-end; its trees are an inductive type and
    its oracles are section variables. *)

From Stdlib Require Import String Ascii List ZArith Bool Lia.
From Stdlib Require Import DecimalString.
Import ListNotations.
Open Scope string_scope.
Open Scope Z_scope.

(** ** The front-end's syntax trees *)

(** The members of [ts.SyntaxKind] that the transpiler can meet: tokens and
    keywords first, then the kinds of the composite nodes. *)
Inductive SyntaxKind : Set :=
  | EndOfFileToken
  | PlusToken | MinusToken | AsteriskToken | AsteriskAsteriskToken
  | SlashToken | PercentToken | PlusPlusToken | MinusMinusToken
  | LessThanToken | GreaterThanToken | LessThanEqualsToken
  | GreaterThanEqualsToken | EqualsEqualsToken | ExclamationEqualsToken
  | EqualsEqualsEqualsToken | ExclamationEqualsEqualsToken | EqualsToken
  | PlusEqualsToken | MinusEqualsToken | AsteriskEqualsToken
  | SlashEqualsToken | AmpersandAmpersandToken | BarBarToken
  | AmpersandToken | BarToken | CaretToken | ExclamationToken | TildeToken
  | LessThanLessThanToken | GreaterThanGreaterThanToken | CommaToken
  | DotDotDotToken | InKeyword | InstanceOfKeyword
  | TrueKeyword | FalseKeyword | NullKeyword | ThisKeyword | SuperKeyword
  | ContinueKeyword | DeclareKeyword | ExportKeyword | DefaultKeyword
  | StaticKeyword | PublicKeyword | PrivateKeyword | ProtectedKeyword
  | ReadonlyKeyword | AbstractKeyword | ExtendsKeyword | ImplementsKeyword
  | IdentifierKind | StringLiteralKind | NumericLiteralKind
  | TemplateHeadKind | TemplateMiddleKind | TemplateTailKind
  | BinaryExpressionKind | ConditionalExpressionKind | CallExpressionKind
  | NewExpressionKind | PropertyAccessExpressionKind
  | ElementAccessExpressionKind | TemplateExpressionKind | TemplateSpanKind
  | PostfixUnaryExpressionKind | PrefixUnaryExpressionKind
  | ArrayLiteralExpressionKind | ObjectLiteralExpressionKind
  | PropertyAssignmentKind | ShorthandPropertyAssignmentKind
  | ComputedPropertyNameKind | ParenthesizedExpressionKind
  | TypeAssertionExpressionKind | AsExpressionKind | FunctionExpressionKind
  | ArrowFunctionKind | ParameterKind | OmittedExpressionKind
  | BlockKind | SourceFileKind | VariableStatementKind
  | VariableDeclarationListKind | VariableDeclarationKind
  | ArrayBindingPatternKind | ObjectBindingPatternKind | BindingElementKind
  | ExpressionStatementKind | ReturnStatementKind | IfStatementKind
  | WhileStatementKind | ForStatementKind | ForOfStatementKind
  | ForInStatementKind | SwitchStatementKind | CaseBlockKind
  | CaseClauseKind | DefaultClauseKind | BreakStatementKind
  | ContinueStatementKind | ImportDeclarationKind | ImportClauseKind
  | NamespaceImportKind | NamedImportsKind | ImportSpecifierKind
  | EnumDeclarationKind | EnumMemberKind | FunctionDeclarationKind
  | TypeAliasDeclarationKind | InterfaceDeclarationKind
  | ClassDeclarationKind | HeritageClauseKind
  | ExpressionWithTypeArgumentsKind | PropertyDeclarationKind
  | ConstructorKind | MethodDeclarationKind
  | OtherKind (code : nat).

Scheme Boolean Equality for SyntaxKind.

(** [ts.Node].  Every node is a [Node], as in the compiler API; the fields
    are those the transpiler reads, in the order [forEachChild] visits
    them.  Type annotations, type parameters and decorators are not part of
    the tree.  An optional field is an [option]; a [NodeArray] is a list.
    [Token] is a token or keyword node of the given kind; [OtherNode] is a
    node of any kind not listed, of kind [OtherKind code]. *)
#[local] Unset Elimination Schemes.
Inductive Node : Type :=
  | Token (kind : SyntaxKind)
  | Identifier (text escapedText : string)
  | StringLiteral (text : string)
  | NumericLiteral (text : string)
  | TemplateHead (text : string)
  | TemplateMiddle (text : string)
  | TemplateTail (text : string)
  | BinaryExpression (left operatorToken right : Node)
  | ConditionalExpression (condition whenTrue whenFalse : Node)
  | CallExpression (expression : Node) (arguments : list Node)
  | NewExpression (expression : Node) (arguments : option (list Node))
  | PropertyAccessExpression (expression name : Node)
  | ElementAccessExpression (expression : Node)
      (argumentExpression : option Node)
  | TemplateExpression (head : Node) (templateSpans : list Node)
  | TemplateSpan (expression literal : Node)
  | PostfixUnaryExpression (operand : Node) (operator : SyntaxKind)
  | PrefixUnaryExpression (operator : SyntaxKind) (operand : Node)
  | ArrayLiteralExpression (elements : list Node)
  | ObjectLiteralExpression (properties : list Node)
  | PropertyAssignment (name initializer : Node)
  | ShorthandPropertyAssignment (name : Node)
  | ComputedPropertyName (expression : Node)
  | ParenthesizedExpression (expression : Node)
  | TypeAssertionExpression (expression : Node)
  | AsExpression (expression : Node)
  | FunctionExpression (modifiers : list Node) (name : option Node)
      (parameters : list Node) (body : Node)
  | ArrowFunction (modifiers : list Node) (parameters : list Node)
      (body : Node)
  | ParameterDeclaration (modifiers : option (list Node))
      (dotDotDotToken : option Node) (name : Node)
      (initializer : option Node)
  | OmittedExpression
  | Block (statements : list Node)
  | SourceFile (statements : list Node) (endOfFileToken : Node)
  | VariableStatement (modifiers : list Node) (declarationList : Node)
  | VariableDeclarationList (declarations : list Node)
  | VariableDeclaration (name : Node) (initializer : option Node)
  | ArrayBindingPattern (elements : list Node)
  | ObjectBindingPattern (elements : list Node)
  | BindingElement (dotDotDotToken : option Node)
      (propertyName : option Node) (name : Node)
      (initializer : option Node)
  | ExpressionStatement (expression : Node)
  | ReturnStatement (expression : option Node)
  | IfStatement (expression thenStatement : Node)
      (elseStatement : option Node)
  | WhileStatement (expression statement : Node)
  | ForStatement (initializer condition incrementor : option Node)
      (statement : Node)
  | ForOfStatement (initializer expression statement : Node)
  | ForInStatement (initializer expression statement : Node)
  | SwitchStatement (expression caseBlock : Node)
  | CaseBlock (clauses : list Node)
  | CaseClause (expression : Node) (statements : list Node)
  | DefaultClause (statements : list Node)
  | BreakStatement (label : option Node)
  | ContinueStatement (label : option Node)
  | ImportDeclaration (modifiers : list Node) (importClause : option Node)
      (moduleSpecifier : Node)
  | ImportClause (name : option Node) (namedBindings : option Node)
  | NamespaceImport (name : Node)
  | NamedImports (elements : list Node)
  | ImportSpecifier (propertyName : option Node) (name : Node)
  | EnumDeclaration (modifiers : list Node) (name : Node)
      (members : list Node)
  | EnumMember (name : Node) (initializer : option Node)
  | FunctionDeclaration (modifiers : list Node) (name : option Node)
      (parameters : list Node) (body : option Node)
  | TypeAliasDeclaration (modifiers : list Node) (name : Node)
  | InterfaceDeclaration (modifiers : list Node) (name : Node)
  | ClassDeclaration (modifiers : list Node) (name : option Node)
      (heritageClauses : option (list Node)) (members : list Node)
  | HeritageClause (token : SyntaxKind) (types : list Node)
  | ExpressionWithTypeArguments (expression : Node)
  | PropertyDeclaration (modifiers : list Node) (name : Node)
      (initializer : option Node)
  | ConstructorDeclaration (modifiers : list Node) (parameters : list Node)
      (body : option Node)
  | MethodDeclaration (modifiers : list Node) (name : Node)
      (parameters : list Node) (body : option Node)
  | OtherNode (code : nat) (children : list Node).
#[local] Set Elimination Schemes.

(** [node.kind]. *)
Definition kind (node : Node) : SyntaxKind :=
  match node with
  | Token k => k
  | Identifier _ _ => IdentifierKind
  | StringLiteral _ => StringLiteralKind
  | NumericLiteral _ => NumericLiteralKind
  | TemplateHead _ => TemplateHeadKind
  | TemplateMiddle _ => TemplateMiddleKind
  | TemplateTail _ => TemplateTailKind
  | BinaryExpression _ _ _ => BinaryExpressionKind
  | ConditionalExpression _ _ _ => ConditionalExpressionKind
  | CallExpression _ _ => CallExpressionKind
  | NewExpression _ _ => NewExpressionKind
  | PropertyAccessExpression _ _ => PropertyAccessExpressionKind
  | ElementAccessExpression _ _ => ElementAccessExpressionKind
  | TemplateExpression _ _ => TemplateExpressionKind
  | TemplateSpan _ _ => TemplateSpanKind
  | PostfixUnaryExpression _ _ => PostfixUnaryExpressionKind
  | PrefixUnaryExpression _ _ => PrefixUnaryExpressionKind
  | ArrayLiteralExpression _ => ArrayLiteralExpressionKind
  | ObjectLiteralExpression _ => ObjectLiteralExpressionKind
  | PropertyAssignment _ _ => PropertyAssignmentKind
  | ShorthandPropertyAssignment _ => ShorthandPropertyAssignmentKind
  | ComputedPropertyName _ => ComputedPropertyNameKind
  | ParenthesizedExpression _ => ParenthesizedExpressionKind
  | TypeAssertionExpression _ => TypeAssertionExpressionKind
  | AsExpression _ => AsExpressionKind
  | FunctionExpression _ _ _ _ => FunctionExpressionKind
  | ArrowFunction _ _ _ => ArrowFunctionKind
  | ParameterDeclaration _ _ _ _ => ParameterKind
  | OmittedExpression => OmittedExpressionKind
  | Block _ => BlockKind
  | SourceFile _ _ => SourceFileKind
  | VariableStatement _ _ => VariableStatementKind
  | VariableDeclarationList _ => VariableDeclarationListKind
  | VariableDeclaration _ _ => VariableDeclarationKind
  | ArrayBindingPattern _ => ArrayBindingPatternKind
  | ObjectBindingPattern _ => ObjectBindingPatternKind
  | BindingElement _ _ _ _ => BindingElementKind
  | ExpressionStatement _ => ExpressionStatementKind
  | ReturnStatement _ => ReturnStatementKind
  | IfStatement _ _ _ => IfStatementKind
  | WhileStatement _ _ => WhileStatementKind
  | ForStatement _ _ _ _ => ForStatementKind
  | ForOfStatement _ _ _ => ForOfStatementKind
  | ForInStatement _ _ _ => ForInStatementKind
  | SwitchStatement _ _ => SwitchStatementKind
  | CaseBlock _ => CaseBlockKind
  | CaseClause _ _ => CaseClauseKind
  | DefaultClause _ => DefaultClauseKind
  | BreakStatement _ => BreakStatementKind
  | ContinueStatement _ => ContinueStatementKind
  | ImportDeclaration _ _ _ => ImportDeclarationKind
  | ImportClause _ _ => ImportClauseKind
  | NamespaceImport _ => NamespaceImportKind
  | NamedImports _ => NamedImportsKind
  | ImportSpecifier _ _ => ImportSpecifierKind
  | EnumDeclaration _ _ _ => EnumDeclarationKind
  | EnumMember _ _ => EnumMemberKind
  | FunctionDeclaration _ _ _ _ => FunctionDeclarationKind
  | TypeAliasDeclaration _ _ => TypeAliasDeclarationKind
  | InterfaceDeclaration _ _ => InterfaceDeclarationKind
  | ClassDeclaration _ _ _ _ => ClassDeclarationKind
  | HeritageClause _ _ => HeritageClauseKind
  | ExpressionWithTypeArguments _ => ExpressionWithTypeArgumentsKind
  | PropertyDeclaration _ _ _ => PropertyDeclarationKind
  | ConstructorDeclaration _ _ _ => ConstructorKind
  | MethodDeclaration _ _ _ _ => MethodDeclarationKind
  | OtherNode code _ => OtherKind code
  end.

Definition opt (o : option Node) : list Node :=
  match o with Some n => [n] | None => [] end.

Definition optArray (o : option (list Node)) : list Node :=
  match o with Some l => l | None => [] end.

(** [node.forEachChild]: the direct children, in visiting order. *)
Definition forEachChild (node : Node) : list Node :=
  match node with
  | Token _ | Identifier _ _ | StringLiteral _ | NumericLiteral _
  | TemplateHead _ | TemplateMiddle _ | TemplateTail _
  | OmittedExpression => []
  | BinaryExpression l o r => [l; o; r]
  | ConditionalExpression c t f => [c; t; f]
  | CallExpression e args => e :: args
  | NewExpression e args => e :: optArray args
  | PropertyAccessExpression e n => [e; n]
  | ElementAccessExpression e a => e :: opt a
  | TemplateExpression h spans => h :: spans
  | TemplateSpan e l => [e; l]
  | PostfixUnaryExpression e _ => [e]
  | PrefixUnaryExpression _ e => [e]
  | ArrayLiteralExpression l => l
  | ObjectLiteralExpression l => l
  | PropertyAssignment n i => [n; i]
  | ShorthandPropertyAssignment n => [n]
  | ComputedPropertyName e => [e]
  | ParenthesizedExpression e => [e]
  | TypeAssertionExpression e => [e]
  | AsExpression e => [e]
  | FunctionExpression ms n ps b => ms ++ opt n ++ ps ++ [b]
  | ArrowFunction ms ps b => ms ++ ps ++ [b]
  | ParameterDeclaration ms d n i => optArray ms ++ opt d ++ [n] ++ opt i
  | Block l => l
  | SourceFile l eof => l ++ [eof]
  | VariableStatement ms d => ms ++ [d]
  | VariableDeclarationList l => l
  | VariableDeclaration n i => n :: opt i
  | ArrayBindingPattern l => l
  | ObjectBindingPattern l => l
  | BindingElement d p n i => opt p ++ opt d ++ [n] ++ opt i
  | ExpressionStatement e => [e]
  | ReturnStatement e => opt e
  | IfStatement e t f => [e; t] ++ opt f
  | WhileStatement e s => [e; s]
  | ForStatement i c n s => opt i ++ opt c ++ opt n ++ [s]
  | ForOfStatement i e s => [i; e; s]
  | ForInStatement i e s => [i; e; s]
  | SwitchStatement e c => [e; c]
  | CaseBlock l => l
  | CaseClause e l => e :: l
  | DefaultClause l => l
  | BreakStatement l => opt l
  | ContinueStatement l => opt l
  | ImportDeclaration ms c s => ms ++ opt c ++ [s]
  | ImportClause n b => opt n ++ opt b
  | NamespaceImport n => [n]
  | NamedImports l => l
  | ImportSpecifier p n => opt p ++ [n]
  | EnumDeclaration ms n l => ms ++ [n] ++ l
  | EnumMember n i => n :: opt i
  | FunctionDeclaration ms n ps b => ms ++ opt n ++ ps ++ opt b
  | TypeAliasDeclaration ms n => ms ++ [n]
  | InterfaceDeclaration ms n => ms ++ [n]
  | ClassDeclaration ms n h l => ms ++ opt n ++ optArray h ++ l
  | HeritageClause _ l => l
  | ExpressionWithTypeArguments e => [e]
  | PropertyDeclaration ms n i => ms ++ [n] ++ opt i
  | ConstructorDeclaration ms ps b => ms ++ ps ++ opt b
  | MethodDeclaration ms n ps b => ms ++ [n] ++ ps ++ opt b
  | OtherNode _ l => l
  end.

(** The [text] and [escapedText] properties; [None] is JavaScript's
    [undefined], read from a node that has no such property. *)
Definition text_of (node : Node) : option string :=
  match node with
  | Identifier t _ | StringLiteral t | NumericLiteral t
  | TemplateHead t | TemplateMiddle t | TemplateTail t => Some t
  | _ => None
  end.

Definition escapedText_of (node : Node) : option string :=
  match node with
  | Identifier _ e => Some e
  | _ => None
  end.

(** The type guards of the compiler API. *)
Definition kindIs (k : SyntaxKind) (node : Node) : bool :=
  SyntaxKind_beq (kind node) k.

Definition isBlock := kindIs BlockKind.
Definition isIdentifier := kindIs IdentifierKind.
Definition isStringLiteral := kindIs StringLiteralKind.
Definition isNumericLiteral := kindIs NumericLiteralKind.
Definition isCaseClause := kindIs CaseClauseKind.
Definition isTemplateTail := kindIs TemplateTailKind.
Definition isPropertyAccessExpression := kindIs PropertyAccessExpressionKind.
Definition isComputedPropertyName := kindIs ComputedPropertyNameKind.
Definition isArrayBindingPattern := kindIs ArrayBindingPatternKind.
Definition isNamespaceImport := kindIs NamespaceImportKind.
Definition isNamedImports := kindIs NamedImportsKind.
Definition isPropertyDeclaration := kindIs PropertyDeclarationKind.
Definition isConstructorDeclaration := kindIs ConstructorKind.
Definition isMethodDeclaration := kindIs MethodDeclarationKind.

(** ** The type checker *)

(** Modelled from the spec: the helpers [tsEx.isArrayType], [isTupleType],
    [isStringType], [isCompileMembersOnlyEnum], [isPureAbstractClass],
    [isExtensionClass] and [hasCustomDecorator] of TSHelper.ts, which the
    spec gives as the queryable capabilities of an opaque type handle.
    A [TsType] is [ts.Type] as the transpiler sees it: the [flags] bit
    field, and the answers of these queries. *)
Record TsType : Type := {
  flags : Z;
  isArrayType : bool;
  isTupleType : bool;
  isStringType : bool;
  isCompileMembersOnlyEnum : bool;
  isPureAbstractClass : bool;
  isExtensionClass : bool;
  hasCustomDecorator : string -> bool
}.

(** [ts.TypeChecker]. *)
Record TypeChecker : Type := {
  getTypeAtLocation : Node -> TsType
}.

(** The three members of [ts.TypeFlags] the transpiler compares against;
    their numeric values belong to the compiler API. *)
Record TypeFlags : Type := {
  TypeFlags_String : Z;
  TypeFlags_StringLiteral : Z;
  TypeFlags_Object : Z
}.

(** ** JavaScript values and string operations *)

(** A value spliced into a template literal or a [+] concatenation:
    [undefined] prints as the word. *)
Definition str (o : option string) : string :=
  match o with Some s => s | None => "undefined" end.

(** [Array.prototype.join]: an [undefined] element prints as nothing. *)
Definition join (sep : string) (l : list (option string)) : string :=
  String.concat sep
    (map (fun o => match o with Some s => s | None => "" end) l).

(** [array.push(x)] *)
Definition push {A} (l : list A) (x : A) : list A := (l ++ [x])%list.

(** [s.slice(n)] for [n] within the string or beyond its end. *)
Definition slice (n : nat) (s : string) : string :=
  substring n (String.length s - n) s.

(** Number-to-string conversion of an integer that a double holds exactly
    and that is written without an exponent: the counter of generated
    names and the index of an array element, as a template literal prints
    them. *)
Definition numberToString (z : Z) : string :=
  NilZero.string_of_int (Z.to_int z).

(** A JavaScript number whose value is an integer, an infinity or NaN;
    these are the values [parseInt] returns and [++] keeps.  [JsInt z] is
    the double of value [z].  The two zeros are both [JsInt 0]: they print
    alike and count alike. *)
Inductive JsNumber : Set :=
  | JsInt (z : Z)
  | JsInfinity (negative : bool)
  | JsNaN.

(** The double nearest to an integer, the even significand on a tie.  An
    integer of magnitude below 2^53 is a double; above, the doubles are
    the multiples of a power of two that have a significand of 53 bits,
    and from 2^1024 - 2^970 on the nearest one is an infinity. *)
Definition toNumber (z : Z) : JsNumber :=
  let a := Z.abs z in
  if a <? 2 ^ 53 then JsInt z
  else
    let e := Z.log2 a - 52 in
    let q := a / 2 ^ e in
    let r := a mod 2 ^ e in
    let half := 2 ^ (e - 1) in
    let m :=
      if r <? half then q
      else if half <? r then q + 1
      else if Z.even q then q else q + 1 in
    let v := m * 2 ^ e in
    if 2 ^ 1024 <=? v then JsInfinity (z <? 0) else JsInt (Z.sgn z * v).

(** Whether the integer [c] is nearer to the double [x], which is at least
    2^53, than to any other double; a tie counts when the significand of
    [x] is even.  The bounds are kept doubled, since below a power of two
    the doubles are twice as dense. *)
Definition roundsTo (x c : Z) : bool :=
  let e := Z.log2 x - 52 in
  let below := if x =? 2 ^ (52 + e) then 2 ^ (e - 1) else 2 ^ e in
  let low := 2 * x - below in
  let high := 2 * x + 2 ^ e in
  if Z.even (x / 2 ^ e)
  then (low <=? 2 * c) && (2 * c <=? high)
  else (low <? 2 * c) && (2 * c <? high).

(** The number of decimal digits of a positive integer. *)
Definition decimalLength (x : Z) : Z :=
  Z.of_nat (String.length (numberToString x)).

(** The search of Number-to-string conversion: the integer with the fewest
    significant digits that [x] is the nearest double of, and among those
    the one nearest to [x], the even one on a tie.  With [k] digits the
    candidates are the two multiples of the same power of ten around
    [x]. *)
Fixpoint shortestFrom (x : Z) (k : Z) (rounds : nat) : Z :=
  match rounds with
  | O => x
  | S rounds' =>
      let unit := 10 ^ (decimalLength x - k) in
      let s := x / unit in
      let c1 := s * unit in
      let c2 := c1 + unit in
      match roundsTo x c1, roundsTo x c2 with
      | true, false => c1
      | false, true => c2
      | true, true =>
          if x - c1 <? c2 - x then c1
          else if c2 - x <? x - c1 then c2
          else if Z.even s then c1 else c2
      | false, false => shortestFrom x (k + 1) rounds'
      end
  end.

Definition shortest (x : Z) : Z :=
  shortestFrom x 1 (Z.to_nat (decimalLength x - 1)).

(** The significant digits of [c]: [c] without its final zeros. *)
Fixpoint dropZeros (fuel : nat) (c : Z) : Z :=
  match fuel with
  | O => c
  | S fuel' => if c mod 10 =? 0 then dropZeros fuel' (c / 10) else c
  end.

(** The form with an exponent, which Number-to-string conversion uses from
    10^21 on: [de+n] or [d.ddde+n]. *)
Definition exponential (c : Z) : string :=
  let n := decimalLength c in
  let s := numberToString (dropZeros (Z.to_nat n) c) in
  match s with
  | String d EmptyString => s ++ "e+" ++ numberToString (n - 1)
  | String d rest => String d ("." ++ rest) ++ "e+" ++ numberToString (n - 1)
  | EmptyString => s
  end.

(** Number-to-string conversion of a positive double with an integer
    value: its digits below 2^53, where every integer is a double, and
    above the fewest digits that read back as the same double, padded with
    zeros below 10^21 and with an exponent from there on. *)
Definition positiveToString (x : Z) : string :=
  if x <? 2 ^ 53 then numberToString x
  else
    let c := shortest x in
    if c <? 10 ^ 21 then numberToString c else exponential c.

(** Number-to-string conversion, as a template literal does it. *)
Definition jsNumberToString (v : JsNumber) : string :=
  match v with
  | JsInt z =>
      if z <? 0 then "-" ++ positiveToString (- z) else positiveToString z
  | JsInfinity false => "Infinity"
  | JsInfinity true => "-Infinity"
  | JsNaN => "NaN"
  end.

(** [v++]: the double nearest to one more. *)
Definition jsIncrement (v : JsNumber) : JsNumber :=
  match v with
  | JsInt z => toNumber (z + 1)
  | JsInfinity negative => JsInfinity negative
  | JsNaN => JsNaN
  end.

Definition isWhiteSpace (c : ascii) : bool :=
  let n := nat_of_ascii c in
  (Nat.eqb n 32 || (Nat.leb 9 n && Nat.leb n 13))%bool.

Definition digitValue (c : ascii) : option Z :=
  let n := Z.of_nat (nat_of_ascii c) in
  if (48 <=? n) && (n <=? 57) then Some (n - 48)
  else if (97 <=? n) && (n <=? 122) then Some (n - 87)
  else if (65 <=? n) && (n <=? 90) then Some (n - 55)
  else None.

(** The longest prefix of digits of the radix, read as a number;
    [None] when there is no digit. *)
Fixpoint parseDigits (radix : Z) (acc : option Z) (s : string) : option Z :=
  match s with
  | EmptyString => acc
  | String c rest =>
      match digitValue c with
      | Some d =>
          if d <? radix
          then parseDigits radix
                 (Some (match acc with Some a => a * radix + d | None => d end))
                 rest
          else acc
      | None => acc
      end
  end.

Fixpoint trimStart (s : string) : string :=
  match s with
  | String c rest => if isWhiteSpace c then trimStart rest else s
  | EmptyString => s
  end.

Definition parseUnsigned (s : string) : option Z :=
  match s with
  | String "0" (String "x" rest) | String "0" (String "X" rest) =>
      parseDigits 16 None rest
  | _ => parseDigits 10 None s
  end.

(** [parseInt(s)] with no radix: leading white space, a sign, an optional
    [0x] prefix, then the longest run of digits, read as an integer and
    returned as the double nearest to it; NaN without a digit.  (The
    standard lets an implementation read a run of more than 20 decimal
    digits less exactly; this is the exact reading.) *)
Definition parseInt (s : string) : JsNumber :=
  let number (sign : Z) (body : string) :=
    match parseUnsigned body with
    | Some z => toNumber (sign * z)
    | None => JsNaN
    end in
  match trimStart s with
  | String "-" rest => number (-1) rest
  | String "+" rest => number 1 rest
  | t => number 1 t
  end.

(** ** The emitter's state and its monad *)

(** The mutable fields of a [LuaTranspiler]; the [checker] field is never
    assigned after construction and is a section variable below. *)
Record LuaTranspiler : Type := {
  indent : string;
  genVarCounter : Z;
  transpilingSwitch : bool
}.

(** What a method call can throw: the transpiler's own [TranspileError], or
    the [TypeError] JavaScript raises when a property of [undefined] is
    read. *)
Inductive Error : Type :=
  | TranspileError (message : string) (node : Node)
  | TypeError.

(** The outcome of running a method: a returned value and the fields after
    the call, an exception, or the recursion bound of the model reached. *)
Inductive Outcome (A : Type) : Type :=
  | Ok (a : A) (this : LuaTranspiler)
  | Throw (e : Error)
  | OutOfFuel.
Arguments Ok {A} a this.
Arguments Throw {A} e.
Arguments OutOfFuel {A}.

Definition M (A : Type) : Type := LuaTranspiler -> Outcome A.

Definition ret {A} (a : A) : M A := fun this => Ok a this.

Definition bind {A B} (m : M A) (k : A -> M B) : M B :=
  fun this =>
    match m this with
    | Ok a this' => k a this'
    | Throw e => Throw e
    | OutOfFuel => OutOfFuel
    end.

Definition throw {A} (e : Error) : M A := fun _ => Throw e.

Definition outOfFuel {A} : M A := fun _ => OutOfFuel.

Declare Scope monad_scope.
Delimit Scope monad_scope with monad.
Notation "x <- m ;; k" := (bind m (fun x => k))
  (at level 61, m at next level, right associativity) : monad_scope.
Notation "m ;;; k" := (bind m (fun _ => k))
  (at level 61, right associativity) : monad_scope.
Open Scope monad_scope.

(** Reads and writes of the fields. *)
Definition getIndent : M string := fun this => Ok (indent this) this.
Definition getGenVarCounter : M Z := fun this => Ok (genVarCounter this) this.
Definition getTranspilingSwitch : M bool :=
  fun this => Ok (transpilingSwitch this) this.

Definition setIndent (s : string) : M unit :=
  fun this =>
    Ok tt {| indent := s; genVarCounter := genVarCounter this;
             transpilingSwitch := transpilingSwitch this |}.

Definition setGenVarCounter (n : Z) : M unit :=
  fun this =>
    Ok tt {| indent := indent this; genVarCounter := n;
             transpilingSwitch := transpilingSwitch this |}.

Definition setTranspilingSwitch (b : bool) : M unit :=
  fun this =>
    Ok tt {| indent := indent this; genVarCounter := genVarCounter this;
             transpilingSwitch := b |}.

(** Reading through a value that may be [undefined]. *)
Definition defined {A} (o : option A) : M A :=
  match o with Some a => ret a | None => throw TypeError end.

(** [array.forEach((x, index) => ...)] where the callback updates a local
    accumulator: a left fold that threads the accumulator and the index. *)
Fixpoint forEachFrom {A B} (f : B -> A -> Z -> M B) (l : list A)
    (index : Z) (acc : B) : M B :=
  match l with
  | [] => ret acc
  | x :: rest => acc' <- f acc x index ;; forEachFrom f rest (index + 1) acc'
  end.

Definition forEach {A B} (f : B -> A -> Z -> M B) (l : list A) (acc : B)
    : M B :=
  forEachFrom f l 0 acc.

(** [pushIndent] and [popIndent]. *)
Definition pushIndent : M unit :=
  i <- getIndent ;; setIndent (i ++ "    ").

Definition popIndent : M unit :=
  i <- getIndent ;; setIndent (slice 4 i).

(** The line feed and the double quote of the emitted text. *)
Definition nl : string := String (ascii_of_nat 10) "".
Definition dq : string := String (ascii_of_nat 34) "".

(** ** Helpers of the compiler API and of TSHelper.ts *)

(** Modelled from the spec: [ts.tokenToString], the canonical textual form
    of a token (the operator table of the external interfaces); a kind
    that is not a token has none. *)
Definition tokenToString (k : SyntaxKind) : option string :=
  match k with
  | PlusToken => Some "+" | MinusToken => Some "-"
  | AsteriskToken => Some "*" | AsteriskAsteriskToken => Some "**"
  | SlashToken => Some "/" | PercentToken => Some "%"
  | PlusPlusToken => Some "++" | MinusMinusToken => Some "--"
  | LessThanToken => Some "<" | GreaterThanToken => Some ">"
  | LessThanEqualsToken => Some "<=" | GreaterThanEqualsToken => Some ">="
  | EqualsEqualsToken => Some "==" | ExclamationEqualsToken => Some "!="
  | EqualsEqualsEqualsToken => Some "==="
  | ExclamationEqualsEqualsToken => Some "!=="
  | EqualsToken => Some "=" | PlusEqualsToken => Some "+="
  | MinusEqualsToken => Some "-=" | AsteriskEqualsToken => Some "*="
  | SlashEqualsToken => Some "/=" | AmpersandAmpersandToken => Some "&&"
  | BarBarToken => Some "||" | AmpersandToken => Some "&"
  | BarToken => Some "|" | CaretToken => Some "^"
  | ExclamationToken => Some "!" | TildeToken => Some "~"
  | LessThanLessThanToken => Some "<<"
  | GreaterThanGreaterThanToken => Some ">>" | CommaToken => Some ","
  | DotDotDotToken => Some "..." | InKeyword => Some "in"
  | InstanceOfKeyword => Some "instanceof"
  | TrueKeyword => Some "true" | FalseKeyword => Some "false"
  | NullKeyword => Some "null" | ThisKeyword => Some "this"
  | SuperKeyword => Some "super" | ContinueKeyword => Some "continue"
  | DeclareKeyword => Some "declare" | ExportKeyword => Some "export"
  | DefaultKeyword => Some "default" | StaticKeyword => Some "static"
  | PublicKeyword => Some "public" | PrivateKeyword => Some "private"
  | ProtectedKeyword => Some "protected" | ReadonlyKeyword => Some "readonly"
  | AbstractKeyword => Some "abstract" | ExtendsKeyword => Some "extends"
  | ImplementsKeyword => Some "implements"
  | _ => None
  end.

(** Modelled from the spec: [tsEx.getChildren] of TSHelper.ts, the child
    set of a node. *)
Definition getChildren (node : Node) : list Node := forEachChild node.

(** Modelled from the spec: [tsEx.getChildrenOfType] of TSHelper.ts, the
    members of the child set that pass a filter. *)
Definition getChildrenOfType (node : Node) (typeFilter : Node -> bool)
    : list Node :=
  filter typeFilter (getChildren node).

(** [a === b] on two property values that are strings or [undefined]. *)
Definition strictEquals (o : option string) (s : string) : bool :=
  match o with Some t => String.eqb t s | None => false end.

(** [(<ts.Identifier>param.name).escapedText] for each parameter. *)
Definition parameterName (param : Node) : M (option string) :=
  match param with
  | ParameterDeclaration _ _ name _ => ret (escapedText_of name)
  | _ => throw TypeError
  end.

(** [declarationList.declarations[0]], then its [name] and [initializer]. *)
Definition firstDeclaration (initializer : Node) : M (Node * option Node) :=
  match initializer with
  | VariableDeclarationList (VariableDeclaration name init :: _) =>
      ret (name, init)
  | _ => throw TypeError
  end.

(** The message of the error that forbids renaming in an import. *)
Definition renamingError : string :=
  "Renaming of individual imported objects is not allowed".

(** ** The methods of [LuaTranspiler] *)

Section Methods.

(** [ts.TypeFlags], [tsEx.enumName(kind, ts.SyntaxKind)] and the
    [checker] field. *)
Variable TF : TypeFlags.
Variable enumName : SyntaxKind -> string.
Variable checker : TypeChecker.

(** The two dispatchers, [this.transpileExpression] and
    [this.transpileNode], as the other methods call them; the knot is
    tied after the section.  An omitted [brackets] argument is
    [undefined], which is falsy, hence [false]. *)
Variable transpileExpression : Node -> bool -> M string.
Variable transpileNode : Node -> M string.

Definition flagsAre (t : TsType) (f : TypeFlags -> Z) : bool :=
  flags t =? f TF.

Definition transpileBlock (node : Node) : M string :=
  let each (result : string) (child : Node) (_ : Z) :=
    s <- transpileNode child ;; ret (result ++ s) in
  if isBlock node
  then match node with
       | Block statements => forEach each statements ""
       | _ => throw TypeError
       end
  else forEach each (forEachChild node) "".

Definition transpileStatement (node : Node) : M string :=
  if isBlock node then transpileBlock node else transpileNode node.

Definition transpileImport (node : Node) (importClause : option Node)
    (moduleSpecifier : Node) : M string :=
  name <- transpileExpression moduleSpecifier false ;;
  match importClause with
  | Some (ImportClause _ (Some imports)) =>
      if isNamespaceImport imports
      then ret ("{$imports.name.escapedText} = require(" ++ name ++ ")")
      else if isNamedImports imports
      then
        match imports with
        | NamedImports elements =>
            (* Forbid renaming *)
            forEach (fun (_ : unit) element (_ : Z) =>
                       match element with
                       | ImportSpecifier (Some _) _ =>
                           throw (TranspileError renamingError node)
                       | _ => ret tt
                       end) elements tt ;;;
            ret ("require(" ++ name ++ ")")
        | _ => throw TypeError
        end
      else throw (TranspileError "Unsupported import type." node)
  | _ => throw TypeError
  end.

(** One round of the [members.forEach] loop of [transpileEnum]; the
    accumulator is the pair of the locals [val] and [result]. *)
Definition transpileEnumMember (node name : Node) (membersOnly : bool)
    (acc : JsNumber * string) (member : Node) (_ : Z)
    : M (JsNumber * string) :=
  let (val, result) := acc in
  match member with
  | EnumMember memberName initializer =>
      val <-
        match initializer with
        | Some init =>
            if isNumericLiteral init
            then ret (parseInt (str (text_of init)))
            else throw (TranspileError
                   "Only numeric initializers allowed for enums." node)
        | None => ret val
        end ;;
      let name' := escapedText_of memberName in
      i <- getIndent ;;
      let result :=
        if membersOnly
        then result ++ i ++ str name' ++ "=" ++ jsNumberToString val ++ nl
        else result ++ i ++ str (escapedText_of name) ++ "." ++ str name'
             ++ "=" ++ jsNumberToString val ++ nl in
      ret (jsIncrement val, result)
  | _ => throw TypeError
  end.

Definition transpileEnum (node name : Node) (members : list Node)
    : M string :=
  let val := JsInt 0 in
  let result := "" in
  let type := getTypeAtLocation checker node in
  let membersOnly := isCompileMembersOnlyEnum type in
  result <-
    (if negb membersOnly
     then i <- getIndent ;;
          ret (result ++ i ++ str (escapedText_of name) ++ "={}" ++ nl)
     else ret result) ;;
  acc <-
    forEach (transpileEnumMember node name membersOnly) members
      (val, result) ;;
  ret (snd acc).

Definition transpileBreak : M string :=
  inSwitch <- getTranspilingSwitch ;;
  i <- getIndent ;;
  if inSwitch
  then n <- getGenVarCounter ;;
       ret (i ++ "goto switchDone" ++ numberToString n ++ nl)
  else ret (i ++ "break" ++ nl).

Definition transpileIf (expression thenStatement : Node)
    (elseStatement : option Node) : M string :=
  condition <- transpileExpression expression false ;;
  i <- getIndent ;;
  let result := i ++ "if " ++ condition ++ " then" ++ nl in
  pushIndent ;;;
  s <- transpileStatement thenStatement ;;
  let result := result ++ s in
  popIndent ;;;
  result <-
    match elseStatement with
    | Some elseStatement =>
        i <- getIndent ;;
        let result := result ++ i ++ "else" ++ nl in
        pushIndent ;;;
        s <- transpileStatement elseStatement ;;
        let result := result ++ s in
        popIndent ;;;
        ret result
    | None => ret result
    end ;;
  i <- getIndent ;;
  ret (result ++ i ++ "end" ++ nl).

Definition transpileWhile (expression statement : Node) : M string :=
  condition <- transpileExpression expression false ;;
  i <- getIndent ;;
  let result := i ++ "while " ++ condition ++ " do" ++ nl in
  pushIndent ;;;
  s <- transpileStatement statement ;;
  let result := result ++ s in
  popIndent ;;;
  i <- getIndent ;;
  ret (result ++ i ++ "end" ++ nl).

(** Modelled from the spec: [ForHelper.GetForEnd] of ForHelper.ts, the
    inclusive end of a numeric loop read off a relational condition;
    any other shape fails. *)
Definition GetForEnd (node : Node) (condition : option Node) : M string :=
  match condition with
  | Some (BinaryExpression _ (Token LessThanToken) bound) =>
      n <- transpileExpression bound false ;; ret (n ++ "-1")
  | Some (BinaryExpression _ (Token LessThanEqualsToken) bound) =>
      transpileExpression bound false
  | Some (BinaryExpression _ (Token GreaterThanToken) bound) =>
      n <- transpileExpression bound false ;; ret (n ++ "+1")
  | Some (BinaryExpression _ (Token GreaterThanEqualsToken) bound) =>
      transpileExpression bound false
  | _ => throw (TranspileError "UnsupportedForShape" node)
  end.

(** Modelled from the spec: [ForHelper.GetForStep] of ForHelper.ts, the
    step of a numeric loop read off the incrementor; any other shape
    fails. *)
Definition GetForStep (node : Node) (incrementor : option Node)
    : M string :=
  match incrementor with
  | Some (PostfixUnaryExpression _ PlusPlusToken) => ret "1"
  | Some (PostfixUnaryExpression _ MinusMinusToken) => ret "-1"
  | Some (BinaryExpression _ (Token PlusEqualsToken) k) =>
      transpileExpression k false
  | Some (BinaryExpression _ (Token MinusEqualsToken) k) =>
      s <- transpileExpression k false ;; ret ("-" ++ s)
  | _ => throw (TranspileError "UnsupportedForShape" node)
  end.

Definition transpileFor (node : Node)
    (initializer condition incrementor : option Node) (statement : Node)
    : M string :=
  initializer <- defined initializer ;;
  variable <- firstDeclaration initializer ;;
  let identifier := fst variable in
  start <- (init <- defined (snd variable) ;;
            transpileExpression init false) ;;
  end_ <- GetForEnd node condition ;;
  step <- GetForStep node incrementor ;;
  i <- getIndent ;;
  let result :=
    i ++ "for " ++ str (escapedText_of identifier) ++ "=" ++ start ++ ","
      ++ end_ ++ "," ++ step ++ " do" ++ nl in
  pushIndent ;;;
  s <- transpileStatement statement ;;
  let result := result ++ s in
  popIndent ;;;
  i <- getIndent ;;
  ret (result ++ i ++ "end" ++ nl).

Definition transpileForOf (initializer expression statement : Node)
    : M string :=
  variable <- firstDeclaration initializer ;;
  let identifier := fst variable in
  expression' <- transpileExpression expression false ;;
  let isArray := isArrayType (getTypeAtLocation checker expression) in
  let pairs := if isArray then "ipairs" else "pairs" in
  i <- getIndent ;;
  let result :=
    i ++ "for _, " ++ str (escapedText_of identifier) ++ " in " ++ pairs
      ++ "(" ++ expression' ++ ") do" ++ nl in
  pushIndent ;;;
  s <- transpileStatement statement ;;
  let result := result ++ s in
  popIndent ;;;
  i <- getIndent ;;
  ret (result ++ i ++ "end" ++ nl).

Definition transpileForIn (initializer expression statement : Node)
    : M string :=
  variable <- firstDeclaration initializer ;;
  let identifier := fst variable in
  expression' <- transpileExpression expression false ;;
  let isArray := isArrayType (getTypeAtLocation checker expression) in
  let pairs := if isArray then "ipairs" else "pairs" in
  i <- getIndent ;;
  let result :=
    i ++ "for " ++ str (escapedText_of identifier) ++ ", _ in " ++ pairs
      ++ "(" ++ expression' ++ ") do" ++ nl in
  pushIndent ;;;
  s <- transpileStatement statement ;;
  let result := result ++ s in
  popIndent ;;;
  i <- getIndent ;;
  ret (result ++ i ++ "end" ++ nl).

(** One round of the [clauses.forEach] loop of [transpileSwitch];
    [length] is [clauses.length] and [expression] the scrutinee's text. *)
Definition transpileClause (expression : string) (length : Z)
    (result : string) (clause : Node) (index : Z) : M string :=
  result <-
    (if isCaseClause clause
     then
       let keyword := if index =? 0 then "if" else "elseif" in
       match clause with
       | CaseClause clauseExpression _ =>
           condition <- transpileExpression clauseExpression true ;;
           i <- getIndent ;;
           ret (result ++ i ++ keyword ++ " " ++ expression ++ "=="
                  ++ condition ++ " then" ++ nl)
       | _ => throw TypeError
       end
     else
       i <- getIndent ;;
       ret (result ++ i ++ "else" ++ nl)) ;;
  pushIndent ;;;
  i <- getIndent ;;
  n <- getGenVarCounter ;;
  let result :=
    result ++ i ++ "::switchCase" ++ numberToString (n + index) ++ "::"
      ++ nl in
  setTranspilingSwitch true ;;;
  statements <-
    match clause with
    | CaseClause _ statements | DefaultClause statements => ret statements
    | _ => throw TypeError
    end ;;
  result <-
    forEach (fun result statement (_ : Z) =>
               s <- transpileNode statement ;; ret (result ++ s))
      statements result ;;
  setTranspilingSwitch false ;;;
  result <-
    (if index <? length - 1
     then
       i <- getIndent ;;
       n <- getGenVarCounter ;;
       ret (result ++ i ++ "goto switchCase"
              ++ numberToString (n + index + 1) ++ nl)
     else ret result) ;;
  popIndent ;;;
  ret result.

Definition transpileSwitch (expression caseBlock : Node) : M string :=
  expression' <- transpileExpression expression true ;;
  clauses <-
    match caseBlock with
    | CaseBlock clauses => ret clauses
    | _ => throw TypeError
    end ;;
  i <- getIndent ;;
  let result := i ++ "-------Switch statement start-------" ++ nl in
  result <-
    forEach (transpileClause expression' (Z.of_nat (length clauses)))
      clauses result ;;
  i <- getIndent ;;
  let result := result ++ i ++ "end" ++ nl in
  i <- getIndent ;;
  n <- getGenVarCounter ;;
  let result :=
    result ++ i ++ "::switchDone" ++ numberToString n ++ "::" ++ nl in
  i <- getIndent ;;
  let result := result ++ i ++ "--------Switch statement end--------" ++ nl in
  n <- getGenVarCounter ;;
  setGenVarCounter (n + Z.of_nat (length clauses)) ;;;
  ret result.

Definition transpileReturn (expression : option Node) : M string :=
  e <- defined expression ;;
  s <- transpileExpression e false ;;
  ret ("return " ++ s).

(** Replace some mismatching operators. *)
Definition transpileOperator (operator : Node) : option string :=
  match kind operator with
  | EqualsEqualsEqualsToken => Some "=="
  | ExclamationEqualsToken | ExclamationEqualsEqualsToken => Some "~="
  | k => tokenToString k
  end.

Definition transpileBinaryExpression (left operatorToken right : Node)
    (brackets : bool) : M string :=
  lhs <- transpileExpression left true ;;
  rhs <- transpileExpression right true ;;
  let finish (result : string) : M string :=
    ret (if brackets then "(" ++ result ++ ")" else result) in
  match kind operatorToken with
  | PlusEqualsToken => finish (lhs ++ "=" ++ lhs ++ "+" ++ rhs)
  | MinusEqualsToken => finish (lhs ++ "=" ++ lhs ++ "-" ++ rhs)
  | AmpersandAmpersandToken => finish (lhs ++ " and " ++ rhs)
  | BarBarToken => finish (lhs ++ " or " ++ rhs)
  | AmpersandToken => finish ("bit.band(" ++ lhs ++ "," ++ rhs ++ ")")
  | BarToken => finish ("bit.bor(" ++ lhs ++ "," ++ rhs ++ ")")
  | PlusToken =>
      let typeLeft := getTypeAtLocation checker left in
      if negb (Z.land (flags typeLeft) (TypeFlags_String TF) =? 0)
         || isStringLiteral left
      then ret (lhs ++ ".." ++ rhs)
      else finish (lhs ++ str (transpileOperator operatorToken) ++ rhs)
  | _ => finish (lhs ++ str (transpileOperator operatorToken) ++ rhs)
  end.

Definition transpileTemplateExpression (head : Node)
    (templateSpans : list Node) : M string :=
  let parts := [Some (dq ++ str (text_of head) ++ dq)] in
  parts <-
    forEach (fun parts span (_ : Z) =>
      match span with
      | TemplateSpan spanExpression literal =>
          expr <- transpileExpression spanExpression true ;;
          if isTemplateTail literal
          then ret (push parts
                 (Some (expr ++ ".." ++ dq ++ str (text_of literal) ++ dq)))
          else ret (push parts
                 (Some (expr ++ ".." ++ dq ++ str (text_of literal) ++ dq)))
      | _ => throw TypeError
      end) templateSpans parts ;;
  ret (join ".." parts).

Definition transpileConditionalExpression (condition whenTrue whenFalse : Node)
    (brackets : bool) : M string :=
  condition' <- transpileExpression condition false ;;
  val1 <- transpileExpression whenTrue false ;;
  val2 <- transpileExpression whenFalse false ;;
  ret ("TS_ITE(" ++ condition' ++ ",function() return " ++ val1
         ++ " end, function() return " ++ val2 ++ " end)").

Definition transpilePostfixUnaryExpression (node operand : Node)
    (operator : SyntaxKind) : M string :=
  operand' <- transpileExpression operand true ;;
  match operator with
  | PlusPlusToken => ret (operand' ++ " = " ++ operand' ++ " + 1")
  | MinusMinusToken => ret (operand' ++ " = " ++ operand' ++ " - 1")
  | _ => throw (TranspileError
           ("Unsupported unary postfix: " ++ enumName (kind node)) node)
  end.

Definition transpilePrefixUnaryExpression (node : Node)
    (operator : SyntaxKind) (operand : Node) : M string :=
  operand' <- transpileExpression operand true ;;
  match operator with
  | PlusPlusToken => ret (operand' ++ " = " ++ operand' ++ " + 1")
  | MinusMinusToken => ret (operand' ++ " = " ++ operand' ++ " - 1")
  | ExclamationToken => ret ("not " ++ operand')
  | MinusToken => ret ("-" ++ operand')
  | _ => throw (TranspileError
           ("Unsupported unary prefix: " ++ enumName (kind node)) node)
  end.

Definition transpileArguments (params : option (list Node))
    (context : option Node) : M string :=
  let parameters : list (option string) := [] in
  parameters <-
    match context with
    | Some context =>
        s <- transpileExpression context false ;;
        ret (push parameters (Some s))
    | None => ret parameters
    end ;;
  params <- defined params ;;
  parameters <-
    forEach (fun parameters param (_ : Z) =>
               s <- transpileExpression param false ;;
               ret (push parameters (Some s))) params parameters ;;
  ret (join "," parameters).

Definition transpileNewExpression (expression : Node)
    (arguments : option (list Node)) : M string :=
  name <- transpileExpression expression false ;;
  params <- transpileArguments arguments (Some (Token TrueKeyword)) ;;
  ret (name ++ ".new(" ++ params ++ ")").

Definition transpileStringCallExpression (node : Node)
    (expression : Node) (arguments : list Node) : M string :=
  match expression with
  | PropertyAccessExpression receiver name =>
      params <- transpileArguments (Some arguments) None ;;
      caller <- transpileExpression receiver false ;;
      let method := escapedText_of name in
      if strictEquals method "replace"
      then ret ("string.sub(" ++ caller ++ "," ++ params ++ ")")
      else if strictEquals method "indexOf"
      then
        if Z.of_nat (length arguments) =? 1
        then ret ("(string.find(" ++ caller ++ "," ++ params
                    ++ ",1,true) or 0)-1")
        else ret ("(string.find(" ++ caller ++ "," ++ params
                    ++ "+1,true) or 0)-1")
      else throw (TranspileError
             ("Unsupported string function: " ++ str method) node)
  | _ => throw TypeError
  end.

Definition transpileArrayCallExpression (node : Node)
    (expression : Node) (arguments : list Node) : M string :=
  match expression with
  | PropertyAccessExpression receiver name =>
      params <- transpileArguments (Some arguments) None ;;
      caller <- transpileExpression receiver false ;;
      let method := escapedText_of name in
      if strictEquals method "push"
      then ret ("table.insert(" ++ caller ++ ", " ++ params ++ ")")
      else if strictEquals method "forEach"
      then ret ("TS_forEach(" ++ caller ++ ", " ++ params ++ ")")
      else if strictEquals method "map"
      then ret ("TS_map(" ++ caller ++ ", " ++ params ++ ")")
      else if strictEquals method "filter"
      then ret ("TS_filter(" ++ caller ++ ", " ++ params ++ ")")
      else if strictEquals method "some"
      then ret ("TS_some(" ++ caller ++ ", " ++ params ++ ")")
      else if strictEquals method "every"
      then ret ("TS_every(" ++ caller ++ ", " ++ params ++ ")")
      else if strictEquals method "slice"
      then ret ("TS_slice(" ++ caller ++ ", " ++ params ++ ")")
      else throw (TranspileError
             ("Unsupported array function: " ++ str method) node)
  | _ => throw TypeError
  end.

Definition transpileCallExpression (node : Node) (expression : Node)
    (arguments : list Node) : M string :=
  let plainCall :=
    callPath <- transpileExpression expression false ;;
    params <- transpileArguments (Some arguments) None ;;
    ret (callPath ++ "(" ++ params ++ ")") in
  if isPropertyAccessExpression expression
  then
    match expression with
    | PropertyAccessExpression receiver _ =>
        let type := getTypeAtLocation checker receiver in
        let contextCall :=
          callPath <- transpileExpression expression false ;;
          params <- transpileArguments (Some arguments) (Some receiver) ;;
          ret (callPath ++ "(" ++ params ++ ")") in
        if flagsAre type TypeFlags_String
           || flagsAre type TypeFlags_StringLiteral
        then transpileStringCallExpression node expression arguments
        else if flagsAre type TypeFlags_Object
        then if isArrayType type
             then transpileArrayCallExpression node expression arguments
             else contextCall
        else contextCall
    | _ => throw TypeError
    end
  else if SyntaxKind_beq (kind expression) SuperKeyword
  then
    callPath <- transpileExpression expression false ;;
    params <- transpileArguments (Some arguments) (Some (Token ThisKeyword)) ;;
    ret ("self.__base.constructor(" ++ params ++ ")")
  else plainCall.

(** Access of string properties; only supported properties are allowed. *)
Definition transpileStringProperty (node expression name : Node)
    : M string :=
  let property := escapedText_of name in
  if strictEquals property "length"
  then s <- transpileExpression expression false ;; ret ("#" ++ s)
  else throw (TranspileError
         ("Unsupported string property: " ++ str property) node).

(** Access of array properties; only supported properties are allowed. *)
Definition transpileArrayProperty (node expression name : Node)
    : M string :=
  let property := escapedText_of name in
  if strictEquals property "length"
  then s <- transpileExpression expression false ;; ret ("#" ++ s)
  else throw (TranspileError
         ("Unsupported array property: " ++ str property) node).

Definition transpilePropertyAccessExpression (node expression name : Node)
    : M string :=
  let property := text_of name in
  let type := getTypeAtLocation checker expression in
  let general :=
    if isCompileMembersOnlyEnum type
    then ret (str property)
    else
      path <- transpileExpression expression false ;;
      ret (path ++ "." ++ str property) in
  if flagsAre type TypeFlags_String || flagsAre type TypeFlags_StringLiteral
  then transpileStringProperty node expression name
  else if flagsAre type TypeFlags_Object
  then if isArrayType type
       then transpileArrayProperty node expression name
       else general
  else general.

Definition transpileElementAccessExpression (expression : Node)
    (argumentExpression : option Node) : M string :=
  element <- transpileExpression expression false ;;
  index <- (a <- defined argumentExpression ;; transpileExpression a false) ;;
  let type := getTypeAtLocation checker expression in
  if isArrayType type || isTupleType type
  then ret (element ++ "[" ++ index ++ "+1]")
  else if isStringType type
  then ret ("string.sub(" ++ element ++ "," ++ index ++ "+1," ++ index
              ++ "+1)")
  else ret (element ++ "[" ++ index ++ "]").

Definition transpileVariableDeclaration (node name : Node)
    (initializer : option Node) : M string :=
  if isIdentifier name
  then
    let identifier := name in
    match initializer with
    | Some initializer =>
        value <- transpileExpression initializer false ;;
        ret ("local " ++ str (escapedText_of identifier) ++ " = " ++ value)
    | None =>
        ret ("local " ++ str (escapedText_of identifier) ++ " = nil")
    end
  else if isArrayBindingPattern name
  then
    value <- (init <- defined initializer ;; transpileExpression init false) ;;
    n <- getGenVarCounter ;;
    let parentName := "__destr" ++ numberToString n in
    n <- getGenVarCounter ;;
    setGenVarCounter (n + 1) ;;;
    let result := "local " ++ parentName ++ " = " ++ value ++ nl in
    match name with
    | ArrayBindingPattern elements =>
        forEach (fun result elem index =>
          match elem with
          | BindingElement dotDotDotToken _ elemName _ =>
              i <- getIndent ;;
              match dotDotDotToken with
              | None =>
                  ret (result ++ i ++ "local " ++ str (escapedText_of elemName)
                         ++ " = " ++ parentName ++ "["
                         ++ numberToString (index + 1) ++ "]" ++ nl)
              | Some _ =>
                  ret (result ++ i ++ "local " ++ str (escapedText_of elemName)
                         ++ " = TS_slice(" ++ parentName ++ ", "
                         ++ numberToString index ++ ")" ++ nl)
              end
          | _ => throw TypeError
          end) elements result
    | _ => throw TypeError
    end
  else throw (TranspileError
         ("Unsupported variable declaration type " ++ enumName (kind name))
         node).

(** Transpile a variable statement. *)
Definition transpileVariableStatement (declarationList : Node) : M string :=
  match declarationList with
  | VariableDeclarationList declarations =>
      forEach (fun result declaration (_ : Z) =>
        match declaration with
        | VariableDeclaration name initializer =>
            s <- transpileVariableDeclaration declaration name initializer ;;
            ret (result ++ s)
        | _ => throw TypeError
        end) declarations ""
  | _ => throw TypeError
  end.

(** The [parameters.forEach] loop that collects the parameter names. *)
Definition collectParameterNames (paramNames : list (option string))
    (parameters : list Node) : M (list (option string)) :=
  forEach (fun paramNames param (_ : Z) =>
             name <- parameterName param ;; ret (push paramNames name))
    parameters paramNames.

Definition transpileFunctionDeclaration (name : option Node)
    (parameters : list Node) (body : option Node) : M string :=
  let result := "" in
  identifier <- defined name ;;
  let methodName := escapedText_of identifier in
  paramNames <- collectParameterNames [] parameters ;;
  i <- getIndent ;;
  let result :=
    result ++ i ++ "function " ++ str methodName ++ "("
      ++ join "," paramNames ++ ")" ++ nl in
  pushIndent ;;;
  s <- (body <- defined body ;; transpileBlock body) ;;
  let result := result ++ s in
  popIndent ;;;
  i <- getIndent ;;
  let result := result ++ i ++ "end" ++ nl in
  ret result.

Definition transpileMethodDeclaration (name : Node) (parameters : list Node)
    (body : option Node) (path : string) : M string :=
  let result := "" in
  let identifier := name in
  let methodName := escapedText_of identifier in
  paramNames <- collectParameterNames [Some "self"] parameters ;;
  i <- getIndent ;;
  let result :=
    result ++ i ++ "function " ++ path ++ str methodName ++ "("
      ++ join "," paramNames ++ ")" ++ nl in
  pushIndent ;;;
  s <- (body <- defined body ;; transpileBlock body) ;;
  let result := result ++ s in
  popIndent ;;;
  i <- getIndent ;;
  let result := result ++ i ++ "end" ++ nl in
  ret result.

Definition transpileConstructor (parameters : list Node)
    (body : option Node) (className : option string)
    (instanceFields : list Node) : M string :=
  let extraInstanceFields : list (option string) := [] in
  let parameters' := [Some "self"] in
  acc <-
    forEach (fun (acc : list (option string) * list (option string))
                 param (_ : Z) =>
      let (extraInstanceFields, parameters') := acc in
      match param with
      | ParameterDeclaration modifiers _ name _ =>
          let extraInstanceFields :=
            match modifiers with
            | Some _ => push extraInstanceFields (escapedText_of name)
            | None => extraInstanceFields
            end in
          ret (extraInstanceFields, push parameters' (escapedText_of name))
      | _ => throw TypeError
      end) parameters (extraInstanceFields, parameters') ;;
  let (extraInstanceFields, parameters') := acc in
  i <- getIndent ;;
  let result :=
    i ++ "function " ++ str className ++ ".constructor("
      ++ join "," parameters' ++ ")" ++ nl in
  result <-
    forEach (fun result f (_ : Z) =>
               i <- getIndent ;;
               ret (result ++ i ++ "    self." ++ str f ++ " = " ++ str f
                      ++ nl))
      extraInstanceFields result ;;
  result <-
    forEach (fun result f (_ : Z) =>
      match f with
      | PropertyDeclaration _ fieldIdentifier initializer =>
          let fieldName := escapedText_of fieldIdentifier in
          value <- (init <- defined initializer ;;
                    transpileExpression init false) ;;
          i <- getIndent ;;
          ret (result ++ i ++ "    self." ++ str fieldName ++ " = " ++ value
                 ++ nl)
      | _ => throw TypeError
      end) instanceFields result ;;
  pushIndent ;;;
  s <- (body <- defined body ;; transpileBlock body) ;;
  let result := result ++ s in
  popIndent ;;;
  i <- getIndent ;;
  ret (result ++ i ++ "end" ++ nl).

(** [(<ts.Identifier>extendsType.expression).escapedText] *)
Definition baseNameOf (extendsType : Node) : M (option string) :=
  match extendsType with
  | ExpressionWithTypeArguments expression => ret (escapedText_of expression)
  | _ => throw TypeError
  end.

(** Transpile a class declaration.  A heritage clause lists at least one
    type, as the parser ensures. *)
Definition transpileClass (node : Node) (name : option Node)
    (heritageClauses : option (list Node)) (members : list Node)
    : M string :=
  heritage <-
    match heritageClauses with
    | Some clauses =>
        forEach (fun (acc : option Node * bool) clause (_ : Z) =>
          match clause with
          | HeritageClause token types =>
              if SyntaxKind_beq token ExtendsKeyword
              then
                first <- defined (nth_error types 0) ;;
                let superType := getTypeAtLocation checker first in
                ret (if negb (isPureAbstractClass superType)
                     then Some first else fst acc,
                     hasCustomDecorator superType "!NoClassOr")
              else ret acc
          | _ => ret acc
          end) clauses (None, false)
    | None => ret (None, false)
    end ;;
  let (extendsType, noClassOr) := heritage in
  identifier <- defined name ;;
  let className := escapedText_of identifier in
  let result := "" in
  let isExtension := isExtensionClass (getTypeAtLocation checker node) in
  header <-
    (if negb isExtension
     then
       let classOr := if noClassOr then "" else str className ++ " or " in
       result <-
         match extendsType with
         | None =>
             i <- getIndent ;;
             ret (result ++ i ++ str className ++ " = " ++ classOr ++ "{}"
                    ++ nl)
         | Some extendsType =>
             baseName <- baseNameOf extendsType ;;
             i <- getIndent ;;
             ret (result ++ i ++ str className ++ " = " ++ classOr
                    ++ str baseName ++ ".new()" ++ nl)
         end ;;
       i <- getIndent ;;
       let result :=
         result ++ i ++ str className ++ ".__index = " ++ str className
           ++ nl in
       result <-
         match extendsType with
         | Some extendsType =>
             baseName <- baseNameOf extendsType ;;
             i <- getIndent ;;
             ret (result ++ i ++ str className ++ ".__base = "
                    ++ str baseName ++ nl)
         | None => ret result
         end ;;
       i <- getIndent ;;
       let result :=
         result ++ i ++ "function " ++ str className
           ++ ".new(construct, ...)" ++ nl in
       i <- getIndent ;;
       let result :=
         result ++ i ++ "    local instance = setmetatable({}, "
           ++ str className ++ ")" ++ nl in
       i <- getIndent ;;
       let result :=
         result ++ i ++ "    if construct and " ++ str className
           ++ ".constructor then " ++ str className
           ++ ".constructor(instance, ...) end" ++ nl in
       i <- getIndent ;;
       let result := result ++ i ++ "    return instance" ++ nl in
       i <- getIndent ;;
       let result := result ++ i ++ "end" ++ nl in
       ret (className, result)
     else
       match extendsType with
       | Some extendsType =>
           baseName <- baseNameOf extendsType ;;
           ret (baseName, result)
       | None => ret (className, result)
       end) ;;
  let (className, result) := header in
  let properties :=
    filter (fun m => match m with
                     | PropertyDeclaration _ _ (Some _) => true
                     | _ => false
                     end)
      (filter isPropertyDeclaration members) in
  let isStatic (m : Node) :=
    match m with
    | PropertyDeclaration modifiers _ _ =>
        existsb (fun t => SyntaxKind_beq (kind t) StaticKeyword) modifiers
    | _ => false
    end in
  let staticFields := filter isStatic properties in
  let instanceFields := filter (fun m => negb (isStatic m)) properties in
  result <-
    forEach (fun result field (_ : Z) =>
      match field with
      | PropertyDeclaration _ fieldIdentifier initializer =>
          let fieldName := escapedText_of fieldIdentifier in
          value <- (init <- defined initializer ;;
                    transpileExpression init false) ;;
          i <- getIndent ;;
          ret (result ++ i ++ str className ++ "." ++ str fieldName ++ " = "
                 ++ value ++ nl)
      | _ => throw TypeError
      end) staticFields result ;;
  result <-
    match filter isConstructorDeclaration members with
    | ConstructorDeclaration _ parameters body :: _ =>
        s <- transpileConstructor parameters body className instanceFields ;;
        ret (result ++ s)
    | _ :: _ => throw TypeError
    | [] =>
        if 0 <? Z.of_nat (length instanceFields)
        then
          s <- transpileConstructor [] (Some (Block [])) className
                 instanceFields ;;
          ret (result ++ s)
        else ret result
    end ;;
  result <-
    forEach (fun result method (_ : Z) =>
      match method with
      | MethodDeclaration _ methodName parameters body =>
          s <- transpileMethodDeclaration methodName parameters body
                 (str className ++ ".") ;;
          ret (result ++ s)
      | _ => throw TypeError
      end) (filter isMethodDeclaration members) result ;;
  ret result.

Definition transpileArrayLiteral (elements : list Node) : M string :=
  let values : list (option string) := [] in
  values <-
    forEach (fun values child (_ : Z) =>
               s <- transpileExpression child false ;;
               ret (push values (Some s))) elements values ;;
  ret ("{" ++ join "," values ++ "}").

Definition transpileObjectLiteral (properties : list Node) : M string :=
  let collected : list (option string) := [] in
  collected <-
    forEach (fun collected assignment (_ : Z) =>
      let children := getChildren assignment in
      let value := nth_error children 1 in
      key <- defined (nth_error children 0) ;;
      if isIdentifier key
      then
        v <- (value <- defined value ;; transpileExpression value false) ;;
        ret (push collected (Some (str (escapedText_of key) ++ "=" ++ v)))
      else if isComputedPropertyName key
      then
        index <- transpileExpression key false ;;
        v <- (value <- defined value ;; transpileExpression value false) ;;
        ret (push collected (Some (index ++ "=" ++ v)))
      else
        index <- transpileExpression key false ;;
        v <- (value <- defined value ;; transpileExpression value false) ;;
        ret (push collected (Some ("[" ++ index ++ "]=" ++ v))))
      properties collected ;;
  ret ("{" ++ join "," collected ++ "}").

Definition transpileArrowFunction (parameters : list Node) (body : Node)
    : M string :=
  paramNames <- collectParameterNames [] parameters ;;
  if isBlock body
  then
    let result := "function(" ++ join "," paramNames ++ ")" ++ nl in
    pushIndent ;;;
    s <- transpileBlock body ;;
    let result := result ++ s in
    popIndent ;;;
    i <- getIndent ;;
    ret (result ++ i ++ "end" ++ nl)
  else
    s <- transpileExpression body false ;;
    ret ("function(" ++ join "," paramNames ++ ") return " ++ s ++ " end").

(** [transpileFunctionExpression]; the dispatcher never calls it, a function
    expression goes through [transpileArrowFunction]. *)
Definition transpileFunctionExpression (parameters : list Node) (body : Node)
    : M string :=
  paramNames <- collectParameterNames [] parameters ;;
  let result := "function(" ++ join "," paramNames ++ ")" ++ nl in
  pushIndent ;;;
  s <- transpileBlock body ;;
  let result := result ++ s in
  popIndent ;;;
  i <- getIndent ;;
  ret (result ++ i ++ "end" ++ nl).

(** The body of [transpileExpression]: the switch on [node.kind]. *)
Definition transpileExpressionBody (node : Node) (brackets : bool)
    : M string :=
  match node with
  | BinaryExpression lhs operatorToken rhs =>
      transpileBinaryExpression lhs operatorToken rhs brackets
  | ConditionalExpression condition whenTrue whenFalse =>
      transpileConditionalExpression condition whenTrue whenFalse brackets
  | CallExpression expression arguments =>
      transpileCallExpression node expression arguments
  | PropertyAccessExpression expression name =>
      transpilePropertyAccessExpression node expression name
  | ElementAccessExpression expression argumentExpression =>
      transpileElementAccessExpression expression argumentExpression
  | Identifier text _ => ret text
  | StringLiteral text => ret (dq ++ text ++ dq)
  | TemplateExpression head templateSpans =>
      transpileTemplateExpression head templateSpans
  | NumericLiteral text => ret text
  | Token TrueKeyword => ret "true"
  | Token FalseKeyword => ret "false"
  | Token NullKeyword => ret "nil"
  | Token ThisKeyword => ret "self"
  | PostfixUnaryExpression operand operator =>
      transpilePostfixUnaryExpression node operand operator
  | PrefixUnaryExpression operator operand =>
      transpilePrefixUnaryExpression node operator operand
  | ArrayLiteralExpression elements => transpileArrayLiteral elements
  | ObjectLiteralExpression properties => transpileObjectLiteral properties
  | FunctionExpression _ _ parameters body
  | ArrowFunction _ parameters body =>
      transpileArrowFunction parameters body
  | NewExpression expression arguments =>
      transpileNewExpression expression arguments
  | ComputedPropertyName expression =>
      s <- transpileExpression expression false ;; ret ("[" ++ s ++ "]")
  | ParenthesizedExpression expression =>
      s <- transpileExpression expression false ;; ret ("(" ++ s ++ ")")
  | Token SuperKeyword => ret "self.__base"
  | TypeAssertionExpression expression =>
      transpileExpression expression false
  | AsExpression expression => transpileExpression expression false
  | _ =>
      throw (TranspileError
               ("Unsupported expression kind: " ++ enumName (kind node)) node)
  end.

(** The body of [transpileNode]: transpile a node of unknown kind. *)
Definition transpileNodeBody (node : Node) : M string :=
  if 0 <? Z.of_nat (length (getChildrenOfType node (kindIs DeclareKeyword)))
  then ret ""
  else
    match node with
    | ImportDeclaration _ importClause moduleSpecifier =>
        transpileImport node importClause moduleSpecifier
    | ClassDeclaration _ name heritageClauses members =>
        transpileClass node name heritageClauses members
    | EnumDeclaration _ name members => transpileEnum node name members
    | FunctionDeclaration _ name parameters body =>
        transpileFunctionDeclaration name parameters body
    | VariableStatement _ declarationList =>
        i <- getIndent ;;
        s <- transpileVariableStatement declarationList ;;
        ret (i ++ s ++ nl)
    | ExpressionStatement _ =>
        i <- getIndent ;;
        s <- (e <- defined (nth_error (getChildren node) 0) ;;
              transpileExpression e false) ;;
        ret (i ++ s ++ nl)
    | ReturnStatement expression =>
        i <- getIndent ;;
        s <- transpileReturn expression ;;
        ret (i ++ s ++ nl)
    | IfStatement expression thenStatement elseStatement =>
        transpileIf expression thenStatement elseStatement
    | WhileStatement expression statement =>
        transpileWhile expression statement
    | ForStatement initializer condition incrementor statement =>
        transpileFor node initializer condition incrementor statement
    | ForOfStatement initializer expression statement =>
        transpileForOf initializer expression statement
    | ForInStatement initializer expression statement =>
        transpileForIn initializer expression statement
    | SwitchStatement expression caseBlock =>
        transpileSwitch expression caseBlock
    | BreakStatement _ => transpileBreak
    | Token ContinueKeyword =>
        throw (TranspileError "Continue is not supported in Lua" node)
    | TypeAliasDeclaration _ _ | InterfaceDeclaration _ _
    | Token EndOfFileToken => ret ""
    | _ =>
        i <- getIndent ;;
        s <- transpileExpression node false ;;
        ret (i ++ s ++ nl)
    end.

End Methods.

(** ** Tying the knot *)

(** The two dispatchers call each other through the methods; the model
    bounds the depth of these calls by [fuel]. *)
Fixpoint transpileNode (TF : TypeFlags) (enumName : SyntaxKind -> string)
    (checker : TypeChecker) (fuel : nat) (node : Node) {struct fuel}
    : M string :=
  match fuel with
  | O => outOfFuel
  | S fuel' =>
      transpileNodeBody enumName checker
        (transpileExpression TF enumName checker fuel')
        (transpileNode TF enumName checker fuel') node
  end
with transpileExpression (TF : TypeFlags) (enumName : SyntaxKind -> string)
    (checker : TypeChecker) (fuel : nat) (node : Node) (brackets : bool)
    {struct fuel} : M string :=
  match fuel with
  | O => outOfFuel
  | S fuel' =>
      transpileExpressionBody TF enumName checker
        (transpileExpression TF enumName checker fuel')
        (transpileNode TF enumName checker fuel') node brackets
  end.

(** [new LuaTranspiler(checker)] *)
Definition newLuaTranspiler : LuaTranspiler :=
  {| indent := ""; genVarCounter := 0; transpilingSwitch := false |}.

(** Transpile a source file. *)
Definition transpileSourceFile (TF : TypeFlags)
    (enumName : SyntaxKind -> string) (checker : TypeChecker) (fuel : nat)
    (node : Node) : Outcome string :=
  transpileBlock (transpileNode TF enumName checker fuel) node
    newLuaTranspiler.

(** * Specifications *)

(** ** Reading an outcome *)

(** The text a run returned, if it returned. *)
Definition emitted {A} (r : Outcome A) : option A :=
  match r with Ok a _ => Some a | _ => None end.

(** A text given line by line; each line ends with a line feed. *)
Definition lines (l : list string) : string :=
  String.concat "" (map (fun s => s ++ nl) l).

Fixpoint prefix_of (p s : string) : bool :=
  match p, s with
  | EmptyString, _ => true
  | String a p', String b s' => Ascii.eqb a b && prefix_of p' s'
  | String _ _, EmptyString => false
  end.

(** How many times [p] occurs in [s], overlaps included. *)
Fixpoint occurrences (p s : string) : nat :=
  match s with
  | EmptyString => if prefix_of p s then 1%nat else 0%nat
  | String _ rest =>
      ((if prefix_of p s then 1 else 0) + occurrences p rest)%nat
  end.

(** ** Order on outcomes: more fuel never changes an answer *)

(** [r] is below [r'] when [r] is the exhausted bound or the two agree. *)
Definition below {A} (r r' : Outcome A) : Prop := r = OutOfFuel \/ r = r'.

Definition refines {A} (m m' : M A) : Prop :=
  forall this, below (m this) (m' this).

(** ** Argument lists *)

(** The texts of a list of expressions, transpiled from left to right. *)
Fixpoint transpileEach (te : Node -> bool -> M string) (l : list Node)
    : M (list string) :=
  match l with
  | [] => ret []
  | x :: rest =>
      s <- te x false ;;
      others <- transpileEach te rest ;;
      ret (s :: others)
  end.

(** An import specifier that renames: [a as b]. *)
Definition renames (element : Node) : bool :=
  match element with
  | ImportSpecifier (Some _) _ => true
  | _ => false
  end.

(** ** Sample programs and a sample front-end *)

Module Sample.

(** One assignment of the type flags, on distinct bits. *)
Definition typeFlags : TypeFlags :=
  {| TypeFlags_String := 2; TypeFlags_StringLiteral := 32;
     TypeFlags_Object := 65536 |}.

Definition kindName (k : SyntaxKind) : string := "SyntaxKind".

Definition plainType (f : Z) : TsType :=
  {| flags := f; isArrayType := false; isTupleType := false;
     isStringType := false; isCompileMembersOnlyEnum := false;
     isPureAbstractClass := false; isExtensionClass := false;
     hasCustomDecorator := fun _ => false |}.

Definition numberType : TsType := plainType 4.

Definition objectType : TsType := plainType 65536.

Definition stringType : TsType :=
  {| flags := 2; isArrayType := false; isTupleType := false;
     isStringType := true; isCompileMembersOnlyEnum := false;
     isPureAbstractClass := false; isExtensionClass := false;
     hasCustomDecorator := fun _ => false |}.

Definition arrayType : TsType :=
  {| flags := 65536; isArrayType := true; isTupleType := false;
     isStringType := false; isCompileMembersOnlyEnum := false;
     isPureAbstractClass := false; isExtensionClass := false;
     hasCustomDecorator := fun _ => false |}.

Definition membersOnlyEnumType : TsType :=
  {| flags := 65536; isArrayType := false; isTupleType := false;
     isStringType := false; isCompileMembersOnlyEnum := true;
     isPureAbstractClass := false; isExtensionClass := false;
     hasCustomDecorator := fun _ => false |}.

(** A checker for the samples: [a] and [xs] are arrays, [s] is a string,
    [o] is an object, [Color] is a compile-members-only enum, string
    literals are strings and everything else is a number. *)
Definition checker : TypeChecker :=
  {| getTypeAtLocation := fun node =>
       match node with
       | StringLiteral _ => stringType
       | Identifier name _ =>
           if String.eqb name "a" || String.eqb name "xs" then arrayType
           else if String.eqb name "s" then stringType
           else if String.eqb name "o" then objectType
           else if String.eqb name "Color" then membersOnlyEnumType
           else numberType
       | _ => numberType
       end |}.

Definition ident (name : string) : Node := Identifier name name.

Definition sourceFile (statements : list Node) : Node :=
  SourceFile statements (Token EndOfFileToken).

(** [f();] *)
Definition callStatement (f : string) : Node :=
  ExpressionStatement (CallExpression (ident f) []).

(** [switch (k) { case 1: switch (j) { case 2: b(); break; } break; }] *)
Definition breakAfterInnerSwitch : Node :=
  SwitchStatement (ident "k")
    (CaseBlock
       [CaseClause (NumericLiteral "1")
          [SwitchStatement (ident "j")
             (CaseBlock
                [CaseClause (NumericLiteral "2")
                   [callStatement "b"; BreakStatement None]]);
           BreakStatement None]]).

(** [switch (k) { case 1: switch (j) { case 2: b(); } }] *)
Definition switchInCase : Node :=
  SwitchStatement (ident "k")
    (CaseBlock
       [CaseClause (NumericLiteral "1")
          [SwitchStatement (ident "j")
             (CaseBlock
                [CaseClause (NumericLiteral "2") [callStatement "b"]])]]).

(** [import * as X from "m";] *)
Definition namespaceImport (X : Node) (m : string) : Node :=
  ImportDeclaration [] (Some (ImportClause None (Some (NamespaceImport X))))
    (StringLiteral m).

(** [import { ... } from "m";] *)
Definition namedImport (elements : list Node) (m : string) : Node :=
  ImportDeclaration []
    (Some (ImportClause None (Some (NamedImports elements))))
    (StringLiteral m).

(** [let x = 1 + 2;] *)
Definition letSum : Node :=
  VariableStatement []
    (VariableDeclarationList
       [VariableDeclaration (ident "x")
          (Some (BinaryExpression (NumericLiteral "1") (Token PlusToken)
                   (NumericLiteral "2")))]).

(** [let x = 1 + 2 * 3;] *)
Definition letSumOfProduct : Node :=
  VariableStatement []
    (VariableDeclarationList
       [VariableDeclaration (ident "x")
          (Some (BinaryExpression (NumericLiteral "1") (Token PlusToken)
                   (BinaryExpression (NumericLiteral "2")
                      (Token AsteriskToken) (NumericLiteral "3"))))]).

(** [let [a, b, ...rest] = xs;] *)
Definition destructuring : Node :=
  VariableStatement []
    (VariableDeclarationList
       [VariableDeclaration
          (ArrayBindingPattern
             [BindingElement None None (ident "a") None;
              BindingElement None None (ident "b") None;
              BindingElement (Some (Token DotDotDotToken)) None
                (ident "rest") None])
          (Some (ident "xs"))]).

(** [enum E { A = 1.5 }] *)
Definition fractionalEnum : Node :=
  EnumDeclaration [] (ident "E")
    [EnumMember (ident "A") (Some (NumericLiteral "1.5"))].

(** [enum E { A = 9007199254740991, B, C }] *)
Definition largeEnum : Node :=
  EnumDeclaration [] (ident "E")
    [EnumMember (ident "A") (Some (NumericLiteral "9007199254740991"));
     EnumMember (ident "B") None;
     EnumMember (ident "C") None].

(** [Color.toString()] *)
Definition enumMethodCall : Node :=
  CallExpression (PropertyAccessExpression (ident "Color") (ident "toString"))
    [].

(** [o.m(1, y)] *)
Definition objectMethodCall : Node :=
  CallExpression (PropertyAccessExpression (ident "o") (ident "m"))
    [NumericLiteral "1"; ident "y"].

End Sample.

(** ** State relations and emitted shapes *)

(** [n] spaces. *)
Fixpoint blank (n : nat) : string :=
  match n with
  | O => ""
  | S n' => String " " (blank n')
  end.

(** A run of [m] that starts with an indentation of [n] spaces and
    returns ends with one of [n'] spaces. *)
Definition reindents {A} (n : nat) (m : M A) (n' : nat) : Prop :=
  forall this a this',
    indent this = blank n -> m this = Ok a this' -> indent this' = blank n'.

(** Every run of [m] that returns relates the fields before to the fields
    after by [R]. *)
Definition respects {A} (R : LuaTranspiler -> LuaTranspiler -> Prop)
    (m : M A) : Prop :=
  forall this a this', m this = Ok a this' -> R this this'.

(** [R] does not look at the indentation. *)
Definition indentFree (R : LuaTranspiler -> LuaTranspiler -> Prop) : Prop :=
  forall this i,
    R this {| indent := i; genVarCounter := genVarCounter this;
              transpilingSwitch := transpilingSwitch this |}.

(** [R] does not look at the switch flag. *)
Definition flagFree (R : LuaTranspiler -> LuaTranspiler -> Prop) : Prop :=
  forall this b,
    R this {| indent := indent this; genVarCounter := genVarCounter this;
              transpilingSwitch := b |}.

(** [R] allows the counter to advance. *)
Definition counterUp (R : LuaTranspiler -> LuaTranspiler -> Prop) : Prop :=
  forall this d,
    0 <= d ->
    R this {| indent := indent this; genVarCounter := genVarCounter this + d;
              transpilingSwitch := transpilingSwitch this |}.

(** The counter does not go down. *)
Definition counterGrows (this this' : LuaTranspiler) : Prop :=
  genVarCounter this <= genVarCounter this'.

(** A flag that is off stays off. *)
Definition flagStaysOff (this this' : LuaTranspiler) : Prop :=
  transpilingSwitch this = false -> transpilingSwitch this' = false.

(** The callback of the loop of [transpileBlock]. *)
Definition appendNode (tn : Node -> M string) (result : string)
    (child : Node) (_ : Z) : M string :=
  s <- tn child ;; ret (result ++ s).

(** The texts of the declarators of one variable statement, one after the
    other. *)
Fixpoint declaratorTexts (declarators : list (Node * Node))
    (values : list string) : string :=
  match declarators, values with
  | (name, _) :: declarators', value :: values' =>
      ("local " ++ str (escapedText_of name) ++ " = " ++ value)
        ++ declaratorTexts declarators' values'
  | _, _ => ""
  end.

(** [let name = initializer] as a declarator. *)
Definition declarator (d : Node * Node) : Node :=
  VariableDeclaration (fst d) (Some (snd d)).

(** The Lua function that the [switch] of [transpileArrayCallExpression]
    lowers an array method to; [None] is its [default] branch. *)
Definition arrayFunction (method : string) : option string :=
  if String.eqb method "push" then Some "table.insert"
  else if String.eqb method "forEach" then Some "TS_forEach"
  else if String.eqb method "map" then Some "TS_map"
  else if String.eqb method "filter" then Some "TS_filter"
  else if String.eqb method "some" then Some "TS_some"
  else if String.eqb method "every" then Some "TS_every"
  else if String.eqb method "slice" then Some "TS_slice"
  else None.

(** The lines that bind the elements of an array binding pattern, the
    first of them at [index]. *)
Fixpoint destructuringLines (indent parentName : string) (index : Z)
    (elements : list Node) : string :=
  match elements with
  | BindingElement dotDotDotToken _ name _ :: rest =>
      (indent ++ "local " ++ str (escapedText_of name)
         ++ match dotDotDotToken with
            | None =>
                " = " ++ parentName ++ "[" ++ numberToString (index + 1)
                  ++ "]"
            | Some _ =>
                " = TS_slice(" ++ parentName ++ ", " ++ numberToString index
                  ++ ")"
            end ++ nl)
        ++ destructuringLines indent parentName (index + 1) rest
  | _ => ""
  end.

(** An element of an array binding pattern that binds a name; an omitted
    element, as in [[, b]], is not one. *)
Definition isBindingElement (node : Node) : bool :=
  match node with
  | BindingElement _ _ _ _ => true
  | _ => false
  end.

(** A node of the [parameters] array of a function. *)
Definition isParameter (param : Node) : bool :=
  match param with
  | ParameterDeclaration _ _ _ _ => true
  | _ => false
  end.

(** [(<ts.Identifier>param.name).escapedText] of a parameter. *)
Definition parameterNameOf (param : Node) : option string :=
  match param with
  | ParameterDeclaration _ _ name _ => escapedText_of name
  | _ => None
  end.

(** The fields with another indentation. *)
Definition withIndent (i : string) (this : LuaTranspiler) : LuaTranspiler :=
  {| indent := i; genVarCounter := genVarCounter this;
     transpilingSwitch := transpilingSwitch this |}.

(** A parameter with a modifier, which declares a field. *)
Definition hasModifiers (param : Node) : bool :=
  match param with
  | ParameterDeclaration (Some _) _ _ _ => true
  | _ => false
  end.

(** One [self.f = f] line per field, one level deeper than [indent]. *)
Fixpoint fieldAssignments (indent : string) (fields : list (option string))
    : string :=
  match fields with
  | [] => ""
  | f :: rest =>
      (indent ++ "    self." ++ str f ++ " = " ++ str f ++ nl)
        ++ fieldAssignments indent rest
  end.

(** [key: value] as a property of an object literal. *)
Definition propertyAssignment (p : Node * Node) : Node :=
  PropertyAssignment (fst p) (snd p).

(** The [key=value] fields of a table. *)
Fixpoint tableFields (properties : list (Node * Node)) (values : list string)
    : list string :=
  match properties, values with
  | (key, _) :: properties', value :: values' =>
      (str (escapedText_of key) ++ "=" ++ value)
        :: tableFields properties' values'
  | _, _ => []
  end.

(** [${expression}literal] as a span of a template. *)
Definition templateSpan (p : Node * Node) : Node :=
  TemplateSpan (fst p) (snd p).

(** The piece each span adds to a template: the text of its expression,
    then its literal between double quotes. *)
Fixpoint spanPieces (spans : list (Node * Node)) (texts : list string)
    : list string :=
  match spans, texts with
  | (_, literal) :: spans', text :: texts' =>
      (text ++ ".." ++ dq ++ str (text_of literal) ++ dq)
        :: spanPieces spans' texts'
  | _, _ => []
  end.

(** * Proofs *)

(** ** More fuel never changes an answer *)

Lemma refines_refl {A} (m : M A) : refines m m.
Proof. intros this; right; reflexivity. Qed.

Lemma refines_trans {A} (m1 m2 m3 : M A) :
  refines m1 m2 -> refines m2 m3 -> refines m1 m3.
Proof.
  intros H12 H23 this.
  destruct (H12 this) as [E | E]; [left; exact E |].
  rewrite E. apply H23.
Qed.

Lemma refines_outOfFuel {A} (m : M A) : refines outOfFuel m.
Proof. intros this; left; reflexivity. Qed.

Lemma refines_bind {A B} (m m' : M A) (k k' : A -> M B) :
  refines m m' -> (forall a, refines (k a) (k' a)) ->
  refines (bind m k) (bind m' k').
Proof.
  intros Hm Hk this. unfold bind.
  destruct (Hm this) as [E | E]; rewrite E.
  - left; reflexivity.
  - destruct (m' this); [apply Hk | right; reflexivity | right; reflexivity].
Qed.

Lemma refines_forEachFrom {A B} (f f' : B -> A -> Z -> M B) (l : list A) :
  (forall acc x i, refines (f acc x i) (f' acc x i)) ->
  forall index acc,
    refines (forEachFrom f l index acc) (forEachFrom f' l index acc).
Proof.
  intros Hf. induction l as [| x rest IH]; intros index acc; simpl.
  - apply refines_refl.
  - apply refines_bind; [apply Hf | intros acc'; apply IH].
Qed.

Lemma refines_forEach {A B} (f f' : B -> A -> Z -> M B) (l : list A) acc :
  (forall acc x i, refines (f acc x i) (f' acc x i)) ->
  refines (forEach f l acc) (forEach f' l acc).
Proof. intros Hf. apply refines_forEachFrom, Hf. Qed.

(** One step of a monotonicity proof: peel a bind or a loop, split on the
    scrutinee the two sides share, or close with a hypothesis on the
    dispatchers. *)
Ltac mono_step :=
  match goal with
  | |- refines ?m ?m => apply refines_refl
  | H : forall node brackets, refines (?f node brackets) _
    |- refines (?f _ _) _ => apply H
  | H : forall node, refines (?f node) _ |- refines (?f _) _ => apply H
  | |- refines (bind _ _) (bind _ _) => apply refines_bind; [| intros]
  | |- refines (forEach _ _ _) (forEach _ _ _) =>
      apply refines_forEach; intros
  | |- refines (match ?x with _ => _ end) _ => destruct x
  | |- refines (if ?x then _ else _) _ => destruct x
  end.

Ltac mono := intros; repeat mono_step.

Section Monotone.

Variable TF : TypeFlags.
Variable enumName : SyntaxKind -> string.
Variable checker : TypeChecker.
Variables te te' : Node -> bool -> M string.
Variables tn tn' : Node -> M string.
Hypothesis Hte :
  forall node brackets, refines (te node brackets) (te' node brackets).
Hypothesis Htn : forall node, refines (tn node) (tn' node).

(** Every expression emitter is monotone in the two dispatchers. *)
Lemma transpileExpressionBody_mono (node : Node) (brackets : bool) :
  refines (transpileExpressionBody TF enumName checker te tn node brackets)
    (transpileExpressionBody TF enumName checker te' tn' node brackets).
Proof.
  unfold transpileExpressionBody.
  destruct node; try apply refines_refl;
    unfold transpileBinaryExpression, transpileConditionalExpression,
      transpileCallExpression, transpileStringCallExpression,
      transpileArrayCallExpression, transpilePropertyAccessExpression,
      transpileStringProperty, transpileArrayProperty,
      transpileElementAccessExpression, transpileTemplateExpression,
      transpilePostfixUnaryExpression, transpilePrefixUnaryExpression,
      transpileArrayLiteral, transpileObjectLiteral, transpileArrowFunction,
      transpileNewExpression, transpileArguments, transpileBlock,
      collectParameterNames;
    mono.
Qed.

(** Every statement emitter is monotone in the two dispatchers. *)
Lemma transpileNodeBody_mono (node : Node) :
  refines (transpileNodeBody enumName checker te tn node)
    (transpileNodeBody enumName checker te' tn' node).
Proof.
  unfold transpileNodeBody.
  destruct (0 <? _); [apply refines_refl |].
  destruct node; try apply refines_refl;
    unfold transpileImport, transpileClass, transpileConstructor,
      transpileMethodDeclaration, transpileFunctionDeclaration,
      transpileVariableStatement, transpileVariableDeclaration,
      transpileReturn, transpileIf, transpileWhile, transpileFor,
      GetForEnd, GetForStep, transpileForOf, transpileForIn,
      transpileSwitch, transpileClause, transpileStatement, transpileBlock,
      collectParameterNames;
    mono.
Qed.

End Monotone.

Section Fuel.

Variable TF : TypeFlags.
Variable enumName : SyntaxKind -> string.
Variable checker : TypeChecker.

#[local] Abbreviation te := (transpileExpression TF enumName checker).
#[local] Abbreviation tn := (transpileNode TF enumName checker).

Lemma fuel_step (fuel : nat) :
  (forall node brackets,
     refines (te fuel node brackets) (te (S fuel) node brackets)) /\
  (forall node, refines (tn fuel node) (tn (S fuel) node)).
Proof.
  induction fuel as [| fuel [IHe IHn]].
  - split; intros; apply refines_outOfFuel.
  - split; intros.
    + change (refines
                (transpileExpressionBody TF enumName checker (te fuel)
                   (tn fuel) node brackets)
                (transpileExpressionBody TF enumName checker (te (S fuel))
                   (tn (S fuel)) node brackets)).
      apply transpileExpressionBody_mono; assumption.
    + change (refines
                (transpileNodeBody enumName checker (te fuel) (tn fuel) node)
                (transpileNodeBody enumName checker (te (S fuel))
                   (tn (S fuel)) node)).
      apply transpileNodeBody_mono; assumption.
Qed.

Lemma fuel_le (fuel fuel' : nat) :
  (fuel <= fuel')%nat ->
  (forall node brackets,
     refines (te fuel node brackets) (te fuel' node brackets)) /\
  (forall node, refines (tn fuel node) (tn fuel' node)).
Proof.
  induction 1 as [| fuel' _ [IHe IHn]].
  - split; intros; apply refines_refl.
  - destruct (fuel_step fuel') as [Se Sn].
    split; intros; eapply refines_trans; eauto.
Qed.

(** An expression that returns with some fuel returns the same with more. *)
Lemma transpileExpression_more_fuel fuel fuel' node brackets this a this' :
  te fuel node brackets this = Ok a this' ->
  (fuel <= fuel')%nat ->
  te fuel' node brackets this = Ok a this'.
Proof.
  intros Hrun Hle.
  destruct (proj1 (fuel_le fuel fuel' Hle) node brackets this) as [E | E].
  - rewrite Hrun in E. discriminate.
  - rewrite <- E. exact Hrun.
Qed.

Lemma transpileNode_more_fuel fuel fuel' node this a this' :
  tn fuel node this = Ok a this' ->
  (fuel <= fuel')%nat ->
  tn fuel' node this = Ok a this'.
Proof.
  intros Hrun Hle.
  destruct (proj2 (fuel_le fuel fuel' Hle) node this) as [E | E].
  - rewrite Hrun in E. discriminate.
  - rewrite <- E. exact Hrun.
Qed.

Lemma transpileEach_more_fuel fuel fuel' l this A this' :
  transpileEach (te fuel) l this = Ok A this' ->
  (fuel <= fuel')%nat ->
  transpileEach (te fuel') l this = Ok A this'.
Proof.
  intros Hrun Hle. revert this this' A Hrun.
  induction l as [| x rest IH]; intros this this' A Hrun; simpl in *.
  - exact Hrun.
  - unfold bind in *.
    destruct (te fuel x false this) as [s this1 | |] eqn:Hx; try discriminate.
    rewrite (transpileExpression_more_fuel _ _ _ _ _ _ _ Hx Hle).
    destruct (transpileEach (te fuel) rest this1) as [others this2 | |] eqn:Hr;
      try discriminate.
    rewrite (IH _ _ _ Hr). exact Hrun.
Qed.

End Fuel.

(** ** Switch statements *)

(** Split on every scrutinee of a run that is known to return. *)
Ltac run_cases :=
  repeat match goal with
         | H : Ok _ _ = Ok _ _ |- _ => inversion H; subst; clear H
         | H : Throw _ = Ok _ _ |- _ => discriminate H
         | H : OutOfFuel = Ok _ _ |- _ => discriminate H
         | H : context [match ?x with _ => _ end] |- _ =>
             destruct x eqn:?
         end.

Section SwitchFlag.

Variable te : Node -> bool -> M string.
Variable tn : Node -> M string.

(** A clause that has been lowered leaves [transpilingSwitch] false. *)
Lemma transpileClause_resets_flag expression length result clause index
    this out this' :
  transpileClause te tn expression length result clause index this
  = Ok out this' ->
  transpilingSwitch this' = false.
Proof.
  unfold transpileClause, bind, pushIndent, popIndent.
  unfold bind, getIndent, getGenVarCounter, setIndent, setTranspilingSwitch,
    ret, throw.
  intros H. destruct clause; try discriminate H; simpl in H;
    run_cases; reflexivity.
Qed.

Lemma clauses_reset_flag expression length clauses :
  clauses <> [] ->
  forall index result this out this',
    forEachFrom (transpileClause te tn expression length) clauses index
      result this = Ok out this' ->
    transpilingSwitch this' = false.
Proof.
  induction clauses as [| clause rest IH]; [congruence |].
  intros _ index result this out this' H. simpl in H. unfold bind in H.
  destruct (transpileClause te tn expression length result clause index this)
    as [r1 this1 | |] eqn:Hclause; try discriminate.
  destruct rest as [| next rest'].
  - simpl in H. inversion H; subst.
    eapply transpileClause_resets_flag; eassumption.
  - eapply IH; [discriminate | eassumption].
Qed.

(** A switch statement with a clause leaves [transpilingSwitch] false. *)
Lemma transpileSwitch_resets_flag expression clauses this out this' :
  clauses <> [] ->
  transpileSwitch te tn expression (CaseBlock clauses) this = Ok out this' ->
  transpilingSwitch this' = false.
Proof.
  intros Hne. unfold transpileSwitch, forEach.
  unfold bind at 1. destruct (te expression true this) as [e this0 | |];
    try discriminate.
  unfold bind at 1. unfold ret at 1.
  unfold bind at 1. unfold getIndent at 1.
  unfold bind at 1.
  destruct (forEachFrom _ clauses 0 _ this0) as [r this1 | |] eqn:Hloop;
    try discriminate.
  apply (clauses_reset_flag _ _ _ Hne) in Hloop.
  unfold bind, getIndent, getGenVarCounter, setGenVarCounter, ret.
  intros H. inversion H; subst. simpl. exact Hloop.
Qed.

End SwitchFlag.

(** C1 (the code falls short of it): a switch statement that has lowered a
    clause leaves [transpilingSwitch] false, so a [break] that follows it,
    also one in a case clause of an enclosing switch, is lowered to a bare
    [break] and not to the [goto] of the enclosing switch.  On
    [switch (k) { case 1: switch (j) { case 2: b(); break; } break; }] the
    outer [break] stays [break] while the outer terminator is
    [::switchDone1::]. *)
Theorem break_after_inner_switch_stays_break
    (TF : TypeFlags) (enumName : SyntaxKind -> string)
    (checker : TypeChecker) (fuel : nat) :
  (forall (te : Node -> bool -> M string) (tn : Node -> M string)
          (expression : Node) (clauses : list Node)
          (this this' : LuaTranspiler) (out : string),
     clauses <> [] ->
     transpileSwitch te tn expression (CaseBlock clauses) this
     = Ok out this' ->
     transpileBreak this' = Ok (indent this' ++ "break" ++ nl) this')
  /\
  transpileSourceFile TF enumName checker (7 + fuel)
    (Sample.sourceFile [Sample.breakAfterInnerSwitch])
  = Ok (lines
          ["-------Switch statement start-------";
           "if k==1 then";
           "    ::switchCase0::";
           "    -------Switch statement start-------";
           "    if j==2 then";
           "        ::switchCase0::";
           "        b()";
           "        goto switchDone0";
           "    end";
           "    ::switchDone0::";
           "    --------Switch statement end--------";
           "    break";
           "end";
           "::switchDone1::";
           "--------Switch statement end--------"])
       {| indent := ""; genVarCounter := 2; transpilingSwitch := false |}.
Proof.
  split; [| reflexivity].
  intros te tn expression clauses this this' out Hne Hswitch.
  apply (transpileSwitch_resets_flag te tn _ _ _ _ _ Hne) in Hswitch.
  unfold transpileBreak, bind, getTranspilingSwitch, getIndent.
  rewrite Hswitch. reflexivity.
Qed.

(** The inner switch of the sample, lowered inside the outer clause, and
    the [break] after it. *)
Lemma break_after_inner_switch_stays_break_witness :
  transpileBreak
    {| indent := "    "; genVarCounter := 1; transpilingSwitch := false |}
  = Ok ("    break" ++ nl)
       {| indent := "    "; genVarCounter := 1; transpilingSwitch := false |}.
Proof.
  eapply (proj1 (break_after_inner_switch_stays_break Sample.typeFlags
                   Sample.kindName Sample.checker 0)
            (transpileExpression Sample.typeFlags Sample.kindName
               Sample.checker 4)
            (transpileNode Sample.typeFlags Sample.kindName Sample.checker 4)
            (Sample.ident "j")
            [CaseClause (NumericLiteral "2")
               [Sample.callStatement "b"; BreakStatement None]]
            {| indent := "    "; genVarCounter := 0;
               transpilingSwitch := true |}).
  - discriminate.
  - cbv. reflexivity.
Defined.

(** C2 (the code falls short of it): a switch inside the first case clause
    of another switch starts from the same [genVarCounter], so the label
    [::switchCase0::] is emitted twice. *)
Theorem nested_switch_repeats_case_label
    (TF : TypeFlags) (enumName : SyntaxKind -> string)
    (checker : TypeChecker) (fuel : nat) :
  option_map (occurrences "::switchCase0::")
    (emitted
       (transpileSourceFile TF enumName checker (7 + fuel)
          (Sample.sourceFile [Sample.switchInCase])))
  = Some 2%nat.
Proof. reflexivity. Qed.

(** ** Imports *)

Lemma rename_guard_throws (node : Node) (elements : list Node) :
  existsb renames elements = true ->
  forall index this,
    forEachFrom
      (fun (_ : unit) element (_ : Z) =>
         match element with
         | ImportSpecifier (Some _) _ =>
             throw (TranspileError renamingError node)
         | _ => ret tt
         end) elements index tt this
    = Throw (TranspileError renamingError node).
Proof.
  induction elements as [| element rest IH]; simpl; intros Hex index this.
  - discriminate.
  - unfold bind.
    destruct element; simpl in Hex; try (simpl; apply IH; exact Hex).
    destruct propertyName; simpl in *.
    + reflexivity.
    + apply IH. exact Hex.
Qed.

(** C3 (the code falls short of it): whatever the binding [X] of a
    namespace import, the emitted text starts with the literal characters
    [{$imports.name.escapedText}] and never names [X]; a named-import
    clause with a renamed element is rejected with a [TranspileError]. *)
Theorem namespace_import_drops_binding
    (TF : TypeFlags) (enumName : SyntaxKind -> string)
    (checker : TypeChecker) (fuel : nat) (m : string)
    (this : LuaTranspiler) :
  (forall X : Node,
     transpileNode TF enumName checker (2 + fuel)
       (Sample.namespaceImport X m) this
     = Ok ("{$imports.name.escapedText} = require(" ++ (dq ++ m ++ dq)
             ++ ")") this) /\
  (forall elements : list Node,
     existsb renames elements = true ->
     transpileNode TF enumName checker (2 + fuel)
       (Sample.namedImport elements m) this
     = Throw (TranspileError renamingError (Sample.namedImport elements m))).
Proof.
  split.
  - intros X. reflexivity.
  - intros elements Hex.
    cbn -[forEach existsb]. unfold bind at 1. cbn -[forEach existsb].
    unfold bind, forEach.
    rewrite (rename_guard_throws _ _ Hex). reflexivity.
Qed.

Lemma namespace_import_drops_binding_witness :
  transpileNode Sample.typeFlags Sample.kindName Sample.checker 2
    (Sample.namedImport
       [ImportSpecifier (Some (Sample.ident "a")) (Sample.ident "b")] "m")
    newLuaTranspiler
  = Throw (TranspileError renamingError
      (Sample.namedImport
         [ImportSpecifier (Some (Sample.ident "a")) (Sample.ident "b")] "m")).
Proof.
  apply (proj2 (namespace_import_drops_binding Sample.typeFlags
                  Sample.kindName Sample.checker 0 "m" newLuaTranspiler)).
  reflexivity.
Defined.

(** ** Binary [+] *)

(** C4 (the code falls short of it): the choice between [..] and [+] reads
    the left operand only.  When the left operand is of string type or is
    a string literal the operator is [..]; when it is neither, the operator
    is [+], whatever the right operand is. *)
Theorem plus_reads_left_operand_only
    (TF : TypeFlags) (enumName : SyntaxKind -> string)
    (checker : TypeChecker) (fuel : nat) (lhs rhs : Node) (brackets : bool)
    (this this1 this2 : LuaTranspiler) (L R : string) :
  transpileExpression TF enumName checker fuel lhs true this = Ok L this1 ->
  transpileExpression TF enumName checker fuel rhs true this1 = Ok R this2 ->
  let leftIsString :=
    negb (Z.land (flags (getTypeAtLocation checker lhs))
            (TypeFlags_String TF) =? 0)
    || isStringLiteral lhs in
  let sum :=
    transpileExpression TF enumName checker (S fuel)
      (BinaryExpression lhs (Token PlusToken) rhs) brackets this in
  (leftIsString = true -> sum = Ok (L ++ ".." ++ R) this2) /\
  (leftIsString = false ->
   sum = Ok (if brackets then "(" ++ (L ++ "+" ++ R) ++ ")" else L ++ "+" ++ R)
            this2).
Proof.
  intros Hl Hr leftIsString sum. subst sum. simpl.
  unfold transpileBinaryExpression, bind.
  rewrite Hl, Hr. simpl. fold leftIsString.
  split; intros ->.
  - reflexivity.
  - destruct brackets; reflexivity.
Qed.

Lemma plus_reads_left_operand_only_witness :
  transpileExpression Sample.typeFlags Sample.kindName Sample.checker 2
    (BinaryExpression (NumericLiteral "1") (Token PlusToken)
       (StringLiteral "a")) false newLuaTranspiler
  = Ok ("1+" ++ dq ++ "a" ++ dq) newLuaTranspiler.
Proof.
  apply (plus_reads_left_operand_only Sample.typeFlags Sample.kindName
           Sample.checker 1 (NumericLiteral "1") (StringLiteral "a") false
           newLuaTranspiler newLuaTranspiler newLuaTranspiler
           "1" (dq ++ "a" ++ dq)); reflexivity.
Defined.

(** ** Return *)

(** C7 (the code falls short of it): a return statement without an
    expression does not transpile; reading [node.kind] of the absent
    expression raises a [TypeError], which is not a [TranspileError]. *)
Theorem return_without_expression_throws_TypeError
    (TF : TypeFlags) (enumName : SyntaxKind -> string)
    (checker : TypeChecker) (fuel : nat) (this : LuaTranspiler) :
  transpileNode TF enumName checker (S fuel) (ReturnStatement None) this
  = Throw TypeError.
Proof. reflexivity. Qed.

(** ** Element access *)

(** C5: an element access on an array or a tuple reads [a[i+1]], on a
    string [string.sub(a,i+1,i+1)], and on anything else [a[i]], where [a]
    and [i] are the texts of the container and of the index. *)
Theorem element_access_index_offset
    (TF : TypeFlags) (enumName : SyntaxKind -> string)
    (checker : TypeChecker) (fuel : nat) (container index : Node)
    (brackets : bool) (this this1 this2 : LuaTranspiler) (a i : string) :
  transpileExpression TF enumName checker fuel container false this
  = Ok a this1 ->
  transpileExpression TF enumName checker fuel index false this1
  = Ok i this2 ->
  let type := getTypeAtLocation checker container in
  let access :=
    transpileExpression TF enumName checker (S fuel)
      (ElementAccessExpression container (Some index)) brackets this in
  (isArrayType type || isTupleType type = true ->
   access = Ok (a ++ "[" ++ i ++ "+1]") this2) /\
  (isArrayType type || isTupleType type = false ->
   isStringType type = true ->
   access = Ok ("string.sub(" ++ a ++ "," ++ i ++ "+1," ++ i ++ "+1)") this2) /\
  (isArrayType type || isTupleType type = false ->
   isStringType type = false ->
   access = Ok (a ++ "[" ++ i ++ "]") this2).
Proof.
  intros Ha Hi type access. subst access. simpl.
  unfold transpileElementAccessExpression, bind. rewrite Ha. simpl.
  rewrite Hi. fold type.
  repeat split.
  - intros ->. reflexivity.
  - intros -> ->. reflexivity.
  - intros -> ->. reflexivity.
Qed.

(** Source [a[0]] on an array yields [a[0+1]]. *)
Lemma element_access_index_offset_witness :
  transpileExpression Sample.typeFlags Sample.kindName Sample.checker 2
    (ElementAccessExpression (Sample.ident "a") (Some (NumericLiteral "0")))
    false newLuaTranspiler
  = Ok "a[0+1]" newLuaTranspiler.
Proof.
  apply (element_access_index_offset Sample.typeFlags Sample.kindName
           Sample.checker 1 (Sample.ident "a") (NumericLiteral "0") false
           newLuaTranspiler newLuaTranspiler newLuaTranspiler "a" "0");
    reflexivity.
Defined.

(** ** Parentheses around operands *)

(** C6, as the specification states it, fails: numeric literal operands are
    not wrapped. *)
Lemma let_sum_has_no_parentheses :
  emitted
    (transpileSourceFile Sample.typeFlags Sample.kindName Sample.checker 5
       (Sample.sourceFile [Sample.letSum]))
  <> Some (lines ["local x = (1)+(2)"]).
Proof. vm_compute. discriminate. Qed.

(** C6, amended: [let x = 1 + 2;] yields exactly [local x = 1+2]; each
    operand is emitted under the brackets request, which wraps an operand
    that is itself a binary expression and leaves a literal bare, as in
    [let x = 1 + 2 * 3;]. *)
Theorem let_sum_output
    (TF : TypeFlags) (enumName : SyntaxKind -> string)
    (checker : TypeChecker) (fuel : nat) :
  Z.land (flags (getTypeAtLocation checker (NumericLiteral "1")))
    (TypeFlags_String TF) = 0 ->
  transpileSourceFile TF enumName checker (5 + fuel)
    (Sample.sourceFile [Sample.letSum])
  = Ok (lines ["local x = 1+2"]) newLuaTranspiler
  /\
  transpileSourceFile TF enumName checker (6 + fuel)
    (Sample.sourceFile [Sample.letSumOfProduct])
  = Ok (lines ["local x = 1+(2*3)"]) newLuaTranspiler.
Proof.
  intros Hflags. split; cbn; unfold bind; cbn; rewrite Hflags; reflexivity.
Qed.

Lemma let_sum_output_witness :
  transpileSourceFile Sample.typeFlags Sample.kindName Sample.checker 5
    (Sample.sourceFile [Sample.letSum])
  = Ok (lines ["local x = 1+2"]) newLuaTranspiler.
Proof.
  apply (let_sum_output Sample.typeFlags Sample.kindName Sample.checker 0).
  reflexivity.
Defined.

(** ** Enum declarations *)

Lemma string_append_assoc (a b c : string) : (a ++ b) ++ c = a ++ (b ++ c).
Proof.
  induction a as [| x a IH]; simpl; [reflexivity | rewrite IH; reflexivity].
Qed.

Lemma string_append_empty (a : string) : a ++ "" = a.
Proof. induction a as [| x a IH]; simpl; congruence. Qed.

(** C8 (the code falls short of it): the value of a member is what
    [parseInt] reads from the text of its initializer, so a numeric literal
    with a fraction loses the fraction.  From every state,
    [enum E { A = 1.5 }] emits [E.A=1], or [A=1] when the enum is
    compile-members-only, and never the initializer [1.5]. *)
Theorem fractional_enum_initializer_is_truncated
    (TF : TypeFlags) (enumName : SyntaxKind -> string)
    (checker : TypeChecker) (fuel : nat) (this : LuaTranspiler) :
  transpileNode TF enumName checker (S fuel) Sample.fractionalEnum this
  = Ok (if isCompileMembersOnlyEnum
             (getTypeAtLocation checker Sample.fractionalEnum)
        then indent this ++ "A=1" ++ nl
        else indent this ++ "E={}" ++ nl ++ indent this ++ "E.A=1" ++ nl)
       this
  /\
  emitted
    (transpileSourceFile Sample.typeFlags Sample.kindName Sample.checker 3
       (Sample.sourceFile [Sample.fractionalEnum]))
  = Some (lines ["E={}"; "E.A=1"])
  /\
  emitted
    (transpileSourceFile Sample.typeFlags Sample.kindName Sample.checker 3
       (Sample.sourceFile [Sample.fractionalEnum]))
  <> Some (lines ["E={}"; "E.A=1.5"]).
Proof.
  split; [| split; vm_compute; [reflexivity | discriminate]].
  cbn [transpileNode]. unfold transpileNodeBody.
  change (0 <? Z.of_nat (length (getChildrenOfType _ _))) with false.
  cbv iota. unfold Sample.fractionalEnum at 1. cbv iota.
  unfold transpileEnum, forEach.
  destruct (isCompileMembersOnlyEnum _);
    cbn [negb forEachFrom transpileEnumMember]; unfold bind, ret, getIndent;
    cbn [isNumericLiteral kindIs kind SyntaxKind_beq text_of str
         escapedText_of Sample.ident snd];
    change (parseInt "1.5") with (JsInt 1);
    change (jsNumberToString (JsInt 1)) with "1";
    cbv iota beta; cbn [snd]; f_equal;
    repeat first [rewrite string_append_assoc | progress cbn [append]];
    reflexivity.
Qed.

(** The counter of an enum is a double: counting on from 2^53 - 1 reaches
    2^53 and stays there. *)
Lemma enum_counter_is_a_double :
  emitted
    (transpileSourceFile Sample.typeFlags Sample.kindName Sample.checker 3
       (Sample.sourceFile [Sample.largeEnum]))
  = Some (lines ["E={}";
                 "E.A=9007199254740991";
                 "E.B=9007199254740992";
                 "E.C=9007199254740992"]).
Proof. vm_compute. reflexivity. Qed.

(** Numbers beyond 2^53: [parseInt] and [++] give the nearest double, and
    the text is the shortest that reads back as that double, with an
    exponent from 10^21 on and [Infinity] from 2^1024 - 2^970 on. *)
Lemma large_numbers_are_doubles :
  parseInt "9007199254740993" = JsInt 9007199254740992 /\
  jsIncrement (JsInt 9007199254740994) = JsInt 9007199254740996 /\
  jsNumberToString (parseInt "1152921504606846976") = "1152921504606847000" /\
  jsNumberToString (parseInt "1000000000000000000000") = "1e+21" /\
  jsNumberToString (parseInt "1180591620717411303424")
  = "1.1805916207174113e+21" /\
  jsNumberToString (parseInt "-100000000000000000000000") = "-1e+23" /\
  toNumber (2 ^ 1024 - 2 ^ 970 - 1) = JsInt ((2 ^ 53 - 1) * 2 ^ 971) /\
  toNumber (2 ^ 1024 - 2 ^ 970) = JsInfinity false.
Proof. repeat split; vm_compute; reflexivity. Qed.

(** ** Array destructuring *)

(** C9, as the specification states it, fails: the emitted text has one
    more line feed than the four lines of the specification. *)
Lemma destructuring_ends_with_blank_line :
  emitted
    (transpileSourceFile Sample.typeFlags Sample.kindName Sample.checker 3
       (Sample.sourceFile [Sample.destructuring]))
  <> Some (lines ["local __destr0 = xs";
                  "local a = __destr0[1]";
                  "local b = __destr0[2]";
                  "local rest = TS_slice(__destr0, 2)"]).
Proof. vm_compute. discriminate. Qed.

(** C9, amended: [let [a, b, ...rest] = xs;] binds a temporary named with
    the current [genVarCounter] to the initializer and increments the
    counter, binds the element at index i to [__destr<N>[i+1]] and the rest
    element at index i to [TS_slice(__destr<N>, i)]; the last line is
    followed by an empty line.  From a fresh transpiler the text is the
    five lines below. *)
Theorem array_destructuring_lines
    (TF : TypeFlags) (enumName : SyntaxKind -> string)
    (checker : TypeChecker) (fuel : nat) :
  (forall this : LuaTranspiler,
     let N := numberToString (genVarCounter this) in
     transpileNode TF enumName checker (2 + fuel) Sample.destructuring this
     = Ok (indent this ++ "local __destr" ++ N ++ " = xs" ++ nl
           ++ indent this ++ "local a = __destr" ++ N ++ "[1]" ++ nl
           ++ indent this ++ "local b = __destr" ++ N ++ "[2]" ++ nl
           ++ indent this ++ "local rest = TS_slice(__destr" ++ N ++ ", 2)"
           ++ nl ++ nl)
          {| indent := indent this;
             genVarCounter := genVarCounter this + 1;
             transpilingSwitch := transpilingSwitch this |})
  /\
  transpileSourceFile TF enumName checker (3 + fuel)
    (Sample.sourceFile [Sample.destructuring])
  = Ok (lines ["local __destr0 = xs";
               "local a = __destr0[1]";
               "local b = __destr0[2]";
               "local rest = TS_slice(__destr0, 2)";
               ""])
       {| indent := ""; genVarCounter := 1; transpilingSwitch := false |}.
Proof.
  split; [| reflexivity].
  intros this N. cbn. unfold bind, ret. cbn. f_equal. fold N.
  repeat first [rewrite string_append_assoc | progress cbn].
  reflexivity.
Qed.

(** ** Method calls *)

Lemma join_texts (sep : string) (l : list string) :
  join sep (map Some l) = String.concat sep l.
Proof. unfold join. rewrite map_map, map_id. reflexivity. Qed.

(** The loop of [transpileArguments] pushes the text of each argument. *)
Lemma arguments_loop (te : Node -> bool -> M string) (l : list Node) :
  forall index parameters this A this',
    transpileEach te l this = Ok A this' ->
    forEachFrom
      (fun parameters param (_ : Z) =>
         s <- te param false ;; ret (push parameters (Some s)))
      l index parameters this
    = Ok (parameters ++ map Some A)%list this'.
Proof.
  induction l as [| x rest IH]; simpl; intros index parameters this A this' H.
  - inversion H; subst. simpl. rewrite app_nil_r. reflexivity.
  - unfold bind in *.
    destruct (te x false this) as [s this1 | |]; try discriminate.
    destruct (transpileEach te rest this1) as [others this2 | |] eqn:Hrest;
      try discriminate.
    inversion H; subst. simpl.
    rewrite (IH _ _ _ _ _ Hrest). unfold push.
    rewrite <- app_assoc. reflexivity.
Qed.

(** C10, as stated, fails: on a receiver whose type is a
    compile-members-only enum, the call path is the bare method name and
    the receiver is emitted only as the context argument. *)
Lemma enum_receiver_is_emitted_once :
  emitted
    (transpileExpression Sample.typeFlags Sample.kindName Sample.checker 3
       Sample.enumMethodCall false newLuaTranspiler)
  = Some "toString(Color)"
  /\
  emitted
    (transpileExpression Sample.typeFlags Sample.kindName Sample.checker 3
       Sample.enumMethodCall false newLuaTranspiler)
  <> Some "Color.toString(Color)".
Proof. split; vm_compute; [reflexivity | discriminate]. Qed.

(** C10, amended: when the receiver's type is neither string nor array nor
    a compile-members-only enum, the receiver is transpiled twice, first
    for the call path and then as the context argument, and the call reads
    [R1.m(R2,args)] with [R1] and [R2] the texts of the two transpilations
    in that order. *)
Theorem method_call_transpiles_receiver_twice
    (TF : TypeFlags) (enumName : SyntaxKind -> string)
    (checker : TypeChecker) (fuel : nat) (receiver : Node)
    (m escaped : string) (arguments : list Node) (brackets : bool)
    (this this1 this2 this3 : LuaTranspiler) (R1 R2 : string)
    (A : list string) :
  let type := getTypeAtLocation checker receiver in
  flags type <> TypeFlags_String TF ->
  flags type <> TypeFlags_StringLiteral TF ->
  (flags type = TypeFlags_Object TF -> isArrayType type = false) ->
  isCompileMembersOnlyEnum type = false ->
  transpileExpression TF enumName checker fuel receiver false this
  = Ok R1 this1 ->
  transpileExpression TF enumName checker fuel receiver false this1
  = Ok R2 this2 ->
  transpileEach (transpileExpression TF enumName checker fuel) arguments
    this2 = Ok A this3 ->
  transpileExpression TF enumName checker (S (S fuel))
    (CallExpression
       (PropertyAccessExpression receiver (Identifier m escaped)) arguments)
    brackets this
  = Ok ((R1 ++ "." ++ m) ++ "(" ++ String.concat "," (R2 :: A) ++ ")") this3.
Proof.
  intros type Hstring Hliteral Harray Henum H1 H2 Hargs.
  assert (Hs : flagsAre TF type TypeFlags_String = false)
    by (apply Z.eqb_neq; exact Hstring).
  assert (Hl : flagsAre TF type TypeFlags_StringLiteral = false)
    by (apply Z.eqb_neq; exact Hliteral).
  assert (Ho : flagsAre TF type TypeFlags_Object && isArrayType type = false).
  { unfold flagsAre. destruct (Z.eqb_spec (flags type) (TypeFlags_Object TF)).
    - rewrite (Harray e). reflexivity.
    - reflexivity. }
  apply transpileExpression_more_fuel with (fuel' := S fuel) in H2;
    [| lia].
  apply transpileEach_more_fuel with (fuel' := S fuel) in Hargs; [| lia].
  change (transpileCallExpression TF checker
            (transpileExpression TF enumName checker (S fuel))
            (CallExpression
               (PropertyAccessExpression receiver (Identifier m escaped))
               arguments)
            (PropertyAccessExpression receiver (Identifier m escaped))
            arguments this
          = Ok ((R1 ++ "." ++ m) ++ "(" ++ String.concat "," (R2 :: A) ++ ")")
               this3).
  unfold transpileCallExpression. simpl isPropertyAccessExpression. cbv iota.
  fold type. rewrite Hs, Hl. simpl orb. cbv iota.
  assert (Hpath :
    transpileExpression TF enumName checker (S fuel)
      (PropertyAccessExpression receiver (Identifier m escaped)) false this
    = Ok (R1 ++ "." ++ m) this1).
  { simpl. unfold transpilePropertyAccessExpression. fold type.
    rewrite Hs, Hl, Henum. simpl orb. cbv iota.
    destruct (flagsAre TF type TypeFlags_Object);
      [destruct (isArrayType type); [discriminate Ho |] |];
      simpl; unfold bind; rewrite H1; reflexivity. }
  assert (Hcall :
    bind
      (transpileExpression TF enumName checker (S fuel)
         (PropertyAccessExpression receiver (Identifier m escaped)) false)
      (fun callPath =>
         bind
           (transpileArguments
              (transpileExpression TF enumName checker (S fuel))
              (Some arguments) (Some receiver))
           (fun params => ret (callPath ++ "(" ++ params ++ ")"))) this
    = Ok ((R1 ++ "." ++ m) ++ "(" ++ String.concat "," (R2 :: A) ++ ")")
         this3).
  { unfold bind at 1. rewrite Hpath.
    unfold bind at 1. unfold transpileArguments.
    unfold bind at 1. unfold bind at 1. rewrite H2.
    unfold ret at 1. unfold bind at 1. simpl defined. unfold ret at 1.
    unfold bind at 1. unfold forEach.
    rewrite (arguments_loop _ _ _ _ _ _ _ Hargs).
    unfold ret, push. simpl app.
    change (Some R2 :: map Some A) with (map Some (R2 :: A)).
    rewrite join_texts. reflexivity. }
  destruct (flagsAre TF type TypeFlags_Object);
    [destruct (isArrayType type); [discriminate Ho |] |]; exact Hcall.
Qed.

Lemma method_call_transpiles_receiver_twice_witness :
  transpileExpression Sample.typeFlags Sample.kindName Sample.checker 3
    Sample.objectMethodCall false newLuaTranspiler
  = Ok "o.m(o,1,y)" newLuaTranspiler.
Proof.
  apply (method_call_transpiles_receiver_twice Sample.typeFlags
           Sample.kindName Sample.checker 1 (Sample.ident "o") "m" "m"
           [NumericLiteral "1"; Sample.ident "y"] false
           newLuaTranspiler newLuaTranspiler newLuaTranspiler
           newLuaTranspiler "o" "o" ["1"; "y"]);
    try reflexivity; try discriminate.
Defined.

(** * Further properties of the transpiler *)

(** ** Indentation is balanced *)

Lemma blank_push (n : nat) : blank n ++ "    " = blank (n + 4).
Proof. induction n as [| n IH]; simpl; [reflexivity | rewrite IH; reflexivity]. Qed.

Lemma substring_all (s : string) : substring 0 (String.length s) s = s.
Proof. induction s as [| c s IH]; simpl; [reflexivity | rewrite IH; reflexivity]. Qed.

Lemma slice_blank (n : nat) : slice 4 (blank (n + 4)) = blank n.
Proof.
  rewrite Nat.add_comm. unfold slice. simpl. rewrite Nat.sub_0_r.
  apply substring_all.
Qed.

Lemma reindents_ret {A} n (a : A) : reindents n (ret a) n.
Proof. intros this b this' Hi H. inversion H; subst. exact Hi. Qed.

Lemma reindents_throw {A} n n' e : reindents n (@throw A e) n'.
Proof. intros this b this' _ H. discriminate H. Qed.

Lemma reindents_outOfFuel {A} n n' : reindents n (@outOfFuel A) n'.
Proof. intros this b this' _ H. discriminate H. Qed.

Lemma reindents_bind {A B} n n1 n2 (m : M A) (k : A -> M B) :
  reindents n m n1 -> (forall a, reindents n1 (k a) n2) ->
  reindents n (bind m k) n2.
Proof.
  intros Hm Hk this b this' Hi H. unfold bind in H.
  destruct (m this) as [a this1 | |] eqn:E; try discriminate.
  eapply Hk; [eapply Hm; eassumption | eassumption].
Qed.

Lemma reindents_forEachFrom {A B} n (f : B -> A -> Z -> M B) (l : list A) :
  (forall acc x i, reindents n (f acc x i) n) ->
  forall index acc, reindents n (forEachFrom f l index acc) n.
Proof.
  intros Hf. induction l as [| x rest IH]; intros index acc; simpl.
  - apply reindents_ret.
  - eapply reindents_bind; [apply Hf | intros acc'; apply IH].
Qed.

Lemma reindents_forEach {A B} n (f : B -> A -> Z -> M B) (l : list A) acc :
  (forall acc x i, reindents n (f acc x i) n) ->
  reindents n (forEach f l acc) n.
Proof. intros Hf. apply reindents_forEachFrom, Hf. Qed.

Lemma reindents_getIndent n : reindents n getIndent n.
Proof. intros this a this' Hi H. inversion H; subst. exact Hi. Qed.

Lemma reindents_getGenVarCounter n : reindents n getGenVarCounter n.
Proof. intros this a this' Hi H. inversion H; subst. exact Hi. Qed.

Lemma reindents_getTranspilingSwitch n : reindents n getTranspilingSwitch n.
Proof. intros this a this' Hi H. inversion H; subst. exact Hi. Qed.

Lemma reindents_setGenVarCounter n c : reindents n (setGenVarCounter c) n.
Proof. intros this a this' Hi H. inversion H; subst. exact Hi. Qed.

Lemma reindents_setTranspilingSwitch n b :
  reindents n (setTranspilingSwitch b) n.
Proof. intros this a this' Hi H. inversion H; subst. exact Hi. Qed.

Lemma reindents_pushIndent n : reindents n pushIndent (n + 4).
Proof.
  intros this a this' Hi H. inversion H; subst. simpl.
  rewrite Hi. apply blank_push.
Qed.

Lemma reindents_popIndent n : reindents (n + 4) popIndent n.
Proof.
  intros this a this' Hi H. inversion H; subst. simpl.
  rewrite Hi. apply slice_blank.
Qed.

(** One step of an indentation proof: peel a bind or a loop, split on a
    scrutinee, or close with a fact about a field access or about the
    dispatchers.  The indentation between two steps is found by
    unification. *)
Ltac reindent_step :=
  match goal with
  | |- reindents _ (ret _) _ => apply reindents_ret
  | |- reindents _ (throw _) _ => apply reindents_throw
  | |- reindents _ getIndent _ => apply reindents_getIndent
  | |- reindents _ getGenVarCounter _ => apply reindents_getGenVarCounter
  | |- reindents _ getTranspilingSwitch _ =>
      apply reindents_getTranspilingSwitch
  | |- reindents _ (setGenVarCounter _) _ => apply reindents_setGenVarCounter
  | |- reindents _ (setTranspilingSwitch _) _ =>
      apply reindents_setTranspilingSwitch
  | |- reindents _ pushIndent _ => apply reindents_pushIndent
  | |- reindents _ popIndent _ => apply reindents_popIndent
  | H : forall node brackets n, reindents n (?f node brackets) n
    |- reindents _ (?f _ _) _ => apply H
  | H : forall node n, reindents n (?f node) n
    |- reindents _ (?f _) _ => apply H
  | |- reindents _ (bind _ _) _ => eapply reindents_bind; [| intros]
  | |- reindents _ (forEach _ _ _) _ => apply reindents_forEach; intros
  | |- reindents _ (match ?x with _ => _ end) _ => destruct x
  | |- reindents _ (if ?x then _ else _) _ => destruct x
  | |- reindents _ (let (_, _) := ?x in _) _ => destruct x
  end.

Ltac reindent := intros; repeat reindent_step.

Section Indentation.

Variable TF : TypeFlags.
Variable enumName : SyntaxKind -> string.
Variable checker : TypeChecker.
Variable te : Node -> bool -> M string.
Variable tn : Node -> M string.
Hypothesis Hte : forall node brackets n, reindents n (te node brackets) n.
Hypothesis Htn : forall node n, reindents n (tn node) n.

(** Every expression emitter restores the indentation when the two
    dispatchers do. *)
Lemma transpileExpressionBody_reindents (node : Node) (brackets : bool) n :
  reindents n (transpileExpressionBody TF enumName checker te tn node brackets)
    n.
Proof.
  unfold transpileExpressionBody.
  destruct node;
    unfold transpileBinaryExpression, transpileConditionalExpression,
      transpileCallExpression, transpileStringCallExpression,
      transpileArrayCallExpression, transpilePropertyAccessExpression,
      transpileStringProperty, transpileArrayProperty,
      transpileElementAccessExpression, transpileTemplateExpression,
      transpilePostfixUnaryExpression, transpilePrefixUnaryExpression,
      transpileArrayLiteral, transpileObjectLiteral, transpileArrowFunction,
      transpileNewExpression, transpileArguments, transpileBlock,
      collectParameterNames, parameterName, defined;
    reindent.
Qed.

(** Every statement emitter restores the indentation when the two
    dispatchers do. *)
Lemma transpileNodeBody_reindents (node : Node) n :
  reindents n (transpileNodeBody enumName checker te tn node) n.
Proof.
  unfold transpileNodeBody.
  destruct (0 <? _); [apply reindents_ret |].
  destruct node;
    unfold transpileImport, transpileClass, transpileConstructor,
      transpileMethodDeclaration, transpileFunctionDeclaration,
      transpileVariableStatement, transpileVariableDeclaration,
      transpileEnum, transpileEnumMember, transpileBreak,
      transpileReturn, transpileIf, transpileWhile, transpileFor,
      GetForEnd, GetForStep, transpileForOf, transpileForIn,
      transpileSwitch, transpileClause, transpileStatement, transpileBlock,
      collectParameterNames, parameterName, firstDeclaration, baseNameOf,
      defined;
    reindent.
Qed.

End Indentation.

Lemma fuel_reindents (TF : TypeFlags) (enumName : SyntaxKind -> string)
    (checker : TypeChecker) (fuel : nat) :
  (forall node brackets n,
     reindents n (transpileExpression TF enumName checker fuel node brackets)
       n) /\
  (forall node n, reindents n (transpileNode TF enumName checker fuel node) n).
Proof.
  induction fuel as [| fuel [IHe IHn]].
  - split; intros; apply reindents_outOfFuel.
  - split; intros; simpl.
    + apply transpileExpressionBody_reindents; assumption.
    + apply transpileNodeBody_reindents; assumption.
Qed.

(** X1: a statement or an expression that is transpiled at an indentation of
    [n] spaces and returns leaves the indentation at [n] spaces: every
    [pushIndent] on the way has been undone by its [popIndent]. *)
Theorem indentation_is_restored (TF : TypeFlags)
    (enumName : SyntaxKind -> string) (checker : TypeChecker) (fuel : nat)
    (n : nat) (this this' : LuaTranspiler) (out : string) :
  indent this = blank n ->
  (forall node,
     transpileNode TF enumName checker fuel node this = Ok out this' ->
     indent this' = blank n) /\
  (forall node brackets,
     transpileExpression TF enumName checker fuel node brackets this
     = Ok out this' ->
     indent this' = blank n).
Proof.
  intros Hi. destruct (fuel_reindents TF enumName checker fuel) as [He Hn].
  split; intros.
  - eapply Hn; eassumption.
  - eapply He; eassumption.
Qed.

Lemma indentation_is_restored_witness :
  indent (withIndent "    " newLuaTranspiler) = blank 4.
Proof.
  apply (proj1 (indentation_is_restored Sample.typeFlags Sample.kindName
                  Sample.checker 4 4 (withIndent "    " newLuaTranspiler)
                  (withIndent "    " newLuaTranspiler)
                  (lines ["    while c do"; "        f()"; "    end"])
                  eq_refl)
           (WhileStatement (Sample.ident "c")
              (Block [Sample.callStatement "f"]))).
  reflexivity.
Defined.

(** ** Relations the fields keep *)

Section Respects.

Variable R : LuaTranspiler -> LuaTranspiler -> Prop.
Hypothesis R_refl : forall this, R this this.
Hypothesis R_trans :
  forall this1 this2 this3, R this1 this2 -> R this2 this3 -> R this1 this3.

Lemma respects_ret {A} (a : A) : respects R (ret a).
Proof. intros this b this' H. inversion H; subst. apply R_refl. Qed.

Lemma respects_throw {A} e : respects R (@throw A e).
Proof. intros this b this' H. discriminate H. Qed.

Lemma respects_outOfFuel {A} : respects R (@outOfFuel A).
Proof. intros this b this' H. discriminate H. Qed.

Lemma respects_bind {A B} (m : M A) (k : A -> M B) :
  respects R m -> (forall a, respects R (k a)) -> respects R (bind m k).
Proof.
  intros Hm Hk this b this' H. unfold bind in H.
  destruct (m this) as [a this1 | |] eqn:E; try discriminate.
  eapply R_trans; [eapply Hm; eassumption | eapply Hk; eassumption].
Qed.

Lemma respects_forEachFrom {A B} (f : B -> A -> Z -> M B) (l : list A) :
  (forall acc x i, respects R (f acc x i)) ->
  forall index acc, respects R (forEachFrom f l index acc).
Proof.
  intros Hf. induction l as [| x rest IH]; intros index acc; simpl.
  - apply respects_ret.
  - apply respects_bind; [apply Hf | intros acc'; apply IH].
Qed.

Lemma respects_forEach {A B} (f : B -> A -> Z -> M B) (l : list A) acc :
  (forall acc x i, respects R (f acc x i)) -> respects R (forEach f l acc).
Proof. intros Hf. apply respects_forEachFrom, Hf. Qed.

Lemma respects_getIndent : respects R getIndent.
Proof. intros this a this' H. inversion H; subst. apply R_refl. Qed.

Lemma respects_getGenVarCounter : respects R getGenVarCounter.
Proof. intros this a this' H. inversion H; subst. apply R_refl. Qed.

Lemma respects_getTranspilingSwitch : respects R getTranspilingSwitch.
Proof. intros this a this' H. inversion H; subst. apply R_refl. Qed.

Lemma respects_pushIndent : indentFree R -> respects R pushIndent.
Proof. intros HR this a this' H. inversion H; subst. apply HR. Qed.

Lemma respects_popIndent : indentFree R -> respects R popIndent.
Proof. intros HR this a this' H. inversion H; subst. apply HR. Qed.

Lemma respects_setTranspilingSwitch b :
  flagFree R -> respects R (setTranspilingSwitch b).
Proof. intros HR this a this' H. inversion H; subst. apply HR. Qed.

(** [this.genVarCounter += d] and what follows it. *)
Lemma respects_advance {B} (d : Z) (k : Z -> M B) :
  counterUp R -> 0 <= d -> (forall n, respects R (k n)) ->
  respects R (n <- getGenVarCounter ;; setGenVarCounter (n + d) ;;; k n).
Proof.
  intros HR Hd Hk this b this' H. unfold bind in H. simpl in H.
  eapply R_trans; [apply (HR this d Hd) | eapply Hk; eassumption].
Qed.

End Respects.

(** One step of a proof that a method respects a relation. *)
Ltac respect_step :=
  match goal with
  | |- respects _ (ret _) => apply respects_ret; assumption
  | |- respects _ (throw _) => apply respects_throw
  | |- respects _ getIndent => apply respects_getIndent; assumption
  | |- respects _ getTranspilingSwitch =>
      apply respects_getTranspilingSwitch; assumption
  | |- respects _ pushIndent => apply respects_pushIndent; assumption
  | |- respects _ popIndent => apply respects_popIndent; assumption
  | |- respects _ (setTranspilingSwitch _) =>
      apply respects_setTranspilingSwitch; assumption
  | H : forall e len r c i, respects _ (transpileClause ?te ?tn e len r c i)
    |- respects _ (transpileClause ?te ?tn _ _ _ _ _) => apply H
  | H : forall node brackets, respects _ (?f node brackets)
    |- respects _ (?f _ _) => apply H
  | H : forall node, respects _ (?f node) |- respects _ (?f _) => apply H
  | |- respects _ (bind getGenVarCounter
                     (fun n => bind (setGenVarCounter (n + ?d)) _)) =>
      apply respects_advance; [assumption | assumption | lia | intros]
  | |- respects _ getGenVarCounter =>
      apply respects_getGenVarCounter; assumption
  | |- respects _ (bind _ _) =>
      apply respects_bind; [assumption | | intros]
  | |- respects _ (forEach _ _ _) =>
      apply respects_forEach; [assumption | assumption | intros]
  | |- respects _ (match ?x with _ => _ end) => destruct x
  | |- respects _ (if ?x then _ else _) => destruct x
  | |- respects _ (let (_, _) := ?x in _) => destruct x
  end.

Ltac respect := intros; repeat respect_step.

Section Invariant.

Variable R : LuaTranspiler -> LuaTranspiler -> Prop.
Hypothesis R_refl : forall this, R this this.
Hypothesis R_trans :
  forall this1 this2 this3, R this1 this2 -> R this2 this3 -> R this1 this3.
Hypothesis R_indent : indentFree R.
Hypothesis R_counter : counterUp R.

Variable TF : TypeFlags.
Variable enumName : SyntaxKind -> string.
Variable checker : TypeChecker.

Section Bodies.

Variable te : Node -> bool -> M string.
Variable tn : Node -> M string.
Hypothesis Hte : forall node brackets, respects R (te node brackets).
Hypothesis Htn : forall node, respects R (tn node).
Hypothesis Hclause :
  forall e len r c i, respects R (transpileClause te tn e len r c i).

(** Every expression emitter respects [R] when the two dispatchers do. *)
Lemma transpileExpressionBody_respects (node : Node) (brackets : bool) :
  respects R (transpileExpressionBody TF enumName checker te tn node brackets).
Proof.
  unfold transpileExpressionBody.
  destruct node;
    unfold transpileBinaryExpression, transpileConditionalExpression,
      transpileCallExpression, transpileStringCallExpression,
      transpileArrayCallExpression, transpilePropertyAccessExpression,
      transpileStringProperty, transpileArrayProperty,
      transpileElementAccessExpression, transpileTemplateExpression,
      transpilePostfixUnaryExpression, transpilePrefixUnaryExpression,
      transpileArrayLiteral, transpileObjectLiteral, transpileArrowFunction,
      transpileNewExpression, transpileArguments, transpileBlock,
      collectParameterNames, parameterName, defined;
    respect.
Qed.

(** Every statement emitter respects [R] when the two dispatchers and the
    lowering of a clause do. *)
Lemma transpileNodeBody_respects (node : Node) :
  respects R (transpileNodeBody enumName checker te tn node).
Proof.
  unfold transpileNodeBody.
  destruct (0 <? _); [apply respects_ret; assumption |].
  destruct node;
    unfold transpileImport, transpileClass, transpileConstructor,
      transpileMethodDeclaration, transpileFunctionDeclaration,
      transpileVariableStatement, transpileVariableDeclaration,
      transpileEnum, transpileEnumMember, transpileBreak,
      transpileReturn, transpileIf, transpileWhile, transpileFor,
      GetForEnd, GetForStep, transpileForOf, transpileForIn,
      transpileSwitch, transpileStatement, transpileBlock,
      collectParameterNames, parameterName, firstDeclaration, baseNameOf,
      defined;
    respect.
Qed.

End Bodies.

Hypothesis R_clause :
  forall (te : Node -> bool -> M string) (tn : Node -> M string),
    (forall node brackets, respects R (te node brackets)) ->
    (forall node, respects R (tn node)) ->
    forall e len r c i, respects R (transpileClause te tn e len r c i).

Lemma fuel_respects (fuel : nat) :
  (forall node brackets,
     respects R (transpileExpression TF enumName checker fuel node brackets))
  /\
  (forall node, respects R (transpileNode TF enumName checker fuel node)).
Proof.
  induction fuel as [| fuel [IHe IHn]].
  - split; intros; apply respects_outOfFuel.
  - split; intros; simpl.
    + apply transpileExpressionBody_respects; assumption.
    + apply transpileNodeBody_respects; try assumption.
      apply R_clause; assumption.
Qed.

End Invariant.

Lemma counterGrows_refl this : counterGrows this this.
Proof. unfold counterGrows. lia. Qed.

Lemma counterGrows_trans this1 this2 this3 :
  counterGrows this1 this2 -> counterGrows this2 this3 ->
  counterGrows this1 this3.
Proof. unfold counterGrows. lia. Qed.

Lemma counterGrows_indentFree : indentFree counterGrows.
Proof. intros this i. unfold counterGrows. simpl. lia. Qed.

Lemma counterGrows_flagFree : flagFree counterGrows.
Proof. intros this b. unfold counterGrows. simpl. lia. Qed.

Lemma counterGrows_counterUp : counterUp counterGrows.
Proof. intros this d Hd. unfold counterGrows. simpl. lia. Qed.

Lemma counterGrows_clause (te : Node -> bool -> M string)
    (tn : Node -> M string) :
  (forall node brackets, respects counterGrows (te node brackets)) ->
  (forall node, respects counterGrows (tn node)) ->
  forall e len r c i,
    respects counterGrows (transpileClause te tn e len r c i).
Proof.
  intros Hte Htn e len r c i.
  pose proof counterGrows_refl as R_refl.
  pose proof counterGrows_trans as R_trans.
  pose proof counterGrows_indentFree as R_indent.
  pose proof counterGrows_flagFree as R_flag.
  unfold transpileClause. respect.
Qed.

Lemma flagStaysOff_refl this : flagStaysOff this this.
Proof. intros H. exact H. Qed.

Lemma flagStaysOff_trans this1 this2 this3 :
  flagStaysOff this1 this2 -> flagStaysOff this2 this3 ->
  flagStaysOff this1 this3.
Proof. unfold flagStaysOff. auto. Qed.

Lemma flagStaysOff_indentFree : indentFree flagStaysOff.
Proof. intros this i H. exact H. Qed.

Lemma flagStaysOff_counterUp : counterUp flagStaysOff.
Proof. intros this d _ H. exact H. Qed.

Lemma flagStaysOff_clause (te : Node -> bool -> M string)
    (tn : Node -> M string) e len r c i :
  respects flagStaysOff (transpileClause te tn e len r c i).
Proof.
  intros this out this' H _.
  eapply transpileClause_resets_flag; eassumption.
Qed.

Lemma fuel_counterGrows (TF : TypeFlags) (enumName : SyntaxKind -> string)
    (checker : TypeChecker) (fuel : nat) :
  (forall node brackets,
     respects counterGrows
       (transpileExpression TF enumName checker fuel node brackets)) /\
  (forall node,
     respects counterGrows (transpileNode TF enumName checker fuel node)).
Proof.
  apply fuel_respects.
  - apply counterGrows_refl.
  - apply counterGrows_trans.
  - apply counterGrows_indentFree.
  - apply counterGrows_counterUp.
  - apply counterGrows_clause.
Qed.

Lemma fuel_flagStaysOff (TF : TypeFlags) (enumName : SyntaxKind -> string)
    (checker : TypeChecker) (fuel : nat) :
  (forall node brackets,
     respects flagStaysOff
       (transpileExpression TF enumName checker fuel node brackets)) /\
  (forall node,
     respects flagStaysOff (transpileNode TF enumName checker fuel node)).
Proof.
  apply fuel_respects.
  - apply flagStaysOff_refl.
  - apply flagStaysOff_trans.
  - apply flagStaysOff_indentFree.
  - apply flagStaysOff_counterUp.
  - intros. apply flagStaysOff_clause.
Qed.

(** X2: [genVarCounter] never decreases across the transpilation of a
    statement or of an expression. *)
Theorem genVarCounter_never_decreases (TF : TypeFlags)
    (enumName : SyntaxKind -> string) (checker : TypeChecker) (fuel : nat)
    (this this' : LuaTranspiler) (out : string) :
  (forall node,
     transpileNode TF enumName checker fuel node this = Ok out this' ->
     genVarCounter this <= genVarCounter this') /\
  (forall node brackets,
     transpileExpression TF enumName checker fuel node brackets this
     = Ok out this' ->
     genVarCounter this <= genVarCounter this').
Proof.
  destruct (fuel_counterGrows TF enumName checker fuel) as [He Hn].
  split; intros.
  - eapply Hn; eassumption.
  - eapply He; eassumption.
Qed.

Lemma genVarCounter_never_decreases_witness :
  genVarCounter newLuaTranspiler
  <= genVarCounter
       {| indent := ""; genVarCounter := 1; transpilingSwitch := false |}.
Proof.
  apply (proj1 (genVarCounter_never_decreases Sample.typeFlags
                  Sample.kindName Sample.checker 2 newLuaTranspiler
                  {| indent := ""; genVarCounter := 1;
                     transpilingSwitch := false |}
                  (lines ["local __destr0 = xs";
                          "local a = __destr0[1]";
                          "local b = __destr0[2]";
                          "local rest = TS_slice(__destr0, 2)";
                          ""]))
           Sample.destructuring).
  reflexivity.
Defined.

(** X3: a statement or an expression that is transpiled with
    [transpilingSwitch] false and returns leaves it false, so the flag is
    never left on behind a switch statement. *)
Theorem transpilingSwitch_stays_off (TF : TypeFlags)
    (enumName : SyntaxKind -> string) (checker : TypeChecker) (fuel : nat)
    (this this' : LuaTranspiler) (out : string) :
  transpilingSwitch this = false ->
  (forall node,
     transpileNode TF enumName checker fuel node this = Ok out this' ->
     transpilingSwitch this' = false) /\
  (forall node brackets,
     transpileExpression TF enumName checker fuel node brackets this
     = Ok out this' ->
     transpilingSwitch this' = false).
Proof.
  intros Hoff.
  destruct (fuel_flagStaysOff TF enumName checker fuel) as [He Hn].
  split; intros.
  - eapply Hn; eassumption.
  - eapply He; eassumption.
Qed.

Lemma transpilingSwitch_stays_off_witness :
  transpilingSwitch
    {| indent := ""; genVarCounter := 1; transpilingSwitch := false |}
  = false.
Proof.
  apply (proj1 (transpilingSwitch_stays_off Sample.typeFlags Sample.kindName
                  Sample.checker 5 newLuaTranspiler
                  {| indent := ""; genVarCounter := 1;
                     transpilingSwitch := false |}
                  (lines ["-------Switch statement start-------";
                          "if j==2 then";
                          "    ::switchCase0::";
                          "    b()";
                          "    goto switchDone0";
                          "end";
                          "::switchDone0::";
                          "--------Switch statement end--------"])
                  eq_refl)
           (SwitchStatement (Sample.ident "j")
              (CaseBlock
                 [CaseClause (NumericLiteral "2")
                    [Sample.callStatement "b"; BreakStatement None]]))).
  reflexivity.
Defined.

(** X4: a switch statement that is lowered advances [genVarCounter] by at
    least the number of its clauses. *)
Theorem switch_advances_counter_by_clause_count (TF : TypeFlags)
    (enumName : SyntaxKind -> string) (checker : TypeChecker) (fuel : nat)
    (expression : Node) (clauses : list Node)
    (this this' : LuaTranspiler) (out : string) :
  transpileSwitch (transpileExpression TF enumName checker fuel)
    (transpileNode TF enumName checker fuel) expression (CaseBlock clauses)
    this = Ok out this' ->
  genVarCounter this + Z.of_nat (length clauses) <= genVarCounter this'.
Proof.
  destruct (fuel_counterGrows TF enumName checker fuel) as [He Hn].
  unfold transpileSwitch.
  unfold bind at 1.
  destruct (transpileExpression TF enumName checker fuel expression true this)
    as [e this0 | |] eqn:Hexp; try discriminate.
  apply He in Hexp.
  unfold bind at 1. unfold ret at 1.
  unfold bind at 1. unfold getIndent at 1.
  unfold bind at 1.
  destruct (forEach _ clauses _ this0) as [r this1 | |] eqn:Hloop;
    try discriminate.
  apply (respects_forEach counterGrows counterGrows_refl counterGrows_trans)
    in Hloop;
    [| intros; apply counterGrows_clause; assumption].
  unfold bind, getIndent, getGenVarCounter, setGenVarCounter, ret.
  intros H. inversion H; subst. simpl.
  unfold counterGrows in *. lia.
Qed.

Lemma switch_advances_counter_by_clause_count_witness :
  genVarCounter newLuaTranspiler
  + Z.of_nat
      (length
         [CaseClause (NumericLiteral "2")
            [Sample.callStatement "b"; BreakStatement None];
          DefaultClause [Sample.callStatement "c"]])
  <= genVarCounter
       {| indent := ""; genVarCounter := 2; transpilingSwitch := false |}.
Proof.
  apply (switch_advances_counter_by_clause_count Sample.typeFlags
           Sample.kindName Sample.checker 4 (Sample.ident "j")
           [CaseClause (NumericLiteral "2")
              [Sample.callStatement "b"; BreakStatement None];
            DefaultClause [Sample.callStatement "c"]]
           newLuaTranspiler
           {| indent := ""; genVarCounter := 2; transpilingSwitch := false |}
           (lines ["-------Switch statement start-------";
                   "if j==2 then";
                   "    ::switchCase0::";
                   "    b()";
                   "    goto switchDone0";
                   "    goto switchCase1";
                   "else";
                   "    ::switchCase1::";
                   "    c()";
                   "end";
                   "::switchDone0::";
                   "--------Switch statement end--------"])).
  reflexivity.
Defined.

(** ** Blocks and variable statements *)

Lemma appendNode_run (tn : Node -> M string) result child index this :
  appendNode tn result child index this
  = match tn child this with
    | Ok s this' => Ok (result ++ s) this'
    | Throw e => Throw e
    | OutOfFuel => OutOfFuel
    end.
Proof. reflexivity. Qed.

(** The loop of [transpileBlock] appends to what it is given. *)
Lemma block_loop (tn : Node -> M string) (l : list Node) :
  forall index acc this,
    forEachFrom (appendNode tn) l index acc this
    = match forEachFrom (appendNode tn) l 0 "" this with
      | Ok r this' => Ok (acc ++ r) this'
      | Throw e => Throw e
      | OutOfFuel => OutOfFuel
      end.
Proof.
  induction l as [| x rest IH]; intros index acc this; simpl.
  - unfold ret. rewrite string_append_empty. reflexivity.
  - unfold bind. rewrite !appendNode_run.
    destruct (tn x this) as [s this1 | |]; try reflexivity.
    rewrite (IH (index + 1) (acc ++ s) this1).
    rewrite (IH 1 ("" ++ s) this1).
    destruct (forEachFrom _ rest 0 "" this1); try reflexivity.
    simpl. rewrite string_append_assoc. reflexivity.
Qed.

Lemma block_loop_app (tn : Node -> M string) (l1 l2 : list Node) :
  forall index acc this,
    forEachFrom (appendNode tn) (l1 ++ l2) index acc this
    = match forEachFrom (appendNode tn) l1 index acc this with
      | Ok r this' => forEachFrom (appendNode tn) l2 0 r this'
      | Throw e => Throw e
      | OutOfFuel => OutOfFuel
      end.
Proof.
  induction l1 as [| x rest IH]; intros index acc this; simpl.
  - unfold ret. rewrite (block_loop tn l2 index acc).
    rewrite (block_loop tn l2 0 acc). reflexivity.
  - unfold bind. rewrite !appendNode_run.
    destruct (tn x this) as [s this1 | |]; try reflexivity.
    apply IH.
Qed.

(** X5: [transpileBlock] on the statements [first ++ second] is
    [transpileBlock] on [first], then on [second] from the fields the first
    run leaves, with the two texts concatenated; a run of [first] that
    throws is the outcome and [second] is not transpiled. *)
Theorem block_of_concatenation (tn : Node -> M string)
    (first second : list Node) (this : LuaTranspiler) :
  transpileBlock tn (Block (first ++ second)) this
  = (a <- transpileBlock tn (Block first) ;;
     b <- transpileBlock tn (Block second) ;;
     ret (a ++ b)) this.
Proof.
  change (forEachFrom (appendNode tn) (first ++ second) 0 "" this
          = bind (forEachFrom (appendNode tn) first 0 "")
              (fun a => bind (forEachFrom (appendNode tn) second 0 "")
                          (fun b => ret (a ++ b))) this).
  rewrite block_loop_app. unfold bind.
  destruct (forEachFrom _ first 0 "" this) as [a this1 | |]; try reflexivity.
  rewrite block_loop.
  destruct (forEachFrom _ second 0 "" this1); reflexivity.
Qed.

Section Declarators.

Variable enumName : SyntaxKind -> string.
Variable te : Node -> bool -> M string.

Lemma declarators_loop (declarators : list (Node * Node)) :
  forallb (fun d => isIdentifier (fst d)) declarators = true ->
  forall index acc this values this',
    transpileEach te (map snd declarators) this = Ok values this' ->
    forEachFrom
      (fun result declaration (_ : Z) =>
         match declaration with
         | VariableDeclaration name initializer =>
             s <- transpileVariableDeclaration enumName te declaration name
                    initializer ;;
             ret (result ++ s)
         | _ => throw TypeError
         end) (map declarator declarators) index acc this
    = Ok (acc ++ declaratorTexts declarators values) this'.
Proof.
  induction declarators as [| [name init] rest IH]; simpl;
    intros Hid index acc this values this' H.
  - inversion H; subst. rewrite string_append_empty. reflexivity.
  - apply andb_prop in Hid. destruct Hid as [Hname Hrest].
    unfold bind in H.
    destruct (te init false this) as [v this1 | |] eqn:Hv; try discriminate.
    destruct (transpileEach te (map snd rest) this1) as [vs this2 | |] eqn:Hvs;
      try discriminate.
    inversion H; subst.
    unfold bind at 1. unfold bind at 1.
    unfold transpileVariableDeclaration. rewrite Hname.
    unfold bind at 1. rewrite Hv. unfold ret at 1 2.
    rewrite (IH Hrest _ _ _ _ _ Hvs).
    rewrite string_append_assoc. reflexivity.
Qed.

End Declarators.

(** X6: the declarators of one variable statement are emitted one directly
    after the other, with no separator between them, on one line that
    starts with the indentation and ends with a line feed; so
    [let a = 1, b = 2;] gives [local a = 1local b = 2]. *)
Theorem declarators_are_emitted_back_to_back (TF : TypeFlags)
    (enumName : SyntaxKind -> string) (checker : TypeChecker) (fuel : nat)
    (declarators : list (Node * Node)) (this this' : LuaTranspiler)
    (values : list string) :
  forallb (fun d => isIdentifier (fst d)) declarators = true ->
  transpileEach (transpileExpression TF enumName checker fuel)
    (map snd declarators) this = Ok values this' ->
  transpileNode TF enumName checker (S fuel)
    (VariableStatement []
       (VariableDeclarationList (map declarator declarators))) this
  = Ok (indent this ++ declaratorTexts declarators values ++ nl) this'.
Proof.
  intros Hid Hvalues. simpl. unfold transpileNodeBody.
  change (0 <? Z.of_nat (length (getChildrenOfType _ _))) with false.
  cbv iota.
  unfold bind at 1. unfold getIndent at 1.
  unfold bind at 1. unfold transpileVariableStatement, forEach.
  rewrite (declarators_loop enumName _ _ Hid _ _ _ _ _ Hvalues).
  reflexivity.
Qed.

Lemma declarators_are_emitted_back_to_back_witness :
  transpileNode Sample.typeFlags Sample.kindName Sample.checker 2
    (VariableStatement []
       (VariableDeclarationList
          [VariableDeclaration (Sample.ident "a") (Some (NumericLiteral "1"));
           VariableDeclaration (Sample.ident "b")
             (Some (NumericLiteral "2"))])) newLuaTranspiler
  = Ok ("local a = 1local b = 2" ++ nl) newLuaTranspiler.
Proof.
  apply (declarators_are_emitted_back_to_back Sample.typeFlags
           Sample.kindName Sample.checker 1
           [(Sample.ident "a", NumericLiteral "1");
            (Sample.ident "b", NumericLiteral "2")]
           newLuaTranspiler newLuaTranspiler ["1"; "2"]);
    reflexivity.
Defined.

(** ** Imports without renaming *)

Lemma rename_guard_passes (node : Node) (elements : list Node) :
  existsb renames elements = false ->
  forall index this,
    forEachFrom
      (fun (_ : unit) element (_ : Z) =>
         match element with
         | ImportSpecifier (Some _) _ =>
             throw (TranspileError renamingError node)
         | _ => ret tt
         end) elements index tt this
    = Ok tt this.
Proof.
  induction elements as [| element rest IH]; simpl; intros Hex index this.
  - reflexivity.
  - apply orb_false_elim in Hex. destruct Hex as [Hel Hrest].
    unfold bind.
    destruct element; simpl in Hel; try (simpl; apply IH; exact Hrest).
    destruct propertyName; simpl in *.
    + discriminate.
    + apply IH. exact Hrest.
Qed.

(** X7: a named import none of whose elements renames is lowered to
    [require("m")] alone, with neither indentation nor line feed and with
    no binding of the imported names, and leaves the fields as they were;
    an import declaration with no import clause ([import "m"]) and one with
    only a default binding ([import d from "m"]) end in a [TypeError]. *)
Theorem import_without_renaming
    (TF : TypeFlags) (enumName : SyntaxKind -> string)
    (checker : TypeChecker) (fuel : nat) (m : string)
    (this : LuaTranspiler) :
  (forall elements : list Node,
     existsb renames elements = false ->
     transpileNode TF enumName checker (2 + fuel)
       (Sample.namedImport elements m) this
     = Ok ("require(" ++ (dq ++ m ++ dq) ++ ")") this) /\
  transpileNode TF enumName checker (2 + fuel)
    (ImportDeclaration [] None (StringLiteral m)) this
  = Throw TypeError /\
  (forall name : Node,
     transpileNode TF enumName checker (2 + fuel)
       (ImportDeclaration [] (Some (ImportClause (Some name) None))
          (StringLiteral m)) this
     = Throw TypeError).
Proof.
  split; [| split; [| intros name]; reflexivity].
  intros elements Hex.
  cbn -[forEach existsb]. unfold bind at 1. cbn -[forEach existsb].
  unfold bind, forEach.
  rewrite (rename_guard_passes _ _ Hex). reflexivity.
Qed.

Lemma import_without_renaming_witness :
  transpileNode Sample.typeFlags Sample.kindName Sample.checker 2
    (Sample.namedImport
       [ImportSpecifier None (Sample.ident "a");
        ImportSpecifier None (Sample.ident "b")] "m") newLuaTranspiler
  = Ok ("require(" ++ (dq ++ "m" ++ dq) ++ ")") newLuaTranspiler.
Proof.
  apply (proj1 (import_without_renaming Sample.typeFlags Sample.kindName
                  Sample.checker 0 "m" newLuaTranspiler)).
  reflexivity.
Defined.

(** ** Argument lists *)

Lemma transpileArguments_plain (te : Node -> bool -> M string)
    (arguments : list Node) this A this' :
  transpileEach te arguments this = Ok A this' ->
  transpileArguments te (Some arguments) None this
  = Ok (String.concat "," A) this'.
Proof.
  intros H. unfold transpileArguments.
  unfold bind at 1. unfold ret at 1.
  unfold bind at 1. simpl defined. unfold ret at 1.
  unfold bind at 1. unfold forEach.
  rewrite (arguments_loop _ _ _ _ _ _ _ H).
  unfold ret. simpl app. rewrite join_texts. reflexivity.
Qed.

Lemma transpileArguments_context (te : Node -> bool -> M string)
    (arguments : list Node) (context : Node) this C this1 A this2 :
  te context false this = Ok C this1 ->
  transpileEach te arguments this1 = Ok A this2 ->
  transpileArguments te (Some arguments) (Some context) this
  = Ok (String.concat "," (C :: A)) this2.
Proof.
  intros Hc H. unfold transpileArguments.
  unfold bind at 1. unfold bind at 1. rewrite Hc.
  unfold ret at 1. unfold bind at 1. simpl defined. unfold ret at 1.
  unfold bind at 1. unfold forEach.
  rewrite (arguments_loop _ _ _ _ _ _ _ H).
  unfold ret, push. simpl app.
  change (Some C :: map Some A) with (map Some (C :: A)).
  rewrite join_texts. reflexivity.
Qed.

(** X8: [new C(a1, ..., an)] is lowered to [C.new(true,a1,...,an)], with the
    callee transpiled before the arguments; [new C] with no argument list
    ends in a [TypeError] once the callee has been transpiled. *)
Theorem new_expression_passes_true
    (TF : TypeFlags) (enumName : SyntaxKind -> string)
    (checker : TypeChecker) (fuel : nat) (callee : Node)
    (arguments : list Node) (brackets : bool)
    (this this1 this2 : LuaTranspiler) (name : string) (A : list string) :
  transpileExpression TF enumName checker fuel callee false this
  = Ok name this1 ->
  (transpileEach (transpileExpression TF enumName checker fuel) arguments
     this1 = Ok A this2 ->
   transpileExpression TF enumName checker (S fuel)
     (NewExpression callee (Some arguments)) brackets this
   = Ok (name ++ ".new(" ++ String.concat "," ("true" :: A) ++ ")") this2)
  /\
  transpileExpression TF enumName checker (S fuel)
    (NewExpression callee None) brackets this
  = Throw TypeError.
Proof.
  intros Hname.
  assert (Htrue :
    transpileExpression TF enumName checker fuel (Token TrueKeyword) false
      this1 = Ok "true" this1).
  { destruct fuel; [discriminate Hname | reflexivity]. }
  split.
  - intros Hargs. simpl. unfold transpileNewExpression.
    unfold bind at 1. rewrite Hname.
    unfold bind at 1.
    rewrite (transpileArguments_context _ _ _ _ _ _ _ _ Htrue Hargs).
    reflexivity.
  - simpl. unfold transpileNewExpression.
    unfold bind at 1. rewrite Hname.
    unfold bind at 1. unfold transpileArguments.
    unfold bind at 1. unfold bind at 1. rewrite Htrue. reflexivity.
Qed.

Lemma new_expression_passes_true_witness :
  transpileExpression Sample.typeFlags Sample.kindName Sample.checker 2
    (NewExpression (Sample.ident "Foo") (Some [Sample.ident "x"])) false
    newLuaTranspiler
  = Ok "Foo.new(true,x)" newLuaTranspiler.
Proof.
  apply (new_expression_passes_true Sample.typeFlags Sample.kindName
           Sample.checker 1 (Sample.ident "Foo") [Sample.ident "x"] false
           newLuaTranspiler newLuaTranspiler newLuaTranspiler "Foo" ["x"]);
    reflexivity.
Defined.

(** X9: [super(a1, ..., an)] is lowered to
    [self.__base.constructor(self,a1,...,an)]. *)
Theorem super_call_passes_self
    (TF : TypeFlags) (enumName : SyntaxKind -> string)
    (checker : TypeChecker) (fuel : nat) (arguments : list Node)
    (brackets : bool) (this this' : LuaTranspiler) (A : list string) :
  transpileEach (transpileExpression TF enumName checker (S fuel)) arguments
    this = Ok A this' ->
  transpileExpression TF enumName checker (S (S fuel))
    (CallExpression (Token SuperKeyword) arguments) brackets this
  = Ok ("self.__base.constructor(" ++ String.concat "," ("self" :: A) ++ ")")
       this'.
Proof.
  intros Hargs.
  change (transpileCallExpression TF checker
            (transpileExpression TF enumName checker (S fuel))
            (CallExpression (Token SuperKeyword) arguments)
            (Token SuperKeyword) arguments this
          = Ok ("self.__base.constructor("
                  ++ String.concat "," ("self" :: A) ++ ")") this').
  unfold transpileCallExpression.
  change (isPropertyAccessExpression (Token SuperKeyword)) with false.
  change (SyntaxKind_beq (kind (Token SuperKeyword)) SuperKeyword) with true.
  cbv iota. unfold bind at 1.
  change (transpileExpression TF enumName checker (S fuel)
            (Token SuperKeyword) false this) with (Ok "self.__base" this).
  cbv iota beta. unfold bind at 1.
  rewrite (transpileArguments_context _ _ (Token ThisKeyword) this "self"
             this A this'); [reflexivity | reflexivity | exact Hargs].
Qed.

Lemma super_call_passes_self_witness :
  transpileExpression Sample.typeFlags Sample.kindName Sample.checker 2
    (CallExpression (Token SuperKeyword) [Sample.ident "x"]) false
    newLuaTranspiler
  = Ok "self.__base.constructor(self,x)" newLuaTranspiler.
Proof.
  apply (super_call_passes_self Sample.typeFlags Sample.kindName
           Sample.checker 0 [Sample.ident "x"] false newLuaTranspiler
           newLuaTranspiler ["x"]).
  reflexivity.
Defined.

(** ** Properties and methods of strings and arrays *)

(** X10: on a receiver whose type is a string or an array, the property
    [length] is lowered to [#R] with [R] the receiver's text, and every
    other property is rejected with a [TranspileError] that names it,
    before the receiver is transpiled. *)
Theorem string_and_array_properties
    (TF : TypeFlags) (enumName : SyntaxKind -> string)
    (checker : TypeChecker) (fuel : nat) (receiver : Node)
    (text escaped : string) (brackets : bool) (this : LuaTranspiler) :
  let type := getTypeAtLocation checker receiver in
  let node := PropertyAccessExpression receiver (Identifier text escaped) in
  let isString :=
    flagsAre TF type TypeFlags_String
    || flagsAre TF type TypeFlags_StringLiteral in
  let isArray :=
    negb isString && flagsAre TF type TypeFlags_Object && isArrayType type in
  let access :=
    transpileExpression TF enumName checker (S fuel) node brackets this in
  (isString || isArray = true ->
   escaped = "length" ->
   forall R this',
     transpileExpression TF enumName checker fuel receiver false this
     = Ok R this' ->
     access = Ok ("#" ++ R) this') /\
  (isString = true ->
   escaped <> "length" ->
   access
   = Throw (TranspileError ("Unsupported string property: " ++ escaped)
              node)) /\
  (isArray = true ->
   escaped <> "length" ->
   access
   = Throw (TranspileError ("Unsupported array property: " ++ escaped) node)).
Proof.
  intros type node isString isArray access.
  subst access node. simpl. unfold transpilePropertyAccessExpression.
  fold type. fold isString. subst isArray.
  unfold transpileStringProperty, transpileArrayProperty. cbn [strictEquals escapedText_of str].
  repeat split.
  - intros Hkind -> R this' HR. simpl.
    destruct isString; simpl in *.
    + unfold bind. rewrite HR. reflexivity.
    + apply andb_prop in Hkind. destruct Hkind as [-> ->].
      unfold bind. rewrite HR. reflexivity.
  - intros -> Hne. apply String.eqb_neq in Hne. rewrite Hne. reflexivity.
  - intros Harr Hne. apply String.eqb_neq in Hne.
    apply andb_prop in Harr. destruct Harr as [Harr ->].
    apply andb_prop in Harr. destruct Harr as [Hs ->].
    apply negb_true_iff in Hs. rewrite Hs, Hne. reflexivity.
Qed.

Lemma string_and_array_properties_witness :
  transpileExpression Sample.typeFlags Sample.kindName Sample.checker 2
    (PropertyAccessExpression (Sample.ident "xs") (Sample.ident "length"))
    false newLuaTranspiler
  = Ok "#xs" newLuaTranspiler.
Proof.
  apply (proj1 (string_and_array_properties Sample.typeFlags Sample.kindName
                  Sample.checker 1 (Sample.ident "xs") "length" "length"
                  false newLuaTranspiler));
    reflexivity.
Defined.

(** X11: a method call on a receiver of string type transpiles the arguments
    first and the receiver second; [replace] is lowered to
    [string.sub(R,args)], [indexOf] with one argument to
    [(string.find(R,args,1,true) or 0)-1] and with any other number of
    arguments to [(string.find(R,args+1,true) or 0)-1]; every other method
    is rejected with a [TranspileError] that names it. *)
Theorem string_method_calls
    (TF : TypeFlags) (enumName : SyntaxKind -> string)
    (checker : TypeChecker) (fuel : nat) (receiver : Node)
    (text escaped : string) (arguments : list Node) (brackets : bool)
    (this this1 this2 : LuaTranspiler) (A : list string) (R : string) :
  let type := getTypeAtLocation checker receiver in
  let node :=
    CallExpression (PropertyAccessExpression receiver (Identifier text escaped))
      arguments in
  let call :=
    transpileExpression TF enumName checker (S fuel) node brackets this in
  let P := String.concat "," A in
  flagsAre TF type TypeFlags_String || flagsAre TF type TypeFlags_StringLiteral
  = true ->
  transpileEach (transpileExpression TF enumName checker fuel) arguments this
  = Ok A this1 ->
  transpileExpression TF enumName checker fuel receiver false this1
  = Ok R this2 ->
  (escaped = "replace" ->
   call = Ok ("string.sub(" ++ R ++ "," ++ P ++ ")") this2) /\
  (escaped = "indexOf" ->
   length arguments = 1%nat ->
   call = Ok ("(string.find(" ++ R ++ "," ++ P ++ ",1,true) or 0)-1") this2) /\
  (escaped = "indexOf" ->
   length arguments <> 1%nat ->
   call = Ok ("(string.find(" ++ R ++ "," ++ P ++ "+1,true) or 0)-1") this2) /\
  (escaped <> "replace" ->
   escaped <> "indexOf" ->
   call
   = Throw (TranspileError ("Unsupported string function: " ++ escaped)
              node)).
Proof.
  intros type node call P Hstring Hargs Hrecv.
  assert (Hcall :
    call
    = transpileStringCallExpression
        (transpileExpression TF enumName checker fuel) node
        (PropertyAccessExpression receiver (Identifier text escaped))
        arguments this).
  { subst call node. simpl. unfold transpileCallExpression.
    change (isPropertyAccessExpression (PropertyAccessExpression _ _))
      with true.
    cbv iota. fold type. rewrite Hstring. reflexivity. }
  unfold transpileStringCallExpression in Hcall.
  unfold bind at 1 in Hcall.
  rewrite (transpileArguments_plain _ _ _ _ _ Hargs) in Hcall.
  unfold bind at 1 in Hcall. rewrite Hrecv in Hcall. fold P in Hcall.
  cbn [strictEquals escapedText_of str] in Hcall.
  rewrite Hcall. clear Hcall.
  repeat split.
  - intros ->. reflexivity.
  - intros -> Hlen. rewrite Hlen. reflexivity.
  - intros -> Hlen. simpl String.eqb.
    destruct (Z.eqb_spec (Z.of_nat (length arguments)) 1) as [E | E];
      [| reflexivity].
    exfalso. apply Hlen. lia.
  - intros H1 H2. apply String.eqb_neq in H1, H2. rewrite H1, H2.
    reflexivity.
Qed.

Lemma string_method_calls_witness :
  transpileExpression Sample.typeFlags Sample.kindName Sample.checker 2
    (CallExpression
       (PropertyAccessExpression (Sample.ident "s") (Sample.ident "indexOf"))
       [Sample.ident "x"]) false newLuaTranspiler
  = Ok "(string.find(s,x,1,true) or 0)-1" newLuaTranspiler.
Proof.
  apply (proj1 (proj2
           (string_method_calls Sample.typeFlags Sample.kindName
              Sample.checker 1 (Sample.ident "s") "indexOf" "indexOf"
              [Sample.ident "x"] false newLuaTranspiler newLuaTranspiler
              newLuaTranspiler ["x"] "s" eq_refl eq_refl eq_refl)));
    reflexivity.
Defined.

(** X12: a method call on a receiver of array type transpiles the arguments
    first and the receiver second; [push], [forEach], [map], [filter],
    [some], [every] and [slice] are lowered to [F(R, args)] with [F] the
    function of [arrayFunction], and every other method is rejected with a
    [TranspileError] that names it. *)
Theorem array_method_calls
    (TF : TypeFlags) (enumName : SyntaxKind -> string)
    (checker : TypeChecker) (fuel : nat) (receiver : Node)
    (text escaped : string) (arguments : list Node) (brackets : bool)
    (this this1 this2 : LuaTranspiler) (A : list string) (R : string) :
  let type := getTypeAtLocation checker receiver in
  let node :=
    CallExpression (PropertyAccessExpression receiver (Identifier text escaped))
      arguments in
  flagsAre TF type TypeFlags_String || flagsAre TF type TypeFlags_StringLiteral
  = false ->
  flagsAre TF type TypeFlags_Object = true ->
  isArrayType type = true ->
  transpileEach (transpileExpression TF enumName checker fuel) arguments this
  = Ok A this1 ->
  transpileExpression TF enumName checker fuel receiver false this1
  = Ok R this2 ->
  transpileExpression TF enumName checker (S fuel) node brackets this
  = match arrayFunction escaped with
    | Some f => Ok (f ++ "(" ++ R ++ ", " ++ String.concat "," A ++ ")") this2
    | None =>
        Throw (TranspileError ("Unsupported array function: " ++ escaped)
                 node)
    end.
Proof.
  intros type node Hstring Hobject Harray Hargs Hrecv. subst node.
  simpl. unfold transpileCallExpression.
  change (isPropertyAccessExpression (PropertyAccessExpression _ _)) with true.
  cbv iota. fold type. rewrite Hstring, Hobject, Harray.
  unfold transpileArrayCallExpression.
  unfold bind at 1. rewrite (transpileArguments_plain _ _ _ _ _ Hargs).
  unfold bind at 1. rewrite Hrecv. cbn [strictEquals escapedText_of str].
  unfold arrayFunction.
  repeat match goal with
         | |- context [String.eqb escaped ?m] =>
             destruct (String.eqb escaped m); [reflexivity |]
         end.
  reflexivity.
Qed.

Lemma array_method_calls_witness :
  transpileExpression Sample.typeFlags Sample.kindName Sample.checker 2
    (CallExpression
       (PropertyAccessExpression (Sample.ident "a") (Sample.ident "push"))
       [Sample.ident "x"]) false newLuaTranspiler
  = Ok "table.insert(a, x)" newLuaTranspiler.
Proof.
  apply (array_method_calls Sample.typeFlags Sample.kindName
           Sample.checker 1 (Sample.ident "a") "push" "push"
           [Sample.ident "x"] false newLuaTranspiler newLuaTranspiler
           newLuaTranspiler ["x"] "a");
    reflexivity.
Defined.

(** ** Brackets *)

(** X13: the [brackets] request changes the text of binary expressions only.
    For every other node the two requests give the same outcome; a binary
    expression under the request is its text without the request wrapped
    in parentheses, except a [+] whose left operand is a string, which is
    emitted as a bare [..] concatenation under both. *)
Theorem brackets_wrap_binary_expressions_only
    (TF : TypeFlags) (enumName : SyntaxKind -> string)
    (checker : TypeChecker) (fuel : nat) (this : LuaTranspiler) :
  (forall node,
     kindIs BinaryExpressionKind node = false ->
     transpileExpression TF enumName checker fuel node true this
     = transpileExpression TF enumName checker fuel node false this) /\
  (forall lhs operatorToken rhs X this',
     let concatenation :=
       kindIs PlusToken operatorToken
       && (negb (Z.land (flags (getTypeAtLocation checker lhs))
                   (TypeFlags_String TF) =? 0)
           || isStringLiteral lhs) in
     transpileExpression TF enumName checker fuel
       (BinaryExpression lhs operatorToken rhs) false this = Ok X this' ->
     transpileExpression TF enumName checker fuel
       (BinaryExpression lhs operatorToken rhs) true this
     = Ok (if concatenation then X else "(" ++ X ++ ")") this').
Proof.
  split.
  - intros node Hkind. destruct fuel; [reflexivity |].
    destruct node; try reflexivity. discriminate Hkind.
  - intros lhs operatorToken rhs X this' concatenation.
    subst concatenation.
    destruct fuel; [discriminate |]. simpl.
    unfold transpileBinaryExpression, bind, kindIs.
    destruct (transpileExpression TF enumName checker fuel lhs true this)
      as [L this1 | |]; try discriminate.
    destruct (transpileExpression TF enumName checker fuel rhs true this1)
      as [R this2 | |]; try discriminate.
    destruct (kind operatorToken); simpl;
      try (intros H; inversion H; subst; reflexivity).
    destruct (negb _ || _); intros H; inversion H; subst; reflexivity.
Qed.

Lemma brackets_wrap_binary_expressions_only_witness :
  transpileExpression Sample.typeFlags Sample.kindName Sample.checker 2
    (BinaryExpression (Sample.ident "x") (Token AsteriskToken)
       (NumericLiteral "2")) true newLuaTranspiler
  = Ok "(x*2)" newLuaTranspiler.
Proof.
  apply (proj2 (brackets_wrap_binary_expressions_only Sample.typeFlags
                  Sample.kindName Sample.checker 2 newLuaTranspiler)
           (Sample.ident "x") (Token AsteriskToken) (NumericLiteral "2")
           "x*2" newLuaTranspiler).
  reflexivity.
Defined.

(** ** Array destructuring, in general *)

Lemma destructuring_loop (parentName : string) (elements : list Node) :
  forallb isBindingElement elements = true ->
  forall index result this,
    forEachFrom
      (fun result elem index =>
         match elem with
         | BindingElement dotDotDotToken _ elemName _ =>
             i <- getIndent ;;
             match dotDotDotToken with
             | None =>
                 ret (result ++ i ++ "local " ++ str (escapedText_of elemName)
                        ++ " = " ++ parentName ++ "["
                        ++ numberToString (index + 1) ++ "]" ++ nl)
             | Some _ =>
                 ret (result ++ i ++ "local " ++ str (escapedText_of elemName)
                        ++ " = TS_slice(" ++ parentName ++ ", "
                        ++ numberToString index ++ ")" ++ nl)
             end
         | _ => throw TypeError
         end) elements index result this
    = Ok (result ++ destructuringLines (indent this) parentName index elements)
         this.
Proof.
  induction elements as [| elem rest IH]; simpl; intros Hall index result this.
  - unfold ret. rewrite string_append_empty. reflexivity.
  - apply andb_prop in Hall. destruct Hall as [Helem Hrest].
    destruct elem; try discriminate Helem.
    unfold bind at 1. unfold bind at 1. unfold getIndent at 1.
    destruct dotDotDotToken; unfold ret at 1; rewrite (IH Hrest);
      f_equal; cbn [destructuringLines indent];
      repeat first [rewrite string_append_assoc | progress cbn [append]];
      reflexivity.
Qed.

Lemma destructuring_loop_throws (parentName : string) (elements : list Node) :
  forallb isBindingElement elements = false ->
  forall index result this,
    forEachFrom
      (fun result elem index =>
         match elem with
         | BindingElement dotDotDotToken _ elemName _ =>
             i <- getIndent ;;
             match dotDotDotToken with
             | None =>
                 ret (result ++ i ++ "local " ++ str (escapedText_of elemName)
                        ++ " = " ++ parentName ++ "["
                        ++ numberToString (index + 1) ++ "]" ++ nl)
             | Some _ =>
                 ret (result ++ i ++ "local " ++ str (escapedText_of elemName)
                        ++ " = TS_slice(" ++ parentName ++ ", "
                        ++ numberToString index ++ ")" ++ nl)
             end
         | _ => throw TypeError
         end) elements index result this
    = Throw TypeError.
Proof.
  induction elements as [| elem rest IH]; simpl; intros Hall index result this.
  - discriminate.
  - destruct elem; try reflexivity. simpl in Hall.
    unfold bind at 1. unfold bind at 1. unfold getIndent at 1.
    destruct dotDotDotToken; unfold ret at 1; apply (IH Hall).
Qed.

(** X14: a declaration [let [e0, ..., ek] = init;] whose initializer has been
    transpiled to [V] binds [__destr<N>] to [V], where [N] is the counter
    after the initializer, increments the counter, and binds the element at
    index i to [__destr<N>[i+1]], or to [TS_slice(__destr<N>, i)] when it is
    a rest element; the first line carries the indentation the statement
    started with, the others the current one.  When an element is omitted,
    as in [let [, b] = xs;], the statement ends in a [TypeError]. *)
Theorem array_destructuring_in_general
    (TF : TypeFlags) (enumName : SyntaxKind -> string)
    (checker : TypeChecker) (fuel : nat) (elements : list Node)
    (initializer : Node) (this this' : LuaTranspiler) (V : string) :
  let parentName := "__destr" ++ numberToString (genVarCounter this') in
  let statement :=
    VariableStatement []
      (VariableDeclarationList
         [VariableDeclaration (ArrayBindingPattern elements)
            (Some initializer)]) in
  transpileExpression TF enumName checker fuel initializer false this
  = Ok V this' ->
  (forallb isBindingElement elements = true ->
   transpileNode TF enumName checker (S fuel) statement this
   = Ok (indent this ++ "local " ++ parentName ++ " = " ++ V ++ nl
           ++ destructuringLines (indent this') parentName 0 elements ++ nl)
        {| indent := indent this';
           genVarCounter := genVarCounter this' + 1;
           transpilingSwitch := transpilingSwitch this' |}) /\
  (forallb isBindingElement elements = false ->
   transpileNode TF enumName checker (S fuel) statement this
   = Throw TypeError).
Proof.
  intros parentName statement Hinit.
  assert (Hrun :
    transpileNode TF enumName checker (S fuel) statement this
    = match
        forEach
          (fun result elem index =>
             match elem with
             | BindingElement dotDotDotToken _ elemName _ =>
                 i <- getIndent ;;
                 match dotDotDotToken with
                 | None =>
                     ret (result ++ i ++ "local "
                            ++ str (escapedText_of elemName)
                            ++ " = " ++ parentName ++ "["
                            ++ numberToString (index + 1) ++ "]" ++ nl)
                 | Some _ =>
                     ret (result ++ i ++ "local "
                            ++ str (escapedText_of elemName)
                            ++ " = TS_slice(" ++ parentName ++ ", "
                            ++ numberToString index ++ ")" ++ nl)
                 end
             | _ => throw TypeError
             end) elements ("local " ++ parentName ++ " = " ++ V ++ nl)
          {| indent := indent this';
             genVarCounter := genVarCounter this' + 1;
             transpilingSwitch := transpilingSwitch this' |}
      with
      | Ok s this'' => Ok (indent this ++ s ++ nl) this''
      | Throw e => Throw e
      | OutOfFuel => OutOfFuel
      end).
  { subst statement. simpl. unfold transpileNodeBody.
    change (0 <? Z.of_nat (length (getChildrenOfType _ _))) with false.
    cbv iota. unfold bind at 1. unfold getIndent at 1.
    unfold bind at 1. unfold transpileVariableStatement, forEach at 1.
    simpl forEachFrom. unfold bind at 1. unfold bind at 1.
    unfold transpileVariableDeclaration.
    change (isIdentifier (ArrayBindingPattern elements)) with false.
    change (isArrayBindingPattern (ArrayBindingPattern elements)) with true.
    cbv iota. unfold bind at 1. unfold bind at 1. simpl defined.
    unfold ret at 1. rewrite Hinit.
    unfold bind at 1. unfold getGenVarCounter at 1.
    unfold bind at 1. unfold getGenVarCounter at 1.
    unfold bind at 1. unfold setGenVarCounter at 1. fold parentName.
    destruct (forEach _ elements _ _); reflexivity. }
  rewrite Hrun. clear Hrun. unfold forEach. split; intros Hall.
  - rewrite (destructuring_loop _ _ Hall). cbn [indent].
    f_equal.
    repeat first [rewrite string_append_assoc | progress cbn [append]].
    reflexivity.
  - rewrite (destructuring_loop_throws _ _ Hall). reflexivity.
Qed.

Lemma array_destructuring_in_general_witness :
  transpileNode Sample.typeFlags Sample.kindName Sample.checker 2
    (VariableStatement []
       (VariableDeclarationList
          [VariableDeclaration
             (ArrayBindingPattern
                [BindingElement None None (Sample.ident "a") None;
                 BindingElement (Some (Token DotDotDotToken)) None
                   (Sample.ident "rest") None])
             (Some (Sample.ident "xs"))])) newLuaTranspiler
  = Ok ("local __destr0 = xs" ++ nl ++ "local a = __destr0[1]" ++ nl
          ++ "local rest = TS_slice(__destr0, 1)" ++ nl ++ nl)
       {| indent := ""; genVarCounter := 1; transpilingSwitch := false |}.
Proof.
  apply (proj1 (array_destructuring_in_general Sample.typeFlags
                  Sample.kindName Sample.checker 1
                  [BindingElement None None (Sample.ident "a") None;
                   BindingElement (Some (Token DotDotDotToken)) None
                     (Sample.ident "rest") None]
                  (Sample.ident "xs") newLuaTranspiler newLuaTranspiler "xs"
                  eq_refl)).
  reflexivity.
Defined.

(** ** Functions without a body *)

Lemma collectParameterNames_outcome (parameters : list Node) :
  forall index paramNames this,
    (exists names,
       forEachFrom
         (fun paramNames param (_ : Z) =>
            name <- parameterName param ;; ret (push paramNames name))
         parameters index paramNames this = Ok names this) \/
    forEachFrom
      (fun paramNames param (_ : Z) =>
         name <- parameterName param ;; ret (push paramNames name))
      parameters index paramNames this = Throw TypeError.
Proof.
  induction parameters as [| param rest IH]; simpl;
    intros index paramNames this.
  - left. exists paramNames. reflexivity.
  - unfold bind at 1 3. unfold bind at 1 2.
    destruct param; try (right; reflexivity).
    simpl. apply IH.
Qed.

(** X15: a function declaration and a method declaration without a body (an
    overload signature, an abstract method) end in a [TypeError], whatever
    their parameters and the fields. *)
Theorem function_without_body_throws_TypeError
    (tn : Node -> M string) (name : Node) (parameters : list Node)
    (path : string) (this : LuaTranspiler) :
  transpileFunctionDeclaration tn (Some name) parameters None this
  = Throw TypeError /\
  transpileMethodDeclaration tn name parameters None path this
  = Throw TypeError.
Proof.
  unfold transpileFunctionDeclaration, transpileMethodDeclaration,
    collectParameterNames, forEach.
  split.
  - unfold bind at 1. simpl defined. unfold ret at 1. unfold bind at 1.
    destruct (collectParameterNames_outcome parameters 0 [] this)
      as [[names ->] | ->]; reflexivity.
  - unfold bind at 1.
    destruct (collectParameterNames_outcome parameters 0 [Some "self"] this)
      as [[names ->] | ->]; reflexivity.
Qed.

(** ** Function expressions *)

Lemma collectParameterNames_run (parameters : list Node) :
  forallb isParameter parameters = true ->
  forall index paramNames this,
    forEachFrom
      (fun paramNames param (_ : Z) =>
         name <- parameterName param ;; ret (push paramNames name))
      parameters index paramNames this
    = Ok (paramNames ++ map parameterNameOf parameters)%list this.
Proof.
  induction parameters as [| param rest IH]; simpl;
    intros Hall index paramNames this.
  - rewrite app_nil_r. reflexivity.
  - apply andb_prop in Hall. destruct Hall as [Hparam Hrest].
    destruct param; try discriminate Hparam.
    unfold bind at 1. unfold bind at 1. simpl parameterName.
    unfold ret at 1 2. rewrite (IH Hrest). unfold push.
    rewrite <- app_assoc. reflexivity.
Qed.

(** X16: an arrow function whose body is an expression is lowered to
    [function(p1,...,pn) return E end], with [E] the text of the body; a
    function expression, whose body is a block, is lowered through
    [transpileArrowFunction] to exactly what [transpileFunctionExpression]
    gives. *)
Theorem arrow_functions_and_function_expressions
    (TF : TypeFlags) (enumName : SyntaxKind -> string)
    (checker : TypeChecker) (fuel : nat) (modifiers parameters : list Node)
    (body : Node) (brackets : bool) (this : LuaTranspiler) :
  (isBlock body = false ->
   forallb isParameter parameters = true ->
   forall E this',
     transpileExpression TF enumName checker fuel body false this
     = Ok E this' ->
     transpileExpression TF enumName checker (S fuel)
       (ArrowFunction modifiers parameters body) brackets this
     = Ok ("function(" ++ join "," (map parameterNameOf parameters)
             ++ ") return " ++ E ++ " end") this') /\
  (isBlock body = true ->
   forall name,
     transpileExpression TF enumName checker (S fuel)
       (FunctionExpression modifiers name parameters body) brackets this
     = transpileFunctionExpression (transpileNode TF enumName checker fuel)
         parameters body this).
Proof.
  split.
  - intros Hblock Hall E this' Hbody. simpl.
    unfold transpileArrowFunction, collectParameterNames, forEach.
    unfold bind at 1. rewrite (collectParameterNames_run _ Hall).
    rewrite Hblock. unfold bind. rewrite Hbody. reflexivity.
  - intros Hblock name. simpl.
    unfold transpileArrowFunction, transpileFunctionExpression.
    rewrite Hblock. reflexivity.
Qed.

Lemma arrow_functions_and_function_expressions_witness :
  transpileExpression Sample.typeFlags Sample.kindName Sample.checker 2
    (ArrowFunction []
       [ParameterDeclaration None None (Sample.ident "x") None]
       (Sample.ident "y")) false newLuaTranspiler
  = Ok "function(x) return y end" newLuaTranspiler.
Proof.
  apply (proj1 (arrow_functions_and_function_expressions Sample.typeFlags
                  Sample.kindName Sample.checker 1 []
                  [ParameterDeclaration None None (Sample.ident "x") None]
                  (Sample.ident "y") false newLuaTranspiler)
           eq_refl eq_refl "y" newLuaTranspiler).
  reflexivity.
Defined.

(** ** Ambient declarations *)

Lemma filter_nonempty {A} (f : A -> bool) (l : list A) :
  existsb f l = true -> (0 <? Z.of_nat (length (filter f l))) = true.
Proof.
  induction l as [| x rest IH]; simpl; intros H.
  - discriminate.
  - destruct (f x); simpl in *.
    + apply Z.ltb_lt. lia.
    + apply IH. exact H.
Qed.

(** X17: a node of any kind that has a [declare] keyword among its children
    emits the empty text and leaves the fields as they were. *)
Theorem declared_node_emits_nothing
    (TF : TypeFlags) (enumName : SyntaxKind -> string)
    (checker : TypeChecker) (fuel : nat) (node : Node)
    (this : LuaTranspiler) :
  existsb (kindIs DeclareKeyword) (forEachChild node) = true ->
  transpileNode TF enumName checker (S fuel) node this = Ok "" this.
Proof.
  intros Hdeclare. simpl. unfold transpileNodeBody, getChildrenOfType,
    getChildren.
  rewrite (filter_nonempty _ _ Hdeclare). reflexivity.
Qed.

Lemma declared_node_emits_nothing_witness :
  transpileNode Sample.typeFlags Sample.kindName Sample.checker 1
    (FunctionDeclaration [Token DeclareKeyword] (Some (Sample.ident "f")) []
       None) newLuaTranspiler
  = Ok "" newLuaTranspiler.
Proof.
  apply (declared_node_emits_nothing Sample.typeFlags Sample.kindName
           Sample.checker 0).
  reflexivity.
Defined.

(** ** Indentation *)

Lemma substring_none (k : nat) (s : string) : substring k 0 s = "".
Proof.
  revert s. induction k as [| k IH]; intros s; destruct s; simpl;
    try reflexivity.
  apply IH.
Qed.

Lemma length_blank (n : nat) : String.length (blank n) = n.
Proof. induction n as [| n IH]; simpl; [reflexivity | rewrite IH; reflexivity]. Qed.

(** X18: at an indentation of [n] spaces, [pushIndent] followed by
    [popIndent] gives back the fields as they were; [popIndent] at an
    indentation of at most four spaces empties it. *)
Theorem pushIndent_popIndent_round_trip (n : nat) (this : LuaTranspiler) :
  indent this = blank n ->
  bind pushIndent (fun _ => popIndent) this = Ok tt this /\
  ((n <= 4)%nat ->
   popIndent this
   = Ok tt {| indent := ""; genVarCounter := genVarCounter this;
              transpilingSwitch := transpilingSwitch this |}).
Proof.
  intros Hi. split.
  - destruct this as [i c f]. simpl in Hi. subst i.
    unfold bind, pushIndent, popIndent, bind, getIndent, setIndent. simpl.
    rewrite blank_push, slice_blank. reflexivity.
  - intros Hn. unfold popIndent, bind, getIndent, setIndent.
    rewrite Hi. unfold slice. rewrite length_blank.
    replace (n - 4)%nat with 0%nat by lia.
    rewrite substring_none. reflexivity.
Qed.

Lemma pushIndent_popIndent_round_trip_witness :
  bind pushIndent (fun _ => popIndent) newLuaTranspiler
  = Ok tt newLuaTranspiler.
Proof.
  apply (proj1 (pushIndent_popIndent_round_trip 0 newLuaTranspiler eq_refl)).
Defined.

(** ** Unsupported nodes *)

(** X19: a [continue] statement, with or without a label, is rejected with
    the message [Unsupported expression kind: ] followed by the name of
    [ContinueStatement], not with the message about [continue]; a node of
    any kind the transpiler has no case for, with no [declare] keyword
    among its children, is rejected in the same way. *)
Theorem unsupported_statement_is_reported_as_expression
    (TF : TypeFlags) (enumName : SyntaxKind -> string)
    (checker : TypeChecker) (fuel : nat) (this : LuaTranspiler) :
  (forall label : option string,
     let node :=
       ContinueStatement (option_map (fun l => Identifier l l) label) in
     transpileNode TF enumName checker (2 + fuel) node this
     = Throw (TranspileError
                ("Unsupported expression kind: "
                   ++ enumName ContinueStatementKind) node)) /\
  (forall code children,
     existsb (kindIs DeclareKeyword) children = false ->
     transpileNode TF enumName checker (2 + fuel) (OtherNode code children)
       this
     = Throw (TranspileError
                ("Unsupported expression kind: " ++ enumName (OtherKind code))
                (OtherNode code children))).
Proof.
  split.
  - intros [label |]; reflexivity.
  - intros code children Hnone.
    assert (Hfilter :
      getChildrenOfType (OtherNode code children) (kindIs DeclareKeyword)
      = []).
    { unfold getChildrenOfType, getChildren. simpl forEachChild.
      induction children as [| x rest IH]; [reflexivity |].
      simpl in *. apply orb_false_elim in Hnone. destruct Hnone as [-> Hrest].
      apply IH. exact Hrest. }
    change (2 + fuel)%nat with (S (S fuel)). cbn [transpileNode].
    unfold transpileNodeBody. rewrite Hfilter. reflexivity.
Qed.

Lemma unsupported_statement_is_reported_as_expression_witness :
  transpileNode Sample.typeFlags Sample.kindName Sample.checker 2
    (OtherNode 0 [Sample.ident "x"]) newLuaTranspiler
  = Throw (TranspileError
             ("Unsupported expression kind: " ++ Sample.kindName (OtherKind 0))
             (OtherNode 0 [Sample.ident "x"])).
Proof.
  apply (proj2 (unsupported_statement_is_reported_as_expression
                  Sample.typeFlags Sample.kindName Sample.checker 0
                  newLuaTranspiler)).
  reflexivity.
Defined.

(** ** The fields after a source file *)

(** X20: when [transpileSourceFile] returns, the transpiler it created ends
    with an empty indentation, with [transpilingSwitch] false and with a
    counter that is not negative. *)
Theorem transpileSourceFile_leaves_fields_balanced
    (TF : TypeFlags) (enumName : SyntaxKind -> string)
    (checker : TypeChecker) (fuel : nat) (node : Node) (out : string)
    (this' : LuaTranspiler) :
  transpileSourceFile TF enumName checker fuel node = Ok out this' ->
  indent this' = "" /\ transpilingSwitch this' = false /\
  0 <= genVarCounter this'.
Proof.
  unfold transpileSourceFile. intros Hrun.
  destruct (fuel_reindents TF enumName checker fuel) as [_ Hindent].
  destruct (fuel_counterGrows TF enumName checker fuel) as [_ Hcounter].
  destruct (fuel_flagStaysOff TF enumName checker fuel) as [_ Hflag].
  repeat split.
  - assert (H : reindents 0
                  (transpileBlock (transpileNode TF enumName checker fuel)
                     node) 0)
      by (unfold transpileBlock; reindent).
    apply (H newLuaTranspiler out this' eq_refl Hrun).
  - pose proof flagStaysOff_refl as R_refl.
    pose proof flagStaysOff_trans as R_trans.
    assert (H : respects flagStaysOff
                  (transpileBlock (transpileNode TF enumName checker fuel)
                     node))
      by (unfold transpileBlock; respect).
    apply (H _ _ _ Hrun). reflexivity.
  - pose proof counterGrows_refl as R_refl.
    pose proof counterGrows_trans as R_trans.
    assert (H : respects counterGrows
                  (transpileBlock (transpileNode TF enumName checker fuel)
                     node))
      by (unfold transpileBlock; respect).
    apply (H _ _ _ Hrun).
Qed.

Lemma transpileSourceFile_leaves_fields_balanced_witness :
  indent {| indent := ""; genVarCounter := 2; transpilingSwitch := false |}
  = "" /\
  transpilingSwitch
    {| indent := ""; genVarCounter := 2; transpilingSwitch := false |}
  = false /\
  0 <= genVarCounter
         {| indent := ""; genVarCounter := 2; transpilingSwitch := false |}.
Proof.
  apply (transpileSourceFile_leaves_fields_balanced Sample.typeFlags
           Sample.kindName Sample.checker 7
           (Sample.sourceFile [Sample.breakAfterInnerSwitch])
           (lines
              ["-------Switch statement start-------";
               "if k==1 then";
               "    ::switchCase0::";
               "    -------Switch statement start-------";
               "    if j==2 then";
               "        ::switchCase0::";
               "        b()";
               "        goto switchDone0";
               "    end";
               "    ::switchDone0::";
               "    --------Switch statement end--------";
               "    break";
               "end";
               "::switchDone1::";
               "--------Switch statement end--------"])).
  reflexivity.
Defined.

(** ** Layout of compound statements *)

Lemma pushIndent_run (n : nat) (this : LuaTranspiler) :
  indent this = blank n ->
  pushIndent this = Ok tt (withIndent (blank (n + 4)) this).
Proof.
  intros Hi. unfold pushIndent, bind, getIndent, setIndent, withIndent.
  rewrite Hi, blank_push. reflexivity.
Qed.

Lemma popIndent_run (n : nat) (this : LuaTranspiler) :
  indent this = blank (n + 4) ->
  popIndent this = Ok tt (withIndent (blank n) this).
Proof.
  intros Hi. unfold popIndent, bind, getIndent, setIndent, withIndent.
  rewrite Hi, slice_blank. reflexivity.
Qed.

Section Layout.

Variable TF : TypeFlags.
Variable enumName : SyntaxKind -> string.
Variable checker : TypeChecker.
Variable fuel : nat.

#[local] Abbreviation te := (transpileExpression TF enumName checker fuel).
#[local] Abbreviation tn := (transpileNode TF enumName checker fuel).

Lemma transpileStatement_reindents (statement : Node) (n : nat) :
  reindents n (transpileStatement tn statement) n.
Proof.
  pose proof (proj2 (fuel_reindents TF enumName checker fuel)) as Htn.
  unfold transpileStatement, transpileBlock. reindent.
Qed.

(** A statement transpiled one level deeper, between [pushIndent] and
    [popIndent]. *)
Lemma indented_statement {B} (statement : Node) (k : string -> M B)
    (n : nat) (this this' : LuaTranspiler) (S : string) :
  indent this = blank n ->
  transpileStatement tn statement (withIndent (blank (n + 4)) this)
  = Ok S this' ->
  bind pushIndent
    (fun _ => bind (transpileStatement tn statement)
                (fun s => bind popIndent (fun _ => k s))) this
  = k S (withIndent (blank n) this').
Proof.
  intros Hi Hrun. unfold bind at 1. rewrite (pushIndent_run n this Hi).
  unfold bind at 1. rewrite Hrun. unfold bind at 1.
  rewrite (popIndent_run n this'); [reflexivity |].
  eapply transpileStatement_reindents; [| exact Hrun]. reflexivity.
Qed.

End Layout.

(** X21: a [while] statement at an indentation of [n] spaces is emitted as
    [while C do] at [n] spaces, the text of its body transpiled at [n + 4]
    spaces, and [end] at [n] spaces again; the indentation is back at [n]
    spaces afterwards. *)
Theorem while_statement_layout
    (TF : TypeFlags) (enumName : SyntaxKind -> string)
    (checker : TypeChecker) (fuel : nat) (expression statement : Node)
    (n : nat) (this this1 this2 : LuaTranspiler) (C S : string) :
  indent this = blank n ->
  transpileExpression TF enumName checker fuel expression false this
  = Ok C this1 ->
  transpileStatement (transpileNode TF enumName checker fuel) statement
    (withIndent (blank (n + 4)) this1) = Ok S this2 ->
  transpileWhile (transpileExpression TF enumName checker fuel)
    (transpileNode TF enumName checker fuel) expression statement this
  = Ok (blank n ++ "while " ++ C ++ " do" ++ nl ++ S ++ blank n ++ "end"
          ++ nl)
       (withIndent (blank n) this2).
Proof.
  intros Hi Hcond Hbody.
  assert (Hi1 : indent this1 = blank n).
  { eapply (proj1 (fuel_reindents TF enumName checker fuel)); eassumption. }
  unfold transpileWhile. unfold bind at 1. rewrite Hcond.
  unfold bind at 1. unfold getIndent at 1. cbv zeta.
  rewrite (indented_statement TF enumName checker fuel statement _ n this1
             this2 S Hi1 Hbody).
  unfold bind, getIndent, ret. rewrite Hi1. simpl indent.
  f_equal. repeat first [rewrite string_append_assoc | progress cbn [append]].
  reflexivity.
Qed.

Lemma while_statement_layout_witness :
  transpileWhile
    (transpileExpression Sample.typeFlags Sample.kindName Sample.checker 3)
    (transpileNode Sample.typeFlags Sample.kindName Sample.checker 3)
    (Sample.ident "c") (Block [Sample.callStatement "f"]) newLuaTranspiler
  = Ok ("" ++ "while " ++ "c" ++ " do" ++ nl ++ ("    f()" ++ nl) ++ ""
          ++ "end" ++ nl)
       newLuaTranspiler.
Proof.
  apply (while_statement_layout Sample.typeFlags Sample.kindName
           Sample.checker 3 (Sample.ident "c")
           (Block [Sample.callStatement "f"]) 0 newLuaTranspiler
           newLuaTranspiler (withIndent "    " newLuaTranspiler) "c"
           ("    f()" ++ nl));
    reflexivity.
Defined.

(** X22: an [if] statement at an indentation of [n] spaces is emitted as
    [if C then] at [n] spaces, the then-branch transpiled at [n + 4]
    spaces, when there is an else-branch [else] at [n] spaces and that
    branch transpiled at [n + 4] spaces, and [end] at [n] spaces. *)
Theorem if_statement_layout
    (TF : TypeFlags) (enumName : SyntaxKind -> string)
    (checker : TypeChecker) (fuel : nat)
    (expression thenStatement : Node) (n : nat)
    (this this1 this2 : LuaTranspiler) (C T : string) :
  indent this = blank n ->
  transpileExpression TF enumName checker fuel expression false this
  = Ok C this1 ->
  transpileStatement (transpileNode TF enumName checker fuel) thenStatement
    (withIndent (blank (n + 4)) this1) = Ok T this2 ->
  transpileIf (transpileExpression TF enumName checker fuel)
    (transpileNode TF enumName checker fuel) expression thenStatement None
    this
  = Ok (blank n ++ "if " ++ C ++ " then" ++ nl ++ T ++ blank n ++ "end" ++ nl)
       (withIndent (blank n) this2) /\
  (forall elseStatement this3 E,
     transpileStatement (transpileNode TF enumName checker fuel)
       elseStatement (withIndent (blank (n + 4)) this2) = Ok E this3 ->
     transpileIf (transpileExpression TF enumName checker fuel)
       (transpileNode TF enumName checker fuel) expression thenStatement
       (Some elseStatement) this
     = Ok (blank n ++ "if " ++ C ++ " then" ++ nl ++ T ++ blank n ++ "else"
             ++ nl ++ E ++ blank n ++ "end" ++ nl)
          (withIndent (blank n) this3)).
Proof.
  intros Hi Hcond Hthen.
  assert (Hi1 : indent this1 = blank n).
  { eapply (proj1 (fuel_reindents TF enumName checker fuel)); eassumption. }
  split; [| intros elseStatement this3 E Helse];
    unfold transpileIf; unfold bind at 1; rewrite Hcond;
    unfold bind at 1; unfold getIndent at 1; cbv zeta;
    rewrite (indented_statement TF enumName checker fuel thenStatement _ n
               this1 this2 T Hi1 Hthen).
  - unfold bind, getIndent, ret. rewrite Hi1. simpl indent.
    f_equal.
    repeat first [rewrite string_append_assoc | progress cbn [append]].
    reflexivity.
  - unfold bind at 1. unfold bind at 1. unfold getIndent at 1.
    assert (Hw : withIndent (blank (n + 4)) (withIndent (blank n) this2)
                 = withIndent (blank (n + 4)) this2) by reflexivity.
    rewrite <- Hw in Helse.
    rewrite (indented_statement TF enumName checker fuel elseStatement _ n
               (withIndent (blank n) this2) this3 E eq_refl Helse).
    unfold bind, getIndent, ret. rewrite Hi1. simpl indent.
    f_equal.
    repeat first [rewrite string_append_assoc | progress cbn [append]].
    reflexivity.
Qed.

Lemma if_statement_layout_witness :
  transpileIf
    (transpileExpression Sample.typeFlags Sample.kindName Sample.checker 3)
    (transpileNode Sample.typeFlags Sample.kindName Sample.checker 3)
    (Sample.ident "c") (Block [Sample.callStatement "f"]) None
    newLuaTranspiler
  = Ok ("" ++ "if " ++ "c" ++ " then" ++ nl ++ ("    f()" ++ nl) ++ ""
          ++ "end" ++ nl)
       newLuaTranspiler.
Proof.
  apply (proj1 (if_statement_layout Sample.typeFlags Sample.kindName
                  Sample.checker 3 (Sample.ident "c")
                  (Block [Sample.callStatement "f"]) 0 newLuaTranspiler
                  newLuaTranspiler (withIndent "    " newLuaTranspiler) "c"
                  ("    f()" ++ nl) eq_refl eq_refl eq_refl)).
Defined.

(** X23: [for (let x of e)] is emitted as [for _, x in P(E) do] and
    [for (let x in e)] as [for x, _ in P(E) do], where [P] is [ipairs] when
    the type of [e] is an array type and [pairs] otherwise; the body is
    transpiled at four more spaces and [end] is aligned with the header. *)
Theorem for_of_and_for_in_layout
    (TF : TypeFlags) (enumName : SyntaxKind -> string)
    (checker : TypeChecker) (fuel : nat) (name : Node)
    (init : option Node) (others : list Node) (expression statement : Node)
    (n : nat) (this this1 this2 : LuaTranspiler) (E S : string) :
  let initializer :=
    VariableDeclarationList (VariableDeclaration name init :: others) in
  let pairs :=
    if isArrayType (getTypeAtLocation checker expression)
    then "ipairs" else "pairs" in
  let x := str (escapedText_of name) in
  indent this = blank n ->
  transpileExpression TF enumName checker fuel expression false this
  = Ok E this1 ->
  transpileStatement (transpileNode TF enumName checker fuel) statement
    (withIndent (blank (n + 4)) this1) = Ok S this2 ->
  transpileForOf checker (transpileExpression TF enumName checker fuel)
    (transpileNode TF enumName checker fuel) initializer expression statement
    this
  = Ok (blank n ++ "for _, " ++ x ++ " in " ++ pairs ++ "(" ++ E ++ ") do"
          ++ nl ++ S ++ blank n ++ "end" ++ nl)
       (withIndent (blank n) this2) /\
  transpileForIn checker (transpileExpression TF enumName checker fuel)
    (transpileNode TF enumName checker fuel) initializer expression statement
    this
  = Ok (blank n ++ "for " ++ x ++ ", _ in " ++ pairs ++ "(" ++ E ++ ") do"
          ++ nl ++ S ++ blank n ++ "end" ++ nl)
       (withIndent (blank n) this2).
Proof.
  intros initializer pairs x Hi Hexp Hbody.
  assert (Hi1 : indent this1 = blank n).
  { eapply (proj1 (fuel_reindents TF enumName checker fuel)); eassumption. }
  split; [unfold transpileForOf | unfold transpileForIn];
    unfold bind at 1; simpl firstDeclaration; unfold ret at 1;
    unfold bind at 1; rewrite Hexp;
    unfold bind at 1; unfold getIndent at 1; cbv zeta;
    rewrite (indented_statement TF enumName checker fuel statement _ n
               this1 this2 S Hi1 Hbody);
    unfold bind, getIndent, ret; rewrite Hi1; simpl indent; simpl fst;
    fold x; fold pairs; f_equal;
    repeat first [rewrite string_append_assoc | progress cbn [append]];
    reflexivity.
Qed.

Lemma for_of_and_for_in_layout_witness :
  transpileForOf Sample.checker
    (transpileExpression Sample.typeFlags Sample.kindName Sample.checker 3)
    (transpileNode Sample.typeFlags Sample.kindName Sample.checker 3)
    (VariableDeclarationList [VariableDeclaration (Sample.ident "x") None])
    (Sample.ident "xs") (Block [Sample.callStatement "f"]) newLuaTranspiler
  = Ok ("" ++ "for _, " ++ "x" ++ " in " ++ "ipairs" ++ "(" ++ "xs" ++ ") do"
          ++ nl ++ ("    f()" ++ nl) ++ "" ++ "end" ++ nl)
       newLuaTranspiler.
Proof.
  apply (proj1 (for_of_and_for_in_layout Sample.typeFlags Sample.kindName
                  Sample.checker 3 (Sample.ident "x") None []
                  (Sample.ident "xs") (Block [Sample.callStatement "f"]) 0
                  newLuaTranspiler newLuaTranspiler
                  (withIndent "    " newLuaTranspiler) "xs"
                  ("    f()" ++ nl) eq_refl eq_refl eq_refl)).
Defined.

(** ** Increment and decrement *)

(** X24: [x++] and [++x] are lowered to the same text, and so are [x--] and
    [--x]; for [x++] the text is [O = O + 1], with [O] the text of the
    operand transpiled once. *)
Theorem postfix_and_prefix_updates_agree
    (TF : TypeFlags) (enumName : SyntaxKind -> string)
    (checker : TypeChecker) (fuel : nat) (operand : Node)
    (brackets : bool) (this : LuaTranspiler) :
  (transpileExpression TF enumName checker fuel
     (PostfixUnaryExpression operand PlusPlusToken) brackets this
   = transpileExpression TF enumName checker fuel
       (PrefixUnaryExpression PlusPlusToken operand) brackets this) /\
  (transpileExpression TF enumName checker fuel
     (PostfixUnaryExpression operand MinusMinusToken) brackets this
   = transpileExpression TF enumName checker fuel
       (PrefixUnaryExpression MinusMinusToken operand) brackets this) /\
  (forall O this',
     transpileExpression TF enumName checker fuel operand true this
     = Ok O this' ->
     transpileExpression TF enumName checker (S fuel)
       (PostfixUnaryExpression operand PlusPlusToken) brackets this
     = Ok (O ++ " = " ++ O ++ " + 1") this').
Proof.
  repeat split.
  - destruct fuel; reflexivity.
  - destruct fuel; reflexivity.
  - intros O this' Hop. simpl. unfold transpilePostfixUnaryExpression, bind.
    rewrite Hop. reflexivity.
Qed.

Lemma postfix_and_prefix_updates_agree_witness :
  transpileExpression Sample.typeFlags Sample.kindName Sample.checker 2
    (PostfixUnaryExpression (Sample.ident "i") PlusPlusToken) false
    newLuaTranspiler
  = Ok "i = i + 1" newLuaTranspiler.
Proof.
  apply (proj2 (proj2
           (postfix_and_prefix_updates_agree Sample.typeFlags Sample.kindName
              Sample.checker 1 (Sample.ident "i") false newLuaTranspiler))
           "i" newLuaTranspiler).
  reflexivity.
Defined.

(** ** Array literals *)

(** X25: an array literal is lowered to the texts of its elements between
    braces, separated by commas. *)
Theorem array_literal_is_a_table
    (TF : TypeFlags) (enumName : SyntaxKind -> string)
    (checker : TypeChecker) (fuel : nat) (elements : list Node)
    (brackets : bool) (this this' : LuaTranspiler) (A : list string) :
  transpileEach (transpileExpression TF enumName checker fuel) elements this
  = Ok A this' ->
  transpileExpression TF enumName checker (S fuel)
    (ArrayLiteralExpression elements) brackets this
  = Ok ("{" ++ String.concat "," A ++ "}") this'.
Proof.
  intros Hel. simpl. unfold transpileArrayLiteral, forEach.
  unfold bind at 1. rewrite (arguments_loop _ _ _ _ _ _ _ Hel).
  unfold ret. simpl app. rewrite join_texts. reflexivity.
Qed.

Lemma array_literal_is_a_table_witness :
  transpileExpression Sample.typeFlags Sample.kindName Sample.checker 2
    (ArrayLiteralExpression [NumericLiteral "1"; Sample.ident "y"]) false
    newLuaTranspiler
  = Ok "{1,y}" newLuaTranspiler.
Proof.
  apply (array_literal_is_a_table Sample.typeFlags Sample.kindName
           Sample.checker 1 [NumericLiteral "1"; Sample.ident "y"] false
           newLuaTranspiler newLuaTranspiler ["1"; "y"]).
  reflexivity.
Defined.

(** ** Constructors *)

Lemma constructor_parameters_loop (parameters : list Node) :
  forallb isParameter parameters = true ->
  forall index (fields names : list (option string)) this,
    forEachFrom
      (fun (acc : list (option string) * list (option string))
           param (_ : Z) =>
         let (extraInstanceFields, parameters') := acc in
         match param with
         | ParameterDeclaration modifiers _ name _ =>
             let extraInstanceFields :=
               match modifiers with
               | Some _ => push extraInstanceFields (escapedText_of name)
               | None => extraInstanceFields
               end in
             ret (extraInstanceFields, push parameters' (escapedText_of name))
         | _ => throw TypeError
         end) parameters index (fields, names) this
    = Ok ((fields
             ++ map parameterNameOf (filter hasModifiers parameters))%list,
          (names ++ map parameterNameOf parameters)%list) this.
Proof.
  induction parameters as [| param rest IH]; simpl;
    intros Hall index fields names this.
  - rewrite !app_nil_r. reflexivity.
  - apply andb_prop in Hall. destruct Hall as [Hparam Hrest].
    destruct param; try discriminate Hparam.
    unfold bind at 1. unfold ret at 1. rewrite (IH Hrest). unfold push.
    destruct modifiers; simpl; rewrite <- !app_assoc; reflexivity.
Qed.

Lemma field_assignments_loop (fields : list (option string)) :
  forall index result this,
    forEachFrom
      (fun result f (_ : Z) =>
         i <- getIndent ;;
         ret (result ++ i ++ "    self." ++ str f ++ " = " ++ str f ++ nl))
      fields index result this
    = Ok (result ++ fieldAssignments (indent this) fields) this.
Proof.
  induction fields as [| f rest IH]; simpl; intros index result this.
  - unfold ret. rewrite string_append_empty. reflexivity.
  - unfold bind at 1. unfold bind at 1. unfold getIndent at 1.
    unfold ret at 1. rewrite IH. f_equal.
    repeat first [rewrite string_append_assoc | progress cbn [append]].
    reflexivity.
Qed.

Lemma transpileBlock_reindents (TF : TypeFlags)
    (enumName : SyntaxKind -> string) (checker : TypeChecker) (fuel : nat)
    (node : Node) (n : nat) :
  reindents n (transpileBlock (transpileNode TF enumName checker fuel) node) n.
Proof.
  pose proof (proj2 (fuel_reindents TF enumName checker fuel)) as Htn.
  unfold transpileBlock. reindent.
Qed.

(** X26: a constructor of a class without initialized fields is emitted as
    [function C.constructor(self,p1,...,pn)], one line [self.p = p] for each
    parameter that carries a modifier, in the order of the parameters and
    one level deeper, then the body at that level, then [end] aligned with
    the header. *)
Theorem constructor_parameter_properties
    (TF : TypeFlags) (enumName : SyntaxKind -> string)
    (checker : TypeChecker) (fuel : nat) (parameters : list Node)
    (body : Node) (className : option string) (n : nat)
    (this this' : LuaTranspiler) (B : string) :
  forallb isParameter parameters = true ->
  indent this = blank n ->
  transpileBlock (transpileNode TF enumName checker fuel) body
    (withIndent (blank (n + 4)) this) = Ok B this' ->
  transpileConstructor (transpileExpression TF enumName checker fuel)
    (transpileNode TF enumName checker fuel) parameters (Some body) className
    [] this
  = Ok (blank n ++ "function " ++ str className ++ ".constructor("
          ++ join "," (Some "self" :: map parameterNameOf parameters) ++ ")"
          ++ nl
          ++ fieldAssignments (blank n)
               (map parameterNameOf (filter hasModifiers parameters))
          ++ B ++ blank n ++ "end" ++ nl)
       (withIndent (blank n) this').
Proof.
  intros Hall Hi Hbody. unfold transpileConstructor, forEach.
  unfold bind at 1. rewrite (constructor_parameters_loop _ Hall).
  simpl app. unfold bind at 1. unfold getIndent at 1.
  unfold bind at 1. rewrite field_assignments_loop.
  unfold bind at 1. simpl forEachFrom. unfold ret at 1.
  unfold bind at 1. rewrite (pushIndent_run n this Hi).
  unfold bind at 1. unfold bind at 1. simpl defined. unfold ret at 1.
  rewrite Hbody. unfold bind at 1.
  rewrite (popIndent_run n this');
    [| eapply transpileBlock_reindents; [| exact Hbody]; reflexivity].
  unfold bind, getIndent, ret. rewrite Hi. simpl indent. f_equal.
  repeat first [rewrite string_append_assoc | progress cbn [append]].
  reflexivity.
Qed.

Lemma constructor_parameter_properties_witness :
  transpileConstructor
    (transpileExpression Sample.typeFlags Sample.kindName Sample.checker 1)
    (transpileNode Sample.typeFlags Sample.kindName Sample.checker 1)
    [ParameterDeclaration (Some [Token PublicKeyword]) None (Sample.ident "x")
       None;
     ParameterDeclaration None None (Sample.ident "y") None]
    (Some (Block [])) (Some "C") [] newLuaTranspiler
  = Ok ("" ++ "function " ++ "C" ++ ".constructor(" ++ "self,x,y" ++ ")" ++ nl
          ++ ("    self.x = x" ++ nl) ++ "" ++ "" ++ "end" ++ nl)
       newLuaTranspiler.
Proof.
  apply (constructor_parameter_properties Sample.typeFlags Sample.kindName
           Sample.checker 1
           [ParameterDeclaration (Some [Token PublicKeyword]) None
              (Sample.ident "x") None;
            ParameterDeclaration None None (Sample.ident "y") None]
           (Block []) (Some "C") 0 newLuaTranspiler
           (withIndent "    " newLuaTranspiler) "");
    reflexivity.
Defined.

(** ** Classes *)

(** X27: a class [C] without members that is not an extension class emits
    [C = C or {}], [C.__index = C] and the function [C.new]; when it
    extends [B], the first line is [C = C or B.new()] and [C.__base = B]
    follows [C.__index = C].  The fields are left as they were. *)
Theorem class_without_members
    (TF : TypeFlags) (enumName : SyntaxKind -> string)
    (checker : TypeChecker) (fuel : nat) (text C : string)
    (this : LuaTranspiler) :
  let i := indent this in
  let name := Identifier text C in
  let afterHeader :=
    i ++ "function " ++ C ++ ".new(construct, ...)" ++ nl
      ++ i ++ "    local instance = setmetatable({}, " ++ C ++ ")" ++ nl
      ++ i ++ "    if construct and " ++ C ++ ".constructor then " ++ C
      ++ ".constructor(instance, ...) end" ++ nl
      ++ i ++ "    return instance" ++ nl
      ++ i ++ "end" ++ nl in
  (let node := ClassDeclaration [] (Some name) None [] in
   isExtensionClass (getTypeAtLocation checker node) = false ->
   transpileNode TF enumName checker (S fuel) node this
   = Ok (i ++ C ++ " = " ++ C ++ " or " ++ "{}" ++ nl
           ++ i ++ C ++ ".__index = " ++ C ++ nl
           ++ afterHeader) this) /\
  (forall baseText B,
     let base := ExpressionWithTypeArguments (Identifier baseText B) in
     let node :=
       ClassDeclaration [] (Some name)
         (Some [HeritageClause ExtendsKeyword [base]]) [] in
     isExtensionClass (getTypeAtLocation checker node) = false ->
     isPureAbstractClass (getTypeAtLocation checker base) = false ->
     hasCustomDecorator (getTypeAtLocation checker base) "!NoClassOr" = false ->
     transpileNode TF enumName checker (S fuel) node this
     = Ok (i ++ C ++ " = " ++ C ++ " or " ++ B ++ ".new()" ++ nl
             ++ i ++ C ++ ".__index = " ++ C ++ nl
             ++ i ++ C ++ ".__base = " ++ B ++ nl
             ++ afterHeader) this).
Proof.
  intros i name afterHeader. split.
  - intros node Hext. subst node. simpl. unfold transpileNodeBody.
    change (0 <? Z.of_nat (length (getChildrenOfType _ _))) with false.
    cbv iota. unfold transpileClass. rewrite Hext.
    cbn. unfold bind, ret, getIndent. cbn. f_equal.
    subst afterHeader i.
    repeat first [rewrite string_append_assoc | progress cbn [append]].
    reflexivity.
  - intros baseText B base node Hext Habstract Hdecorator. subst node.
    simpl. unfold transpileNodeBody.
    change (0 <? Z.of_nat (length (getChildrenOfType _ _))) with false.
    cbv iota. unfold transpileClass. rewrite Hext.
    unfold forEach at 1. simpl forEachFrom.
    unfold bind at 1. unfold bind at 1. unfold bind at 1.
    simpl defined. unfold ret at 1. fold base.
    rewrite Habstract, Hdecorator.
    cbn. unfold bind, ret, getIndent. cbn. f_equal.
    subst afterHeader i.
    repeat first [rewrite string_append_assoc | progress cbn [append]].
    reflexivity.
Qed.

Lemma class_without_members_witness :
  transpileNode Sample.typeFlags Sample.kindName Sample.checker 1
    (ClassDeclaration [] (Some (Sample.ident "C")) None []) newLuaTranspiler
  = Ok (lines
          ["C = C or {}";
           "C.__index = C";
           "function C.new(construct, ...)";
           "    local instance = setmetatable({}, C)";
           "    if construct and C.constructor then C.constructor(instance, ...) end";
           "    return instance";
           "end"]) newLuaTranspiler.
Proof.
  apply (proj1 (class_without_members Sample.typeFlags Sample.kindName
                  Sample.checker 0 "C" "C" newLuaTranspiler)).
  reflexivity.
Defined.

(** ** Object literals *)

Lemma forEachFrom_app {A B} (f : B -> A -> Z -> M B) (l1 l2 : list A) :
  forall index acc this,
    forEachFrom f (l1 ++ l2) index acc this
    = bind (forEachFrom f l1 index acc)
        (fun r => forEachFrom f l2 (index + Z.of_nat (length l1)) r) this.
Proof.
  induction l1 as [| x rest IH]; intros index acc this.
  - simpl. unfold bind, ret. rewrite Z.add_0_r. reflexivity.
  - cbn [app forEachFrom length]. unfold bind at 1 2 3.
    destruct (f acc x index this) as [acc' this1 | |]; try reflexivity.
    rewrite IH. unfold bind.
    replace (index + 1 + Z.of_nat (length rest))
      with (index + Z.of_nat (S (length rest))) by lia.
    reflexivity.
Qed.

Lemma object_literal_loop (te : Node -> bool -> M string)
    (properties : list (Node * Node)) :
  forallb (fun p => isIdentifier (fst p)) properties = true ->
  forall index collected this values this',
    transpileEach te (map snd properties) this = Ok values this' ->
    forEachFrom
      (fun collected assignment (_ : Z) =>
         let children := getChildren assignment in
         let value := nth_error children 1 in
         key <- defined (nth_error children 0) ;;
         if isIdentifier key
         then
           v <- (value <- defined value ;; te value false) ;;
           ret (push collected (Some (str (escapedText_of key) ++ "=" ++ v)))
         else if isComputedPropertyName key
         then
           index <- te key false ;;
           v <- (value <- defined value ;; te value false) ;;
           ret (push collected (Some (index ++ "=" ++ v)))
         else
           index <- te key false ;;
           v <- (value <- defined value ;; te value false) ;;
           ret (push collected (Some ("[" ++ index ++ "]=" ++ v))))
      (map propertyAssignment properties) index collected this
    = Ok (collected ++ map Some (tableFields properties values))%list this'.
Proof.
  induction properties as [| [key value] rest IH]; simpl;
    intros Hid index collected this values this' H.
  - inversion H; subst. simpl. rewrite app_nil_r. reflexivity.
  - apply andb_prop in Hid. destruct Hid as [Hkey Hrest].
    unfold bind in H.
    destruct (te value false this) as [v this1 | |] eqn:Hv; try discriminate.
    destruct (transpileEach te (map snd rest) this1) as [vs this2 | |] eqn:Hvs;
      try discriminate.
    inversion H; subst.
    unfold bind at 1. unfold bind at 1. unfold ret at 1. rewrite Hkey.
    unfold bind at 1. unfold bind at 1. unfold ret at 1. rewrite Hv.
    unfold ret at 1. rewrite (IH Hrest _ _ _ _ _ Hvs). unfold push.
    simpl. rewrite <- app_assoc. reflexivity.
Qed.

(** X28: an object literal whose properties are [key: value] with identifier
    keys is lowered to [{k1=v1,...,kn=vn}]; a shorthand property, as in
    [{a}], ends in a [TypeError] once the properties before it have been
    transpiled. *)
Theorem object_literal_is_a_table
    (TF : TypeFlags) (enumName : SyntaxKind -> string)
    (checker : TypeChecker) (fuel : nat) (properties : list (Node * Node))
    (brackets : bool) (this this' : LuaTranspiler) (values : list string) :
  forallb (fun p => isIdentifier (fst p)) properties = true ->
  transpileEach (transpileExpression TF enumName checker fuel)
    (map snd properties) this = Ok values this' ->
  transpileExpression TF enumName checker (S fuel)
    (ObjectLiteralExpression (map propertyAssignment properties)) brackets
    this
  = Ok ("{" ++ String.concat "," (tableFields properties values) ++ "}") this'
  /\
  (forall name others,
     transpileExpression TF enumName checker (S fuel)
       (ObjectLiteralExpression
          (map propertyAssignment properties
             ++ ShorthandPropertyAssignment (Identifier name name) :: others))
       brackets this
     = Throw TypeError).
Proof.
  intros Hid Hvalues. split.
  - simpl. unfold transpileObjectLiteral, forEach. unfold bind at 1.
    rewrite (object_literal_loop _ _ Hid _ _ _ _ _ Hvalues).
    unfold ret. simpl app. rewrite join_texts. reflexivity.
  - intros name others. simpl. unfold transpileObjectLiteral, forEach.
    unfold bind at 1. rewrite forEachFrom_app. unfold bind at 1.
    rewrite (object_literal_loop _ _ Hid _ _ _ _ _ Hvalues).
    reflexivity.
Qed.

Lemma object_literal_is_a_table_witness :
  transpileExpression Sample.typeFlags Sample.kindName Sample.checker 2
    (ObjectLiteralExpression
       [PropertyAssignment (Sample.ident "k") (NumericLiteral "1");
        PropertyAssignment (Sample.ident "l") (Sample.ident "y")]) false
    newLuaTranspiler
  = Ok "{k=1,l=y}" newLuaTranspiler.
Proof.
  apply (proj1 (object_literal_is_a_table Sample.typeFlags Sample.kindName
                  Sample.checker 1
                  [(Sample.ident "k", NumericLiteral "1");
                   (Sample.ident "l", Sample.ident "y")] false
                  newLuaTranspiler newLuaTranspiler ["1"; "y"] eq_refl
                  eq_refl)).
Defined.

(** ** Template literals *)

Lemma template_loop (te : Node -> bool -> M string)
    (spans : list (Node * Node)) :
  forall index parts this texts this',
    transpileEach (fun node _ => te node true) (map fst spans) this
    = Ok texts this' ->
    forEachFrom
      (fun parts span (_ : Z) =>
         match span with
         | TemplateSpan spanExpression literal =>
             expr <- te spanExpression true ;;
             if isTemplateTail literal
             then ret (push parts
                    (Some (expr ++ ".." ++ dq ++ str (text_of literal) ++ dq)))
             else ret (push parts
                    (Some (expr ++ ".." ++ dq ++ str (text_of literal) ++ dq)))
         | _ => throw TypeError
         end) (map templateSpan spans) index parts this
    = Ok (parts ++ map Some (spanPieces spans texts))%list this'.
Proof.
  induction spans as [| [expression literal] rest IH]; simpl;
    intros index parts this texts this' H.
  - inversion H; subst. simpl. rewrite app_nil_r. reflexivity.
  - unfold bind in H.
    destruct (te expression true this) as [text this1 | |] eqn:Htext;
      try discriminate.
    destruct (transpileEach _ (map fst rest) this1) as [others this2 | |]
      eqn:Hrest; try discriminate.
    inversion H; subst.
    unfold bind at 1. unfold bind at 1. rewrite Htext.
    destruct (isTemplateTail literal); unfold ret at 1;
      rewrite (IH _ _ _ _ _ Hrest); unfold push; simpl;
      rewrite <- app_assoc; reflexivity.
Qed.

(** X29: a template literal is lowered to its head between double quotes
    followed, for each span, by the text of the span's expression,
    transpiled under the brackets request, and the span's literal between
    double quotes, all joined by [..]; the texts of the head and of the
    literals are emitted as they are. *)
Theorem template_is_a_concatenation
    (TF : TypeFlags) (enumName : SyntaxKind -> string)
    (checker : TypeChecker) (fuel : nat) (head : Node)
    (spans : list (Node * Node)) (brackets : bool)
    (this this' : LuaTranspiler) (texts : list string) :
  transpileEach
    (fun node _ => transpileExpression TF enumName checker fuel node true)
    (map fst spans) this = Ok texts this' ->
  transpileExpression TF enumName checker (S fuel)
    (TemplateExpression head (map templateSpan spans)) brackets this
  = Ok (String.concat ".."
          ((dq ++ str (text_of head) ++ dq) :: spanPieces spans texts))
       this'.
Proof.
  intros Htexts. rewrite <- join_texts.
  change (transpileTemplateExpression
            (transpileExpression TF enumName checker fuel) head
            (map templateSpan spans) this
          = Ok (join ".."
                  (map Some
                     ((dq ++ str (text_of head) ++ dq)
                        :: spanPieces spans texts))) this').
  unfold transpileTemplateExpression, forEach.
  unfold bind at 1. rewrite (template_loop _ _ _ _ _ _ _ Htexts).
  reflexivity.
Qed.

Lemma template_is_a_concatenation_witness :
  transpileExpression Sample.typeFlags Sample.kindName Sample.checker 2
    (TemplateExpression (TemplateHead "hi ")
       [TemplateSpan (Sample.ident "name") (TemplateTail "!")]) false
    newLuaTranspiler
  = Ok (dq ++ "hi " ++ dq ++ ".." ++ "name" ++ ".." ++ dq ++ "!" ++ dq)
       newLuaTranspiler.
Proof.
  apply (template_is_a_concatenation Sample.typeFlags Sample.kindName
           Sample.checker 1 (TemplateHead "hi ")
           [(Sample.ident "name", TemplateTail "!")] false newLuaTranspiler
           newLuaTranspiler ["name"]).
  reflexivity.
Defined.

(** ** Numeric loops *)

(** X30: a [for] statement ends in a [TypeError], whatever its condition and
    incrementor, when it has no initializer, as in [for (;;)], when its
    initializer is not a variable declaration list, as in
    [for (i = 0; ...)], and when the first declared variable has no
    initial value, as in [for (let i; ...)]. *)
Theorem for_statement_needs_a_declared_start
    (te : Node -> bool -> M string) (tn : Node -> M string) (node : Node)
    (condition incrementor : option Node) (statement : Node)
    (this : LuaTranspiler) :
  transpileFor te tn node None condition incrementor statement this
  = Throw TypeError /\
  (forall initializer,
     kindIs VariableDeclarationListKind initializer = false ->
     transpileFor te tn node (Some initializer) condition incrementor
       statement this
     = Throw TypeError) /\
  (forall name others,
     transpileFor te tn node
       (Some (VariableDeclarationList
                (VariableDeclaration name None :: others)))
       condition incrementor statement this
     = Throw TypeError).
Proof.
  split; [reflexivity | split].
  - intros initializer Hkind. unfold transpileFor.
    unfold bind at 1. simpl defined. unfold ret at 1. unfold bind at 1.
    destruct initializer; try reflexivity. discriminate Hkind.
  - intros name others. reflexivity.
Qed.

Lemma for_statement_needs_a_declared_start_witness :
  transpileFor
    (transpileExpression Sample.typeFlags Sample.kindName Sample.checker 2)
    (transpileNode Sample.typeFlags Sample.kindName Sample.checker 2)
    (ForStatement
       (Some (BinaryExpression (Sample.ident "i") (Token EqualsToken)
                (NumericLiteral "0"))) None None (Block []))
    (Some (BinaryExpression (Sample.ident "i") (Token EqualsToken)
             (NumericLiteral "0"))) None None (Block []) newLuaTranspiler
  = Throw TypeError.
Proof.
  apply (proj1 (proj2
           (for_statement_needs_a_declared_start
              (transpileExpression Sample.typeFlags Sample.kindName
                 Sample.checker 2)
              (transpileNode Sample.typeFlags Sample.kindName Sample.checker 2)
              (ForStatement
                 (Some (BinaryExpression (Sample.ident "i")
                          (Token EqualsToken) (NumericLiteral "0")))
                 None None (Block []))
              None None (Block []) newLuaTranspiler))).
  reflexivity.
Defined.
